(** * FTPClient.cpp: the wildcard download engine and DownloadFile

    A shallow embedding of [CFTPClient::DownloadWildcard], its three
    libcurl callbacks ([FileIsComingCallback], [WriteItCallback],
    [FileIsDownloadedCallback]), [CFTPClient::DownloadFile] with
    [WriteToFileCallback], and the string helpers they use
    ([ParseURL], [ReplaceString]).

    State is passed explicitly.  The member functions read the client
    object, talk to local storage, to the logger and to the transfer
    engine; the embedding threads a [world] (local storage, the log, the
    list of performed URLs) through every call.

    - [std::string] is [string] (a list of 8-bit characters);
    - [size_t] is [N], products are reduced modulo 2^64;
    - [CURLcode] is [N] with the named constants of libcurl;
    - local storage is a finite map from path to node ([gmap]);
    - [DownloadWildcard] recurses on what the server answers, so it takes
      a fuel argument and returns [None] when the fuel is used up. *)

From Stdlib Require Import NArith String Ascii List Bool Lia.
From stdpp Require Import base option gmap strings list.

Local Open Scope string_scope.
Local Open Scope N_scope.

(** ** std::string helpers *)

Module Str.

(** [s.empty()] *)
Definition empty (s : string) : bool :=
  match s with EmptyString => true | String _ _ => false end.

(** [s[s.length() - 1]], for a non-empty [s]. *)
Fixpoint back (s : string) : option ascii :=
  match s with
  | EmptyString => None
  | String c r => match r with EmptyString => Some c | String _ _ => back r end
  end.

(** [s[s.length() - 1] == c] *)
Definition back_is (c : ascii) (s : string) : bool :=
  match back s with Some d => Ascii.eqb d c | None => false end.

(** [s.substr(0, s.length() - 1)], for a non-empty [s]. *)
Fixpoint chop (s : string) : string :=
  match s with
  | EmptyString => EmptyString
  | String c r => match r with EmptyString => EmptyString | String _ _ => String c (chop r) end
  end.

(** [s.substr(0, n)] *)
Fixpoint take (n : nat) (s : string) : string :=
  match n, s with
  | S n', String c r => String c (take n' r)
  | _, _ => EmptyString
  end.

Definition size (s : string) : N := N.of_nat (String.length s).

(** [::toupper] in the C locale. *)
Definition toupper (c : ascii) : ascii :=
  let n := N_of_ascii c in
  if (97 <=? n) && (n <=? 122) then ascii_of_N (n - 32) else c.

Fixpoint transform (f : ascii -> ascii) (s : string) : string :=
  match s with
  | EmptyString => EmptyString
  | String c r => String (f c) (transform f r)
  end.

(** [s.compare(0, n, t) != 0] *)
Definition compare_ne (n : nat) (t s : string) : bool :=
  negb (String.eqb (take n s) t).

(** Removes every trailing [c]. *)
Fixpoint rstrip (c : ascii) (s : string) : string :=
  match s with
  | EmptyString => EmptyString
  | String d r =>
      let r' := rstrip c r in
      if empty r' && Ascii.eqb d c then EmptyString else String d r'
  end.

Fixpoint contains (c : ascii) (s : string) : bool :=
  match s with
  | EmptyString => false
  | String d r => Ascii.eqb d c || contains c r
  end.

(** What precedes the last [c] of [s]; empty when [s] has no [c]. *)
Fixpoint before_last (c : ascii) (s : string) : string :=
  match s with
  | EmptyString => EmptyString
  | String d r => if contains c r then String d (before_last c r) else EmptyString
  end.

End Str.

(** ** Local storage

    [stat], [mkdir], [std::ofstream] and [remove] act on the local file
    system.  It is modelled as a finite map from path to node.  A
    directory is looked up under its path without trailing separators, so
    ["out/2024"] and ["out/2024/"] name the same directory; the empty key
    is the directory relative paths start from.  A new node can only be
    created inside an existing directory.  Links, [.] and [..],
    permissions and device errors are not modelled. *)

Inductive fnode : Type :=
  | DirNode
  | FileNode (content : string).

Abbreviation storage := (gmap string fnode).

Module LocalFS.
Section WithSeparator.

Variable sep : ascii.

Definition key (path : string) : string := Str.rstrip sep path.

Definition parent (path : string) : string :=
  Str.rstrip sep (Str.before_last sep (key path)).

Definition is_dir_node (o : option fnode) : bool :=
  match o with Some DirNode => true | _ => false end.

Definition is_file_node (o : option fnode) : bool :=
  match o with Some (FileNode _) => true | _ => false end.

(** [stat(path, &info) == 0 && (info.st_mode & S_IFDIR)] *)
Definition stat_is_dir (fs : storage) (path : string) : bool :=
  is_dir_node (fs !! key path).

Definition EEXIST : N := 17.
Definition ENOENT : N := 2.

(** [mkdir(path, mode)]: [None] is the return value 0, [Some e] is a
    non-zero return value with [errno = e]. *)
Definition mkdir (fs : storage) (path : string) : option N * storage :=
  match fs !! key path with
  | Some _ => (Some EEXIST, fs)
  | None =>
      if is_dir_node (fs !! parent path)
      then (None, <[key path := DirNode]> fs)
      else (Some ENOENT, fs)
  end.

(** Opening [path] with [out | binary | trunc]: [None] when the file
    cannot be opened, otherwise the storage with the file emptied or
    created. *)
Definition open_trunc (fs : storage) (path : string) : option storage :=
  if Str.empty path || Str.back_is sep path then None
  else match fs !! path with
       | Some DirNode => None
       | Some (FileNode _) => Some (<[path := FileNode EmptyString]> fs)
       | None =>
           if is_dir_node (fs !! parent path)
           then Some (<[path := FileNode EmptyString]> fs)
           else None
       end.

(** Appending bytes to an open file. *)
Definition append (fs : storage) (path bytes : string) : storage :=
  match fs !! path with
  | Some (FileNode c) => <[path := FileNode (c +:+ bytes)]> fs
  | _ => fs
  end.

(** [remove(path)] on a regular file; other nodes are left alone. *)
Definition remove (fs : storage) (path : string) : storage :=
  match fs !! path with
  | Some (FileNode _) => delete path fs
  | _ => fs
  end.

End WithSeparator.
End LocalFS.

(** ** std::ofstream

    The stream knows which file it has open and its fail bit.  [open] on
    a stream that is already open fails and leaves the old file open;
    a successful [open] clears the state; [write] does nothing once the
    fail bit is set. *)

Record ofstream : Type := mk_ofstream {
  of_file : option string;
  of_fail : bool
}.

Module Ofs.
Section WithSeparator.

Variable sep : ascii.

Definition fresh : ofstream := mk_ofstream None false.

Definition is_open (o : ofstream) : bool :=
  match of_file o with Some _ => true | None => false end.

(** [if (ofs)], that is [!ofs.fail()] *)
Definition good (o : ofstream) : bool := negb (of_fail o).

Definition open (o : ofstream) (path : string) (fs : storage) : ofstream * storage :=
  match of_file o with
  | Some _ => (mk_ofstream (of_file o) true, fs)
  | None =>
      match LocalFS.open_trunc sep fs path with
      | Some fs' => (mk_ofstream (Some path) false, fs')
      | None => (mk_ofstream None true, fs)
      end
  end.

Definition write (o : ofstream) (bytes : string) (fs : storage) : ofstream * storage :=
  if of_fail o then (o, fs)
  else match of_file o with
       | Some path => (o, LocalFS.append fs path bytes)
       | None => (mk_ofstream None true, fs)
       end.

Definition close (o : ofstream) : ofstream :=
  match of_file o with
  | Some _ => mk_ofstream None (of_fail o)
  | None => mk_ofstream None true
  end.

End WithSeparator.
End Ofs.

(** ** The transfer engine's vocabulary (libcurl)

    These come from [curl/curl.h], which the client includes. *)

Definition CURLcode := N.
Definition CURLE_OK : CURLcode := 0.
Definition CURLE_WRITE_ERROR : CURLcode := 23.
Definition CURLE_REMOTE_FILE_NOT_FOUND : CURLcode := 78.
Definition CURLE_CHUNK_FAILED : CURLcode := 88.

Inductive curlfiletype : Type :=
  | CURLFILETYPE_FILE
  | CURLFILETYPE_DIRECTORY
  | CURLFILETYPE_SYMLINK
  | CURLFILETYPE_DEVICE_BLOCK
  | CURLFILETYPE_DEVICE_CHAR
  | CURLFILETYPE_NAMEDPIPE
  | CURLFILETYPE_SOCKET
  | CURLFILETYPE_DOOR
  | CURLFILETYPE_UNKNOWN.

Record curl_fileinfo : Type := mk_fileinfo {
  filename : string;
  filetype : curlfiletype
}.

(** Return values of the [CURLOPT_CHUNK_BGN_FUNCTION] callback. *)
Inductive chunk_bgn : Type :=
  | CURL_CHUNK_BGN_FUNC_OK
  | CURL_CHUNK_BGN_FUNC_FAIL
  | CURL_CHUNK_BGN_FUNC_SKIP.

(** Return values of the [CURLOPT_CHUNK_END_FUNCTION] callback. *)
Inductive chunk_end : Type :=
  | CURL_CHUNK_END_FUNC_OK
  | CURL_CHUNK_END_FUNC_FAIL.

(** [size * nmemb] on [size_t]. *)
Definition size_mul (a b : N) : N := (a * b) mod 2 ^ 64.

(** ** The client object and the world around it *)

Inductive FTP_PROTOCOL : Type := FTP | FTPS | FTPES | SFTP.

Record CFTPClient : Type := mk_client {
  m_strServer : string;
  m_eFtpProtocol : FTP_PROTOCOL;
  m_eSettingsFlags : N;
  m_pCurlSession : bool   (* [true]: the session pointer is not null *)
}.

(** What is handed to the logger [m_oLog].  The format strings are macros
    of the header; an entry keeps the macro's name and its arguments. *)
Inductive log_entry : Type :=
  | LOG_ERROR_CURL_NOT_INIT_MSG
  | LOG_ERROR_CURL_GETFILE_FORMAT (server remote : string) (res : CURLcode)
  | LOG_ERROR_FILE_GETFILE_FORMAT
  | LOG_ERROR_CURL_GETWILD_FORMAT (server remote : string) (res : CURLcode)
  | LOG_ERROR_CURL_GETWILD_REC_FORMAT (remote localpath : string)
  | LOG_ERROR_DIR_GETWILD_FORMAT (localpath : string).

Record world : Type := mk_world {
  fs : storage;              (* local storage *)
  logged : list log_entry;   (* calls of [m_oLog], oldest first *)
  performed : list string    (* URLs of the [curl_easy_perform] calls, oldest first *)
}.

Definition set_fs (w : world) (f : storage) : world :=
  mk_world f (logged w) (performed w).

Definition m_oLog (e : log_entry) (w : world) : world :=
  mk_world (fs w) (logged w ++ [e]) (performed w).

Definition contact (url : string) (w : world) : world :=
  mk_world (fs w) (logged w) (performed w ++ [url]).

(** One entry of a remote directory as the transfer engine walks it: the
    file information it announces and, for a regular file, the chunks of
    data it then delivers. *)
Record remote_item : Type := mk_item {
  ri_info : curl_fileinfo;
  ri_chunks : list string
}.

(** The remote side.  For a wildcard URL the server gives the matching
    entries in the order they are announced and the status the transfer
    ends with when no callback stops it; for a file URL it gives the
    chunks of the file and the final status. *)
Record server : Type := mk_server {
  srv_wildcard : string -> list remote_item * CURLcode;
  srv_file : string -> list string * CURLcode
}.

(** The state the three wildcard callbacks share
    ([CURLOPT_CHUNK_DATA] and [CURLOPT_WRITEDATA]). *)
Record WildcardTransfersCallbackData : Type := mk_data {
  ofsOutput : ofstream;
  strOutputPath : string;
  vecDirList : list string
}.

Definition set_ofsOutput (data : WildcardTransfersCallbackData) (o : ofstream) :=
  mk_data o (strOutputPath data) (vecDirList data).

Definition push_back_dir (data : WildcardTransfersCallbackData) (name : string) :=
  mk_data (ofsOutput data) (strOutputPath data) (vecDirList data ++ [name]).

(** [v.empty()] on a [std::vector]. *)
Definition vec_empty {A : Type} (v : list A) : bool :=
  match v with [] => true | _ :: _ => false end.

Module FTPClient.
Section Client.

(** The [LINUX] macro chooses the path separator. *)
Variable LINUX : bool.

(** The [ENABLE_LOG] bit of [SettingsFlag], declared in the header. *)
Variable ENABLE_LOG : N.

Definition path_sep : ascii := if LINUX then "/"%char else "\"%char.

(** [m_eSettingsFlags & ENABLE_LOG] *)
Definition log_enabled (c : CFTPClient) : bool :=
  negb (N.land (m_eSettingsFlags c) ENABLE_LOG =? 0).

(** [if (m_eSettingsFlags & ENABLE_LOG) m_oLog(e);] *)
Definition log_if_enabled (c : CFTPClient) (e : log_entry) (w : world) : world :=
  if log_enabled c then m_oLog e w else w.

(** *** String helpers *)

Fixpoint replace_from (s search repl : string) (skip : nat) : string :=
  match s with
  | EmptyString => EmptyString
  | String c r =>
      match skip with
      | S k => replace_from r search repl k
      | O =>
          if String.prefix search (String c r)
          then repl +:+ replace_from r search repl (String.length search - 1)
          else String c (replace_from r search repl 0)
      end
  end.

Definition ReplaceString (strSubject strSearch strReplace : string) : string :=
  if Str.empty strSearch then strSubject
  else replace_from strSubject strSearch strReplace 0.

Definition ParseURL (c : CFTPClient) (strRemoteFile : string) : string :=
  let strURL := ReplaceString (m_strServer c +:+ "/" +:+ strRemoteFile) "/" "//" in
  let strUri := Str.transform Str.toupper strURL in
  if Str.compare_ne 3 "FTP" strUri && Str.compare_ne 4 "SFTP" strUri then
    match m_eFtpProtocol c with
    | FTP => "ftp://" +:+ strURL
    | FTPS => "ftps://" +:+ strURL
    | FTPES => "ftpes://" +:+ strURL
    | SFTP => "sftp://" +:+ strURL
    end
  else strURL.

(** *** Callbacks *)

(** Called before an incoming item is processed.  The message the source
    prints to [std::cerr] when [mkdir] fails is not kept. *)
Definition FileIsComingCallback (finfo : curl_fileinfo)
    (data : WildcardTransfersCallbackData) (remains : N) (f : storage)
  : chunk_bgn * WildcardTransfersCallbackData * storage :=
  match filetype finfo with
  | CURLFILETYPE_DIRECTORY =>
      let data1 := push_back_dir data (filename finfo) in
      match LocalFS.mkdir path_sep f (strOutputPath data +:+ filename finfo) with
      | (Some errno, f1) =>
          if negb (errno =? LocalFS.EEXIST)
          then (CURL_CHUNK_BGN_FUNC_FAIL, data1, f1)
          else (CURL_CHUNK_BGN_FUNC_OK, data1, f1)
      | (None, f1) => (CURL_CHUNK_BGN_FUNC_OK, data1, f1)
      end
  | CURLFILETYPE_FILE =>
      let '(o, f1) :=
        Ofs.open path_sep (ofsOutput data) (strOutputPath data +:+ filename finfo) f in
      let data1 := set_ofsOutput data o in
      if negb (Ofs.is_open o)
      then (CURL_CHUNK_BGN_FUNC_FAIL, data1, f1)
      else (CURL_CHUNK_BGN_FUNC_OK, data1, f1)
  | _ => (CURL_CHUNK_BGN_FUNC_OK, data, f)
  end.

(** Called after an item has been transferred. *)
Definition FileIsDownloadedCallback (data : WildcardTransfersCallbackData)
  : chunk_end * WildcardTransfersCallbackData :=
  if Ofs.is_open (ofsOutput data)
  then (CURL_CHUNK_END_FUNC_OK, set_ofsOutput data (Ofs.close (ofsOutput data)))
  else (CURL_CHUNK_END_FUNC_OK, data).

(** Called with a chunk of the item's data; returns [written]. *)
Definition WriteItCallback (buff : string) (size nmemb : N)
    (data : WildcardTransfersCallbackData) (f : storage)
  : N * WildcardTransfersCallbackData * storage :=
  if Ofs.is_open (ofsOutput data) then
    let '(o, f1) :=
      Ofs.write (ofsOutput data) (Str.take (N.to_nat (size_mul size nmemb)) buff) f in
    (nmemb, set_ofsOutput data o, f1)
  else (0, data, f).

(** The write callback of [DownloadFile]; its user data is the stream
    and is never null there. *)
Definition WriteToFileCallback (buff : string) (size nmemb : N)
    (o : ofstream) (f : storage) : N * ofstream * storage :=
  if (size =? 0) || (nmemb =? 0) || (size_mul size nmemb <? 1) then (0, o, f)
  else if Ofs.is_open o then
    let '(o1, f1) := Ofs.write o (Str.take (N.to_nat (size_mul size nmemb)) buff) f in
    (size_mul size nmemb, o1, f1)
  else (size_mul size nmemb, o, f).

(** *** The transfer engine running the callbacks

    [Perform()] sets the common options (credentials, timeout, proxy,
    TLS) and calls [curl_easy_perform]; the options do not appear in the
    model, the answer of the remote side is given by the [server].
    What [curl_easy_perform] does with the callbacks is libcurl's
    documented contract.  A write callback is given chunks with
    [size = 1]; when it returns a count different from the number of
    bytes it was given, the transfer stops with [CURLE_WRITE_ERROR].
    With wildcard matching on, every entry is announced to the
    chunk-begin callback; [CURL_CHUNK_BGN_FUNC_FAIL] stops the transfer
    with [CURLE_CHUNK_FAILED]; data follows only for regular files; the
    chunk-end callback is called when the entry is done, also when its
    transfer failed. *)

Definition write_accepted (buff : string) (written : N) : bool :=
  written =? size_mul 1 (Str.size buff).

Fixpoint wc_deliver (chunks : list string)
    (data : WildcardTransfersCallbackData) (f : storage)
  : bool * WildcardTransfersCallbackData * storage :=
  match chunks with
  | [] => (true, data, f)
  | buff :: rest =>
      let '(written, data1, f1) := WriteItCallback buff 1 (Str.size buff) data f in
      if write_accepted buff written then wc_deliver rest data1 f1
      else (false, data1, f1)
  end.

(** [Some code]: the transfer was stopped with [code]; [None]: every
    entry was processed. *)
Fixpoint wc_statemach (items : list remote_item)
    (data : WildcardTransfersCallbackData) (f : storage)
  : option CURLcode * WildcardTransfersCallbackData * storage :=
  match items with
  | [] => (None, data, f)
  | it :: rest =>
      match FileIsComingCallback (ri_info it) data (N.of_nat (length rest)) f with
      | (CURL_CHUNK_BGN_FUNC_FAIL, data1, f1) => (Some CURLE_CHUNK_FAILED, data1, f1)
      | (CURL_CHUNK_BGN_FUNC_SKIP, data1, f1) =>
          wc_statemach rest (snd (FileIsDownloadedCallback data1)) f1
      | (CURL_CHUNK_BGN_FUNC_OK, data1, f1) =>
          match filetype (ri_info it) with
          | CURLFILETYPE_FILE =>
              let '(ok, data2, f2) := wc_deliver (ri_chunks it) data1 f1 in
              let data3 := snd (FileIsDownloadedCallback data2) in
              if ok then wc_statemach rest data3 f2
              else (Some CURLE_WRITE_ERROR, data3, f2)
          | _ => wc_statemach rest (snd (FileIsDownloadedCallback data1)) f1
          end
      end
  end.

(** [Perform()] for a request set up by [DownloadWildcard]. *)
Definition PerformWildcard (srv : server) (url : string)
    (data : WildcardTransfersCallbackData) (w : world)
  : CURLcode * WildcardTransfersCallbackData * world :=
  let w1 := contact url w in
  match wc_statemach (fst (srv_wildcard srv url)) data (fs w1) with
  | (Some code, data1, f1) => (code, data1, set_fs w1 f1)
  | (None, data1, f1) => (snd (srv_wildcard srv url), data1, set_fs w1 f1)
  end.

Fixpoint file_deliver (chunks : list string) (o : ofstream) (f : storage)
  : bool * ofstream * storage :=
  match chunks with
  | [] => (true, o, f)
  | buff :: rest =>
      let '(written, o1, f1) := WriteToFileCallback buff 1 (Str.size buff) o f in
      if write_accepted buff written then file_deliver rest o1 f1
      else (false, o1, f1)
  end.

(** [Perform()] for a request set up by [DownloadFile]. *)
Definition PerformFile (srv : server) (url : string) (o : ofstream) (w : world)
  : CURLcode * ofstream * world :=
  let w1 := contact url w in
  match file_deliver (fst (srv_file srv url)) o (fs w1) with
  | (true, o1, f1) => (snd (srv_file srv url), o1, set_fs w1 f1)
  | (false, o1, f1) => (CURLE_WRITE_ERROR, o1, set_fs w1 f1)
  end.

(** *** DownloadFile *)

(** The body of [DownloadFile] down to the [return]; the stream is
    returned next to [bRet] to show the state it is destroyed in. *)
Definition DownloadFile_body (c : CFTPClient) (srv : server)
    (strLocalFile strRemoteFile : string) (w : world) : bool * ofstream * world :=
  let strFile := ParseURL c strRemoteFile in
  let '(ofsOutput0, f0) := Ofs.open path_sep Ofs.fresh strLocalFile (fs w) in
  if Ofs.good ofsOutput0 then
    let '(res, ofsOutput1, w1) := PerformFile srv strFile ofsOutput0 (set_fs w f0) in
    let '(bRet, w2) :=
      if negb (res =? CURLE_OK)
      then (false,
            log_if_enabled c
              (LOG_ERROR_CURL_GETFILE_FORMAT (m_strServer c) strRemoteFile res) w1)
      else (true, w1) in
    let ofsOutput2 := Ofs.close ofsOutput1 in
    let w3 := if negb bRet then set_fs w2 (LocalFS.remove (fs w2) strLocalFile) else w2 in
    (bRet, ofsOutput2, w3)
  else (false, ofsOutput0, log_if_enabled c LOG_ERROR_FILE_GETFILE_FORMAT (set_fs w f0)).

Definition DownloadFile (c : CFTPClient) (srv : server)
    (strLocalFile strRemoteFile : string) (w : world) : bool * world :=
  if Str.empty strLocalFile || Str.empty strRemoteFile then (false, w)
  else if negb (m_pCurlSession c)
  then (false, log_if_enabled c LOG_ERROR_CURL_NOT_INIT_MSG w)
  else
    let '(bRet, _, w1) := DownloadFile_body c srv strLocalFile strRemoteFile w in
    (bRet, w1).

(** *** DownloadWildcard *)

(** [strLocalDir + ((strLocalDir[strLocalDir.length() - 1] != sep) ? sep : "")] *)
Definition output_path (strLocalDir : string) : string :=
  strLocalDir +:+
  (if negb (Str.back_is path_sep strLocalDir)
   then String path_sep EmptyString else EmptyString).

(** [strBaseUrl] after the conditional [+= "/"]. *)
Definition base_url (strRemoteWildcard : string) : string :=
  let strBaseUrl := Str.chop strRemoteWildcard in
  if negb (Str.empty strBaseUrl) && negb (Str.back_is "/" strBaseUrl)
  then strBaseUrl +:+ "/"
  else strBaseUrl.

(** The [for] loop over [data.vecDirList]; [rec] is the recursive call.
    [None] when a recursive call ran out of fuel. *)
Fixpoint recurse_dirs (rec : string -> string -> world -> option bool * world)
    (strOutputPath strBaseUrl : string) (dirs : list string)
    (bRet : bool) (w : world) : option bool * world :=
  match dirs with
  | [] => (Some bRet, w)
  | Dir :: rest =>
      match rec (strOutputPath +:+ Dir) (strBaseUrl +:+ Dir +:+ "/*") w with
      | (None, w1) => (None, w1)
      | (Some true, w1) => recurse_dirs rec strOutputPath strBaseUrl rest bRet w1
      | (Some false, w1) =>
          recurse_dirs rec strOutputPath strBaseUrl rest false
            (m_oLog (LOG_ERROR_CURL_GETWILD_REC_FORMAT
                       (strBaseUrl +:+ Dir +:+ "/*") (strOutputPath +:+ Dir)) w1)
      end
  end.

Fixpoint DownloadWildcard (fuel : nat) (c : CFTPClient) (srv : server)
    (strLocalDir strRemoteWildcard : string) (w : world) : option bool * world :=
  match fuel with
  | O => (None, w)
  | S fuel' =>
      if Str.empty strLocalDir || Str.empty strRemoteWildcard then (Some false, w)
      else if negb (m_pCurlSession c)
      then (Some false, log_if_enabled c LOG_ERROR_CURL_NOT_INIT_MSG w)
      else
        let data := mk_data Ofs.fresh (output_path strLocalDir) [] in
        let strPattern := ParseURL c strRemoteWildcard in
        if LocalFS.stat_is_dir path_sep (fs w) (strOutputPath data) then
          let '(res, data1, w1) := PerformWildcard srv strPattern data w in
          if negb (res =? CURLE_OK) && negb (res =? CURLE_REMOTE_FILE_NOT_FOUND)
          then (Some false,
                log_if_enabled c
                  (LOG_ERROR_CURL_GETWILD_FORMAT (m_strServer c) strRemoteWildcard res) w1)
          else if negb (vec_empty (vecDirList data1))
                  && Str.back_is "*" strRemoteWildcard
          then recurse_dirs (DownloadWildcard fuel' c srv)
                 (strOutputPath data1) (base_url strRemoteWildcard)
                 (vecDirList data1) true w1
          else (Some true, w1)
        else (Some false,
              log_if_enabled c (LOG_ERROR_DIR_GETWILD_FORMAT (strOutputPath data)) w)
  end.

End Client.
End FTPClient.

(** ** The recursion as the specification words it

    The child local path is the separator-terminated local directory
    followed by the subdirectory name; the child remote pattern is the
    pattern without its trailing wildcard, with a trailing ['/'] ensured,
    followed by the name and ["/*"].  One recursive call is made per
    subdirectory, the results are ANDed, and a failed call is logged with
    its pattern and local path. *)

Module Written.

Definition ensure_trailing (c : ascii) (s : string) : string :=
  if Str.back_is c s then s else s +:+ String c EmptyString.

Definition child_local (sep : ascii) (localDir d : string) : string :=
  ensure_trailing sep localDir +:+ d.

Definition child_pattern (remotePattern d : string) : string :=
  ensure_trailing "/" (Str.chop remotePattern) +:+ d +:+ "/*".

(** The same, except that nothing is put in front of the name when the
    pattern is the wildcard alone. *)
Definition child_pattern_amended (remotePattern d : string) : string :=
  (if Str.empty (Str.chop remotePattern) then EmptyString
   else ensure_trailing "/" (Str.chop remotePattern)) +:+ d +:+ "/*".

Fixpoint fan_out (rec : string -> string -> world -> option bool * world)
    (local_of pattern_of : string -> string) (dirs : list string) (w : world)
  : option bool * world :=
  match dirs with
  | [] => (Some true, w)
  | d :: rest =>
      match rec (local_of d) (pattern_of d) w with
      | (None, w1) => (None, w1)
      | (Some ok, w1) =>
          let w2 :=
            if ok then w1
            else m_oLog (LOG_ERROR_CURL_GETWILD_REC_FORMAT (pattern_of d) (local_of d)) w1 in
          match fan_out rec local_of pattern_of rest w2 with
          | (Some oks, w3) => (Some (ok && oks), w3)
          | (None, w3) => (None, w3)
          end
      end
  end.

(** [attempts rec out base dirs w oks w']: starting in [w], one call of
    [rec] was made for each name of [dirs], in order, each in the world
    the previous one left; [oks] are their results and [w'] is the world
    after the last one. *)
Inductive attempts (rec : string -> string -> world -> option bool * world)
    (out base : string) : list string -> world -> list bool -> world -> Prop :=
  | attempts_nil (w : world) : attempts rec out base [] w [] w
  | attempts_cons (d : string) (rest : list string) (w w1 w2 : world)
      (ok : bool) (oks : list bool) :
      rec (out +:+ d) (base +:+ d +:+ "/*") w = (Some ok, w1) ->
      attempts rec out base rest
        (if ok then w1
         else m_oLog (LOG_ERROR_CURL_GETWILD_REC_FORMAT
                        (base +:+ d +:+ "/*") (out +:+ d)) w1)
        oks w2 ->
      attempts rec out base (d :: rest) w (ok :: oks) w2.

End Written.

(** ** Comparing storages

    Used to compare a second download with the first one. *)

Inductive node_kind : Type := KDir | KFile.

Definition kind (o : option fnode) : option node_kind :=
  match o with
  | None => None
  | Some DirNode => Some KDir
  | Some (FileNode _) => Some KFile
  end.

(** [grows f f']: every node of [f] is still there in [f'], as a node of
    the same kind. *)
Definition grows (f f' : storage) : Prop :=
  forall k : string, f !! k <> None -> kind (f' !! k) = kind (f !! k).

(** [replays F s t o]: [s] is a storage the first download went through,
    [F] the storage it ended with, and [t] the storage the second download
    has reached at the same point, [o] being the output stream at that
    point.  [t] has the nodes of [F]; each node of [t] is as in [s] or as
    in [F]; the file being written is as in [s]. *)
Definition replays (F s t : storage) (o : ofstream) : Prop :=
  (forall k : string, kind (t !! k) = kind (F !! k))
  /\ (forall k : string, t !! k = s !! k \/ t !! k = F !! k)
  /\ (forall path : string, of_file o = Some path -> t !! path = s !! path).

(** ** A worked scenario

    A server [h] with a directory [reports] holding one file and two
    subdirectories, of which [2024] cannot be listed; an empty directory;
    a root directory with one subdirectory; two single files, of which
    one breaks off.  Local storage holds the directory [out]. *)

Module Demo.

Definition a_txt := mk_item (mk_fileinfo "a.txt" CURLFILETYPE_FILE) ["he"; "llo"].
Definition b_txt := mk_item (mk_fileinfo "b.txt" CURLFILETYPE_FILE) ["x"].
Definition dir_2024 := mk_item (mk_fileinfo "2024" CURLFILETYPE_DIRECTORY) [].
Definition dir_2025 := mk_item (mk_fileinfo "2025" CURLFILETYPE_DIRECTORY) [].
Definition file_2025 := mk_item (mk_fileinfo "2025" CURLFILETYPE_FILE) ["zz"].
Definition dir_x_y := mk_item (mk_fileinfo "x/y" CURLFILETYPE_DIRECTORY) [].

Definition listing (url : string) : list remote_item * CURLcode :=
  if String.eqb url "ftp://h//reports//*" then ([a_txt; dir_2024; dir_2025], 0)
  else if String.eqb url "ftp://h//reports//2024//*" then ([], 7)
  else if String.eqb url "ftp://h//reports//2025//*" then ([b_txt], 0)
  else if String.eqb url "ftp://h//archive//*" then ([a_txt; dir_2025], 0)
  else if String.eqb url "ftp://h//archive//2025//*" then ([b_txt], 0)
  else if String.eqb url "ftp://h//empty//*" then ([], 78)
  else if String.eqb url "ftp://h//*" then ([dir_2024], 0)
  else if String.eqb url "ftp://h//2024//*" then ([], 78)
  else if String.eqb url "ftp://h//odd//*" then ([dir_2025; file_2025], 0)
  else if String.eqb url "ftp://h//deep//*" then ([a_txt; dir_x_y; b_txt], 0)
  else ([], 9).

Definition file (url : string) : list string * CURLcode :=
  if String.eqb url "ftp://h//f.bin" then (["ab"; "cd"], 0)
  else if String.eqb url "ftp://h//broken.bin" then (["ab"], 18)
  else ([], 78).

Definition srv : server := mk_server listing file.

Definition ENABLE_LOG : N := 1.

(** A client with every flag set, and one with logging switched off. *)
Definition client : CFTPClient := mk_client "h" FTP 255 true.
Definition quiet_client : CFTPClient := mk_client "h" FTP 0 true.

Definition disk : storage := <["out" := DirNode]> (<["" := DirNode]> ∅).
Definition start : world := mk_world disk [] [].

End Demo.

(** ** More string helpers

    Used to state what [ReplaceString], [ParseURL] and the functions that
    split a remote path do. *)

Module Text.

(** [search] occurs somewhere in [s]. *)
Fixpoint occurs (search s : string) : bool :=
  String.prefix search s
  || match s with
     | EmptyString => false
     | String _ r => occurs search r
     end.

(** The strings of a list one after the other. *)
Fixpoint flatten (l : list string) : string :=
  match l with
  | [] => EmptyString
  | x :: r => x +:+ flatten r
  end.

(** What follows the last [c] of [s]; all of [s] when it has no [c]. *)
Fixpoint after_last (c : ascii) (s : string) : string :=
  match s with
  | EmptyString => EmptyString
  | String d r =>
      if Str.contains c r then after_last c r
      else if Ascii.eqb d c then r else String d r
  end.

End Text.

(** The entries written for a failed recursive call. *)
Definition is_rec_entry (e : log_entry) : bool :=
  match e with
  | LOG_ERROR_CURL_GETWILD_REC_FORMAT _ _ => true
  | _ => false
  end.

(** What a call does to the log: it only adds entries; it adds none when
    it returns [true]; with logging off it adds only entries for failed
    recursive calls. *)
Definition log_discipline (ENABLE_LOG : N) (c : CFTPClient)
    (w : world) (r : option bool * world) (extra : list log_entry) : Prop :=
  logged (snd r) = (logged w ++ extra)%list
  /\ (fst r = Some true -> extra = [])
  /\ (FTPClient.log_enabled ENABLE_LOG c = false ->
      Forall (fun e => is_rec_entry e = true) extra).

(** ** Session life cycle

    The constructor, the destructor, [InitSession], [CleanupSession] and
    [SetProxy].  [InitSession] stores more members than [CFTPClient]
    holds; [Session.state] adds them.  The constant [ALL_FLAGS] is
    declared in the header and is a parameter, like [ENABLE_LOG].
    [curl_easy_init] can fail; its outcome is an argument. *)

Module Session.

Record state : Type := mk_state {
  client : CFTPClient;
  m_uPort : N;
  m_strUserName : string;
  m_strPassword : string
}.

Inductive log_entry : Type :=
  | LOG_WARNING_OBJECT_NOT_CLEANED
  | LOG_ERROR_EMPTY_HOST_MSG
  | LOG_ERROR_CURL_ALREADY_INIT_MSG
  | LOG_ERROR_CURL_NOT_INIT_MSG.

(** The calls made to libcurl's process-wide set-up and tear-down. *)
Inductive global_call : Type :=
  | curl_global_init
  | curl_global_cleanup.

(** The static member [s_iCurlSession] and the calls made so far.  The
    mutex makes the constructor and the destructor atomic. *)
Record global : Type := mk_global {
  s_iCurlSession : Z;
  calls : list global_call
}.

(** [int] arithmetic, two's complement on 32 bits. *)
Definition wrap_int (z : Z) : Z := ((z + 2 ^ 31) mod 2 ^ 32 - 2 ^ 31)%Z.

Section WithFlags.

Variable ENABLE_LOG : N.
Variable ALL_FLAGS : N.

(** [if (m_eSettingsFlags & ENABLE_LOG) m_oLog(e);] *)
Definition log_if_enabled (s : state) (e : log_entry) : list log_entry :=
  if FTPClient.log_enabled ENABLE_LOG (client s) then [e] else [].

(** [CFTPClient::CFTPClient]: the new object, and [s_iCurlSession++ == 0]
    deciding the global set-up. *)
Definition constructor (g : global) : state * global :=
  (mk_state (mk_client EmptyString FTP ALL_FLAGS false) 0 EmptyString EmptyString,
   mk_global (wrap_int (s_iCurlSession g + 1))
     (calls g ++ if (s_iCurlSession g =? 0)%Z then [curl_global_init] else [])).

Definition InitSession (curl_easy_init : bool) (strHost : string) (uPort : N)
    (strLogin strPassword : string) (eFtpProtocol : FTP_PROTOCOL) (eSettingsFlags : N)
    (s : state) : bool * state * list log_entry :=
  if Str.empty strHost then (false, s, log_if_enabled s LOG_ERROR_EMPTY_HOST_MSG)
  else if m_pCurlSession (client s)
  then (false, s, log_if_enabled s LOG_ERROR_CURL_ALREADY_INIT_MSG)
  else (curl_easy_init,
        mk_state (mk_client strHost eFtpProtocol eSettingsFlags curl_easy_init)
          uPort strLogin strPassword,
        []).

Definition CleanupSession (s : state) : bool * state * list log_entry :=
  if negb (m_pCurlSession (client s))
  then (false, s, log_if_enabled s LOG_ERROR_CURL_NOT_INIT_MSG)
  else (true,
        mk_state (mk_client (m_strServer (client s)) (m_eFtpProtocol (client s))
                    (m_eSettingsFlags (client s)) false)
          (m_uPort s) (m_strUserName s) (m_strPassword s),
        []).

(** [CFTPClient::~CFTPClient]: what it logs, and [--s_iCurlSession <= 0]
    deciding the global tear-down. *)
Definition destructor (s : state) (g : global) : list log_entry * global :=
  ((if m_pCurlSession (client s)
    then log_if_enabled s LOG_WARNING_OBJECT_NOT_CLEANED ++ snd (CleanupSession s)
    else [])%list,
   mk_global (wrap_int (s_iCurlSession g - 1))
     (calls g ++ if (wrap_int (s_iCurlSession g - 1) <=? 0)%Z
                 then [curl_global_cleanup] else [])).

End WithFlags.


(** Objects being created and destroyed, in program order. *)
Inductive lifecycle : Type := Construct | Destroy.

(** Only live objects are destroyed, and fewer than 2^31 are alive at a
    time; [n] is the number alive at the start. *)
Fixpoint well_bracketed (n : Z) (evs : list lifecycle) : bool :=
  match evs with
  | [] => true
  | Construct :: rest => (n + 1 <? 2 ^ 31)%Z && well_bracketed (n + 1) rest
  | Destroy :: rest => (0 <? n)%Z && well_bracketed (n - 1) rest
  end.

Fixpoint alive (n : Z) (evs : list lifecycle) : Z :=
  match evs with
  | [] => n
  | Construct :: rest => alive (n + 1) rest
  | Destroy :: rest => alive (n - 1) rest
  end.

(** The global state after the events; the destroyed objects hold no
    session (the log of the destructor does not matter here). *)
Fixpoint run (ENABLE_LOG ALL_FLAGS : N) (evs : list lifecycle) (g : global) : global :=
  match evs with
  | [] => g
  | Construct :: rest => run ENABLE_LOG ALL_FLAGS rest (snd (constructor ALL_FLAGS g))
  | Destroy :: rest =>
      run ENABLE_LOG ALL_FLAGS rest
        (snd (destructor ENABLE_LOG (fst (constructor ALL_FLAGS g)) g))
  end.

(** Set-ups minus tear-downs. *)
Fixpoint balance (cs : list global_call) : Z :=
  match cs with
  | [] => 0
  | curl_global_init :: rest => (1 + balance rest)%Z
  | curl_global_cleanup :: rest => (balance rest - 1)%Z
  end.

End Session.

(** ** Remote commands and listing

    [CreateDir], [RemoveDir], [RemoveFile] and [List] set options on the
    easy handle and call [Perform()].  A request records the options the
    function sets; the remote side answers a request with the chunks it
    delivers to the write callback and the final status. *)

Module Commands.

Record easy_request : Type := mk_request {
  CURLOPT_URL : string;
  CURLOPT_POSTQUOTE : list string;
  CURLOPT_NOBODY : bool;
  CURLOPT_HEADER : bool;
  CURLOPT_FTP_CREATE_MISSING_DIRS : bool;
  CURLOPT_DIRLISTONLY : bool
}.

Inductive log_entry : Type :=
  | LOG_ERROR_CURL_NOT_INIT_MSG
  | LOG_ERROR_CURL_MKDIR_FORMAT (name : string) (res : CURLcode)
  | LOG_ERROR_CURL_RMDIR_FORMAT (name : string) (res : CURLcode)
  | LOG_ERROR_CURL_REMOVE_FORMAT (remote : string) (res : CURLcode)
  | LOG_ERROR_CURL_FILELIST_FORMAT (folder : string) (res : CURLcode).

Record world : Type := mk_world {
  logged : list log_entry;     (* calls of [m_oLog], oldest first *)
  sent : list easy_request     (* requests performed, oldest first *)
}.

Definition remote : Type := easy_request -> list string * CURLcode.

Section WithFlags.

Variable ENABLE_LOG : N.

(** [if (m_eSettingsFlags & ENABLE_LOG) m_oLog(e);] *)
Definition log_if_enabled (c : CFTPClient) (e : log_entry) (w : world) : world :=
  if FTPClient.log_enabled ENABLE_LOG c
  then mk_world (logged w ++ [e]) (sent w)
  else w.

Definition perform (req : easy_request) (w : world) : world :=
  mk_world (logged w) (sent w ++ [req]).

(** The block the three commands share: [find_last_of("/")], then the URL
    of the folder and the name of the entry. *)
Definition split_remote (c : CFTPClient) (strPath : string) : string * string :=
  if Str.contains "/" strPath
  then (FTPClient.ParseURL c (Str.before_last "/" strPath) +:+ "//",
        Text.after_last "/" strPath)
  else (FTPClient.ParseURL c EmptyString, strPath).

Definition CreateDir (c : CFTPClient) (srv : remote) (strNewDir : string) (w : world)
  : bool * world :=
  if Str.empty strNewDir then (false, w)
  else if negb (m_pCurlSession c) then (false, log_if_enabled c LOG_ERROR_CURL_NOT_INIT_MSG w)
  else
    let '(strRemoteFolder, strRemoteNewFolderName) := split_remote c strNewDir in
    let req := mk_request strRemoteFolder ["MKD " +:+ strRemoteNewFolderName]
                 true true true false in
    let res := snd (srv req) in
    if negb (res =? CURLE_OK)
    then (false,
          log_if_enabled c (LOG_ERROR_CURL_MKDIR_FORMAT strRemoteNewFolderName res)
            (perform req w))
    else (true, perform req w).

Definition RemoveDir (c : CFTPClient) (srv : remote) (strDir : string) (w : world)
  : bool * world :=
  if Str.empty strDir then (false, w)
  else if negb (m_pCurlSession c) then (false, log_if_enabled c LOG_ERROR_CURL_NOT_INIT_MSG w)
  else
    let '(strRemoteFolder, strRemoteFolderName) := split_remote c strDir in
    let req := mk_request strRemoteFolder ["RMD " +:+ strRemoteFolderName]
                 true true false false in
    let res := snd (srv req) in
    if negb (res =? CURLE_OK)
    then (false,
          log_if_enabled c (LOG_ERROR_CURL_RMDIR_FORMAT strRemoteFolderName res)
            (perform req w))
    else (true, perform req w).

Definition RemoveFile (c : CFTPClient) (srv : remote) (strRemoteFile : string) (w : world)
  : bool * world :=
  if Str.empty strRemoteFile then (false, w)
  else if negb (m_pCurlSession c) then (false, log_if_enabled c LOG_ERROR_CURL_NOT_INIT_MSG w)
  else
    let '(strRemoteFolder, strRemoteFileName) := split_remote c strRemoteFile in
    let req := mk_request strRemoteFolder ["DELE " +:+ strRemoteFileName]
                 true true false false in
    let res := snd (srv req) in
    if negb (res =? CURLE_OK)
    then (false,
          log_if_enabled c (LOG_ERROR_CURL_REMOVE_FORMAT strRemoteFile res)
            (perform req w))
    else (true, perform req w).

(** The write callback of [List]; [data] is the string to append to, or
    null. *)
Definition WriteInStringCallback (ptr : string) (size nmemb : N) (data : option string)
  : N * option string :=
  match data with
  | Some strWriteHere =>
      (size_mul size nmemb,
       Some (strWriteHere +:+ Str.take (N.to_nat (size_mul size nmemb)) ptr))
  | None => (0, None)
  end.

(** The transfer engine handing the chunks to the callback, with
    [size = 1]; a refused chunk stops the transfer. *)
Fixpoint list_deliver (chunks : list string) (data : option string)
  : bool * option string :=
  match chunks with
  | [] => (true, data)
  | buff :: rest =>
      let '(written, data1) := WriteInStringCallback buff 1 (Str.size buff) data in
      if FTPClient.write_accepted buff written then list_deliver rest data1
      else (false, data1)
  end.

(** [List]; the second component is [strList] on return. *)
Definition List (c : CFTPClient) (srv : remote) (strRemoteFolder strList : string)
    (bOnlyNames : bool) (w : world) : bool * string * world :=
  if Str.empty strRemoteFolder then (false, strList, w)
  else if negb (m_pCurlSession c)
  then (false, strList, log_if_enabled c LOG_ERROR_CURL_NOT_INIT_MSG w)
  else
    let req := mk_request (FTPClient.ParseURL c strRemoteFolder) []
                 false false false bOnlyNames in
    let '(ok, data) := list_deliver (fst (srv req)) (Some strList) in
    let strList1 := match data with Some s => s | None => strList end in
    let res := if ok then snd (srv req) else CURLE_WRITE_ERROR in
    if res =? CURLE_OK then (true, strList1, perform req w)
    else (false, strList1,
          log_if_enabled c (LOG_ERROR_CURL_FILELIST_FORMAT strRemoteFolder res)
            (perform req w)).

End WithFlags.

(** [url] and [name] address [strPath]: the name holds no ['/'], and
    either the path is [folder/name] and the URL is that of the folder
    followed by ["//"], or the path has no ['/'], is the name, and the URL
    is that of the root. *)
Definition addresses (c : CFTPClient) (strPath url name : string) : Prop :=
  Str.contains "/" name = false
  /\ ((exists folder : string,
          strPath = folder +:+ "/" +:+ name
          /\ url = FTPClient.ParseURL c folder +:+ "//")
      \/ (strPath = name /\ url = FTPClient.ParseURL c EmptyString)).

End Commands.

(** The names of the directories among announced entries, in order. *)
Fixpoint announced_dirs (items : list remote_item) : list string :=
  match items with
  | [] => []
  | it :: rest =>
      match filetype (ri_info it) with
      | CURLFILETYPE_DIRECTORY => filename (ri_info it) :: announced_dirs rest
      | _ => announced_dirs rest
      end
  end.

(** * Properties *)

(** ** Strings and paths *)

Lemma append_cons (c : ascii) (r s : string) :
  String c r +:+ s = String c (r +:+ s).
Proof. reflexivity. Qed.

Lemma append_empty_r (s : string) : s +:+ EmptyString = s.
Proof.
  induction s as [|c r IH]; [reflexivity | now rewrite append_cons, IH].
Qed.

Lemma rstrip_snoc (c : ascii) (s : string) :
  Str.rstrip c (s +:+ String c EmptyString) = Str.rstrip c s.
Proof.
  induction s as [|d r IH].
  - change (EmptyString +:+ String c EmptyString) with (String c EmptyString).
    simpl. now rewrite Ascii.eqb_refl.
  - rewrite append_cons. simpl. now rewrite IH.
Qed.

(** The separator [DownloadWildcard] appends does not change which
    directory the path names. *)
Lemma key_output_path (LINUX : bool) (strLocalDir : string) :
  LocalFS.key (FTPClient.path_sep LINUX) (FTPClient.output_path LINUX strLocalDir)
  = LocalFS.key (FTPClient.path_sep LINUX) strLocalDir.
Proof.
  unfold FTPClient.output_path, LocalFS.key.
  destruct (Str.back_is _ strLocalDir); simpl.
  - now rewrite append_empty_r.
  - apply rstrip_snoc.
Qed.

Lemma stat_output_path (LINUX : bool) (f : storage) (strLocalDir : string) :
  LocalFS.stat_is_dir (FTPClient.path_sep LINUX) f (FTPClient.output_path LINUX strLocalDir)
  = LocalFS.stat_is_dir (FTPClient.path_sep LINUX) f strLocalDir.
Proof. unfold LocalFS.stat_is_dir. now rewrite key_output_path. Qed.

(** ** Unfolding [DownloadWildcard] *)

Section Unfold.

Context (LINUX : bool) (ENABLE_LOG : N).

Local Abbreviation DownloadWildcard := (FTPClient.DownloadWildcard LINUX ENABLE_LOG).
Local Abbreviation PerformWildcard := (FTPClient.PerformWildcard LINUX).
Local Abbreviation output_path := (FTPClient.output_path LINUX).
Local Abbreviation path_sep := (FTPClient.path_sep LINUX).

Lemma DownloadWildcard_empty_args fuel c srv strLocalDir strRemoteWildcard w :
  Str.empty strLocalDir || Str.empty strRemoteWildcard = true ->
  DownloadWildcard (S fuel) c srv strLocalDir strRemoteWildcard w = (Some false, w).
Proof. intros H. simpl. now rewrite H. Qed.

Lemma DownloadWildcard_no_session fuel c srv strLocalDir strRemoteWildcard w :
  Str.empty strLocalDir || Str.empty strRemoteWildcard = false ->
  m_pCurlSession c = false ->
  DownloadWildcard (S fuel) c srv strLocalDir strRemoteWildcard w
  = (Some false, FTPClient.log_if_enabled ENABLE_LOG c LOG_ERROR_CURL_NOT_INIT_MSG w).
Proof. intros H1 H2. simpl. now rewrite H1, H2. Qed.

Lemma DownloadWildcard_no_dir fuel c srv strLocalDir strRemoteWildcard w :
  Str.empty strLocalDir || Str.empty strRemoteWildcard = false ->
  m_pCurlSession c = true ->
  LocalFS.stat_is_dir path_sep (fs w) (output_path strLocalDir) = false ->
  DownloadWildcard (S fuel) c srv strLocalDir strRemoteWildcard w
  = (Some false,
     FTPClient.log_if_enabled ENABLE_LOG c
       (LOG_ERROR_DIR_GETWILD_FORMAT (output_path strLocalDir)) w).
Proof. intros H1 H2 H3. simpl. now rewrite H1, H2, H3. Qed.

(** Past the three guards the function performs the request and
    interprets the status. *)
Lemma DownloadWildcard_performs fuel c srv strLocalDir strRemoteWildcard w res data1 w1 :
  Str.empty strLocalDir || Str.empty strRemoteWildcard = false ->
  m_pCurlSession c = true ->
  LocalFS.stat_is_dir path_sep (fs w) (output_path strLocalDir) = true ->
  PerformWildcard srv (FTPClient.ParseURL c strRemoteWildcard)
    (mk_data Ofs.fresh (output_path strLocalDir) []) w = (res, data1, w1) ->
  DownloadWildcard (S fuel) c srv strLocalDir strRemoteWildcard w
  = if negb (res =? CURLE_OK) && negb (res =? CURLE_REMOTE_FILE_NOT_FOUND)
    then (Some false,
          FTPClient.log_if_enabled ENABLE_LOG c
            (LOG_ERROR_CURL_GETWILD_FORMAT (m_strServer c) strRemoteWildcard res) w1)
    else if negb (vec_empty (vecDirList data1)) && Str.back_is "*" strRemoteWildcard
    then FTPClient.recurse_dirs (DownloadWildcard fuel c srv)
           (strOutputPath data1) (FTPClient.base_url strRemoteWildcard)
           (vecDirList data1) true w1
    else (Some true, w1).
Proof. intros H1 H2 H3 H4. simpl. rewrite H1, H2, H3. simpl. now rewrite H4. Qed.

Lemma log_if_enabled_fs c e w : fs (FTPClient.log_if_enabled ENABLE_LOG c e w) = fs w.
Proof. unfold FTPClient.log_if_enabled. now destruct (FTPClient.log_enabled _ _). Qed.

Lemma log_if_enabled_performed c e w :
  performed (FTPClient.log_if_enabled ENABLE_LOG c e w) = performed w.
Proof. unfold FTPClient.log_if_enabled. now destruct (FTPClient.log_enabled _ _). Qed.

End Unfold.

(** ** Claims about the guards and the status *)

(** C4.  With non-empty arguments, when the local output directory does not
    exist as a directory, [DownloadWildcard] returns [false], contacts no
    URL and leaves local storage as it was. *)
Theorem DownloadWildcard_missing_local_dir
    (LINUX : bool) (ENABLE_LOG : N) (fuel : nat) (c : CFTPClient) (srv : server)
    (strLocalDir strRemoteWildcard : string) (w : world) :
  Str.empty strLocalDir = false ->
  Str.empty strRemoteWildcard = false ->
  LocalFS.stat_is_dir (FTPClient.path_sep LINUX) (fs w) strLocalDir = false ->
  let r := FTPClient.DownloadWildcard LINUX ENABLE_LOG (S fuel) c srv
             strLocalDir strRemoteWildcard w in
  fst r = Some false /\ performed (snd r) = performed w /\ fs (snd r) = fs w.
Proof.
  intros Hl Hr Hdir r. subst r.
  assert (Hargs : Str.empty strLocalDir || Str.empty strRemoteWildcard = false)
    by now rewrite Hl, Hr.
  destruct (m_pCurlSession c) eqn:Hs.
  - rewrite DownloadWildcard_no_dir by (try rewrite stat_output_path; assumption).
    simpl. now rewrite log_if_enabled_performed, log_if_enabled_fs.
  - rewrite DownloadWildcard_no_session by assumption.
    simpl. now rewrite log_if_enabled_performed, log_if_enabled_fs.
Qed.

(** C3.  When the perform call of an invocation returns
    [CURLE_REMOTE_FILE_NOT_FOUND] and no subdirectory was collected,
    [DownloadWildcard] returns [true]. *)
Theorem DownloadWildcard_empty_remote_dir
    (LINUX : bool) (ENABLE_LOG : N) (fuel : nat) (c : CFTPClient) (srv : server)
    (strLocalDir strRemoteWildcard : string) (w w1 : world)
    (data1 : WildcardTransfersCallbackData) :
  Str.empty strLocalDir = false ->
  Str.empty strRemoteWildcard = false ->
  m_pCurlSession c = true ->
  LocalFS.stat_is_dir (FTPClient.path_sep LINUX) (fs w) strLocalDir = true ->
  FTPClient.PerformWildcard LINUX srv (FTPClient.ParseURL c strRemoteWildcard)
    (mk_data Ofs.fresh (FTPClient.output_path LINUX strLocalDir) []) w
  = (CURLE_REMOTE_FILE_NOT_FOUND, data1, w1) ->
  vecDirList data1 = [] ->
  FTPClient.DownloadWildcard LINUX ENABLE_LOG (S fuel) c srv
    strLocalDir strRemoteWildcard w = (Some true, w1).
Proof.
  intros Hl Hr Hs Hdir Hp Hv.
  erewrite DownloadWildcard_performs; eauto.
  - now rewrite Hv.
  - now rewrite Hl, Hr.
  - now rewrite stat_output_path.
Qed.

Lemma DownloadWildcard_missing_local_dir_witness :
  fst (FTPClient.DownloadWildcard true Demo.ENABLE_LOG 1 Demo.client Demo.srv
         "nowhere" "reports/*" Demo.start) = Some false
  /\ performed (snd (FTPClient.DownloadWildcard true Demo.ENABLE_LOG 1 Demo.client Demo.srv
         "nowhere" "reports/*" Demo.start)) = []
  /\ fs (snd (FTPClient.DownloadWildcard true Demo.ENABLE_LOG 1 Demo.client Demo.srv
         "nowhere" "reports/*" Demo.start)) = Demo.disk.
Proof.
  apply (DownloadWildcard_missing_local_dir true Demo.ENABLE_LOG 0 Demo.client Demo.srv
           "nowhere" "reports/*" Demo.start); reflexivity.
Defined.

Lemma DownloadWildcard_empty_remote_dir_witness :
  FTPClient.DownloadWildcard true Demo.ENABLE_LOG 1 Demo.client Demo.srv
    "out" "empty/*" Demo.start
  = (Some true, mk_world Demo.disk [] ["ftp://h//empty//*"]).
Proof.
  apply (DownloadWildcard_empty_remote_dir true Demo.ENABLE_LOG 0 Demo.client Demo.srv
           "out" "empty/*" Demo.start (mk_world Demo.disk [] ["ftp://h//empty//*"])
           (mk_data Ofs.fresh "out/" [])); reflexivity.
Defined.

(** ** The callbacks and the transfer engine *)

Section Callbacks.

Context (LINUX : bool).

Local Abbreviation FileIsComingCallback := (FTPClient.FileIsComingCallback LINUX).
Local Abbreviation wc_statemach := (FTPClient.wc_statemach LINUX).
Local Abbreviation path_sep := (FTPClient.path_sep LINUX).

Lemma FileIsComingCallback_remains finfo data n m f :
  FileIsComingCallback finfo data n f = FileIsComingCallback finfo data m f.
Proof. reflexivity. Qed.

Lemma FileIsDownloadedCallback_closed data :
  Ofs.is_open (ofsOutput (snd (FTPClient.FileIsDownloadedCallback data))) = false.
Proof.
  unfold FTPClient.FileIsDownloadedCallback.
  destruct (Ofs.is_open (ofsOutput data)) eqn:E; simpl; [|exact E].
  unfold Ofs.close. now destruct (of_file (ofsOutput data)).
Qed.

Lemma FileIsDownloadedCallback_noop data :
  Ofs.is_open (ofsOutput data) = false ->
  snd (FTPClient.FileIsDownloadedCallback data) = data.
Proof. intros E. unfold FTPClient.FileIsDownloadedCallback. now rewrite E. Qed.

(** A refused announcement leaves no file open. *)
Lemma FileIsComingCallback_fail_closed finfo data n f data1 f1 :
  Ofs.is_open (ofsOutput data) = false ->
  FileIsComingCallback finfo data n f = (CURL_CHUNK_BGN_FUNC_FAIL, data1, f1) ->
  Ofs.is_open (ofsOutput data1) = false.
Proof.
  intros Hc. unfold FTPClient.FileIsComingCallback.
  destruct (filetype finfo); try discriminate.
  - destruct (Ofs.open _ _ _ _) as [o f'] eqn:Eo.
    destruct (Ofs.is_open o) eqn:Ei; simpl; intros [= <- <-]; exact Ei.
  - destruct (LocalFS.mkdir _ _ _) as [[e|] f'].
    + destruct (negb _); intros [= <- <-]; exact Hc.
    + discriminate.
Qed.

Lemma wc_statemach_closed items : forall data f,
  Ofs.is_open (ofsOutput data) = false ->
  Ofs.is_open (ofsOutput (snd (fst (wc_statemach items data f)))) = false.
Proof.
  induction items as [|it rest IH]; intros data f Hc; simpl; [exact Hc|].
  destruct (FTPClient.FileIsComingCallback LINUX (ri_info it) data _ f)
    as [[[] data1] f1] eqn:Eb.
  - destruct (filetype (ri_info it));
      try (apply IH, FileIsDownloadedCallback_closed).
    destruct (FTPClient.wc_deliver (ri_chunks it) data1 f1) as [[[] data2] f2].
    + apply IH, FileIsDownloadedCallback_closed.
    + simpl. apply FileIsDownloadedCallback_closed.
  - simpl. eapply FileIsComingCallback_fail_closed; eauto.
  - apply IH, FileIsDownloadedCallback_closed.
Qed.

(** Entries are processed one after the other. *)
Lemma wc_statemach_app pre post : forall data f,
  wc_statemach (pre ++ post) data f
  = match wc_statemach pre data f with
    | (None, data1, f1) => wc_statemach post data1 f1
    | stopped => stopped
    end.
Proof.
  induction pre as [|it rest IH]; intros data f; simpl; [reflexivity|].
  change (FTPClient.FileIsComingCallback LINUX (ri_info it) data
            (N.of_nat (length (rest ++ post))) f)
    with (FTPClient.FileIsComingCallback LINUX (ri_info it) data
            (N.of_nat (length rest)) f).
  destruct (FTPClient.FileIsComingCallback LINUX (ri_info it) data _ f)
    as [[[] data1] f1] eqn:Eb.
  - destruct (filetype (ri_info it)); try apply IH.
    destruct (FTPClient.wc_deliver (ri_chunks it) data1 f1) as [[[] data2] f2];
      [apply IH | reflexivity].
  - reflexivity.
  - apply IH.
Qed.

Lemma take_all (s : string) : Str.take (String.length s) s = s.
Proof. induction s as [|c r IH]; simpl; [reflexivity | now rewrite IH]. Qed.

Lemma size_mul_1 (n : N) : n < 2 ^ 64 -> size_mul 1 n = n.
Proof. intros H. unfold size_mul. rewrite N.mul_1_l. now apply N.mod_small. Qed.

End Callbacks.

Lemma PerformWildcard_closed (LINUX : bool) (srv : server) (url : string)
    (data : WildcardTransfersCallbackData) (w : world) :
  Ofs.is_open (ofsOutput data) = false ->
  Ofs.is_open
    (ofsOutput (snd (fst (FTPClient.PerformWildcard LINUX srv url data w)))) = false.
Proof.
  intros Hc. unfold FTPClient.PerformWildcard.
  pose proof (wc_statemach_closed LINUX (fst (srv_wildcard srv url)) data
                (fs (contact url w)) Hc) as H.
  destruct (FTPClient.wc_statemach LINUX _ data _) as [[[code|] data1] f1]; exact H.
Qed.

(** C7.  The item-completion handler closes the output file when one is
    open and otherwise changes nothing, and an enumeration started with no
    file open returns from perform with no file open; the shared state has
    a single stream, so at most one file is open at a time. *)
Theorem output_file_closed_when_perform_returns (LINUX : bool) :
  (forall data : WildcardTransfersCallbackData,
      fst (FTPClient.FileIsDownloadedCallback data) = CURL_CHUNK_END_FUNC_OK
      /\ Ofs.is_open (ofsOutput (snd (FTPClient.FileIsDownloadedCallback data))) = false
      /\ strOutputPath (snd (FTPClient.FileIsDownloadedCallback data)) = strOutputPath data
      /\ vecDirList (snd (FTPClient.FileIsDownloadedCallback data)) = vecDirList data
      /\ (Ofs.is_open (ofsOutput data) = false ->
          snd (FTPClient.FileIsDownloadedCallback data) = data))
  /\ (forall (srv : server) (url : string) (data : WildcardTransfersCallbackData) (w : world),
      Ofs.is_open (ofsOutput data) = false ->
      Ofs.is_open
        (ofsOutput (snd (fst (FTPClient.PerformWildcard LINUX srv url data w)))) = false).
Proof.
  split.
  - intros data. repeat split.
    + unfold FTPClient.FileIsDownloadedCallback. now destruct (Ofs.is_open _).
    + apply FileIsDownloadedCallback_closed.
    + unfold FTPClient.FileIsDownloadedCallback. now destruct (Ofs.is_open _).
    + unfold FTPClient.FileIsDownloadedCallback. now destruct (Ofs.is_open _).
    + apply FileIsDownloadedCallback_noop.
  - intros srv url data w. apply PerformWildcard_closed.
Qed.

Lemma output_file_closed_when_perform_returns_witness :
  Ofs.is_open
    (ofsOutput (snd (fst (FTPClient.PerformWildcard true Demo.srv "ftp://h//reports//*"
                            (mk_data Ofs.fresh "out/" []) Demo.start)))) = false.
Proof.
  apply (proj2 (output_file_closed_when_perform_returns true)). reflexivity.
Defined.

Lemma mkdir_error_keeps_storage (sep : ascii) (f : storage) (path : string) (errno : N) :
  fst (LocalFS.mkdir sep f path) = Some errno -> snd (LocalFS.mkdir sep f path) = f.
Proof.
  unfold LocalFS.mkdir. destruct (f !! LocalFS.key sep path); [reflexivity|].
  destruct (LocalFS.is_dir_node _); [discriminate | reflexivity].
Qed.

Lemma open_refused (sep : ascii) (o : ofstream) (f : storage) (path : string) :
  Ofs.is_open o = false ->
  LocalFS.open_trunc sep f path = None ->
  Ofs.open sep o path f = (mk_ofstream None true, f).
Proof.
  unfold Ofs.is_open, Ofs.open. destruct (of_file o); [discriminate|].
  now intros _ ->.
Qed.

Lemma open_granted (sep : ascii) (o : ofstream) (f f1 : storage) (path : string) :
  Ofs.is_open o = false ->
  LocalFS.open_trunc sep f path = Some f1 ->
  Ofs.open sep o path f = (mk_ofstream (Some path) false, f1).
Proof.
  unfold Ofs.is_open, Ofs.open. destruct (of_file o); [discriminate|].
  now intros _ ->.
Qed.

(** C5.  For an announced directory, [mkdir] failing with [EEXIST] is
    accepted and the enumeration goes on with the next entry; [mkdir]
    failing for another reason, and a file that cannot be opened, make the
    handler return [CURL_CHUNK_BGN_FUNC_FAIL], and the perform call of that
    enumeration then returns [CURLE_CHUNK_FAILED], which is neither
    [CURLE_OK] nor the status accepted for an empty directory. *)
Theorem announcement_failures (LINUX : bool) :
  (forall (it : remote_item) (rest : list remote_item)
          (data : WildcardTransfersCallbackData) (remains : N) (f : storage),
      filetype (ri_info it) = CURLFILETYPE_DIRECTORY ->
      fst (LocalFS.mkdir (FTPClient.path_sep LINUX) f
             (strOutputPath data +:+ filename (ri_info it))) = Some LocalFS.EEXIST ->
      FTPClient.FileIsComingCallback LINUX (ri_info it) data remains f
      = (CURL_CHUNK_BGN_FUNC_OK, push_back_dir data (filename (ri_info it)), f)
      /\ FTPClient.wc_statemach LINUX (it :: rest) data f
         = FTPClient.wc_statemach LINUX rest
             (snd (FTPClient.FileIsDownloadedCallback
                     (push_back_dir data (filename (ri_info it))))) f)
  /\ (forall (finfo : curl_fileinfo) (data : WildcardTransfersCallbackData)
             (remains : N) (f : storage) (errno : N),
      filetype finfo = CURLFILETYPE_DIRECTORY ->
      fst (LocalFS.mkdir (FTPClient.path_sep LINUX) f
             (strOutputPath data +:+ filename finfo)) = Some errno ->
      errno <> LocalFS.EEXIST ->
      fst (fst (FTPClient.FileIsComingCallback LINUX finfo data remains f))
      = CURL_CHUNK_BGN_FUNC_FAIL)
  /\ (forall (finfo : curl_fileinfo) (data : WildcardTransfersCallbackData)
             (remains : N) (f : storage),
      filetype finfo = CURLFILETYPE_FILE ->
      Ofs.is_open (ofsOutput data) = false ->
      LocalFS.open_trunc (FTPClient.path_sep LINUX) f
        (strOutputPath data +:+ filename finfo) = None ->
      fst (fst (FTPClient.FileIsComingCallback LINUX finfo data remains f))
      = CURL_CHUNK_BGN_FUNC_FAIL)
  /\ (forall (srv : server) (url : string) (data data1 : WildcardTransfersCallbackData)
             (w : world) (f1 : storage) (pre post : list remote_item) (it : remote_item),
      Ofs.is_open (ofsOutput data) = false ->
      fst (srv_wildcard srv url) = (pre ++ it :: post)%list ->
      FTPClient.wc_statemach LINUX pre data (fs w) = (None, data1, f1) ->
      (filetype (ri_info it) = CURLFILETYPE_DIRECTORY
       /\ exists errno : N,
            fst (LocalFS.mkdir (FTPClient.path_sep LINUX) f1
                   (strOutputPath data1 +:+ filename (ri_info it))) = Some errno
            /\ errno <> LocalFS.EEXIST)
      \/ (filetype (ri_info it) = CURLFILETYPE_FILE
          /\ LocalFS.open_trunc (FTPClient.path_sep LINUX) f1
               (strOutputPath data1 +:+ filename (ri_info it)) = None) ->
      fst (fst (FTPClient.PerformWildcard LINUX srv url data w)) = CURLE_CHUNK_FAILED)
  /\ CURLE_CHUNK_FAILED <> CURLE_OK
  /\ CURLE_CHUNK_FAILED <> CURLE_REMOTE_FILE_NOT_FOUND.
Proof.
  assert (Hdir : forall (finfo : curl_fileinfo) (data : WildcardTransfersCallbackData)
                         (remains : N) (f : storage) (errno : N),
             filetype finfo = CURLFILETYPE_DIRECTORY ->
             fst (LocalFS.mkdir (FTPClient.path_sep LINUX) f
                    (strOutputPath data +:+ filename finfo)) = Some errno ->
             errno <> LocalFS.EEXIST ->
             fst (fst (FTPClient.FileIsComingCallback LINUX finfo data remains f))
             = CURL_CHUNK_BGN_FUNC_FAIL).
  { intros finfo data remains f errno Ht Hm Hne.
    unfold FTPClient.FileIsComingCallback. rewrite Ht.
    destruct (LocalFS.mkdir _ _ _) as [r f']. simpl in Hm. subst r.
    destruct (errno =? LocalFS.EEXIST) eqn:E; [|reflexivity].
    apply N.eqb_eq in E. contradiction. }
  assert (Hfile : forall (finfo : curl_fileinfo) (data : WildcardTransfersCallbackData)
                          (remains : N) (f : storage),
             filetype finfo = CURLFILETYPE_FILE ->
             Ofs.is_open (ofsOutput data) = false ->
             LocalFS.open_trunc (FTPClient.path_sep LINUX) f
               (strOutputPath data +:+ filename finfo) = None ->
             fst (fst (FTPClient.FileIsComingCallback LINUX finfo data remains f))
             = CURL_CHUNK_BGN_FUNC_FAIL).
  { intros finfo data remains f Ht Hc Ho.
    unfold FTPClient.FileIsComingCallback. rewrite Ht.
    now rewrite (open_refused _ _ _ _ Hc Ho). }
  repeat apply conj; try discriminate; try assumption.
  - intros it rest data remains f Ht Hm.
    assert (Hcb : forall n, FTPClient.FileIsComingCallback LINUX (ri_info it) data n f
              = (CURL_CHUNK_BGN_FUNC_OK, push_back_dir data (filename (ri_info it)), f)).
    { intros n. unfold FTPClient.FileIsComingCallback. rewrite Ht.
      pose proof (mkdir_error_keeps_storage _ _ _ _ Hm) as Hs.
      destruct (LocalFS.mkdir _ _ _) as [r f']. simpl in Hm, Hs. subst r f'.
      reflexivity. }
    split; [apply Hcb|]. simpl. now rewrite Hcb, Ht.
  - intros srv url data data1 w f1 pre post it Hc Hl Hpre Hcause.
    assert (Hcb : fst (fst (FTPClient.FileIsComingCallback LINUX (ri_info it) data1 0 f1))
                  = CURL_CHUNK_BGN_FUNC_FAIL).
    { destruct Hcause as [(Ht & errno & Hm & Hne) | (Ht & Ho)].
      - eapply Hdir; eauto.
      - apply Hfile; [exact Ht | | exact Ho].
        pose proof (wc_statemach_closed LINUX pre data (fs w) Hc) as H.
        now rewrite Hpre in H. }
    unfold FTPClient.PerformWildcard. rewrite Hl, wc_statemach_app.
    change (fs (contact url w)) with (fs w). rewrite Hpre. simpl.
    rewrite (FileIsComingCallback_remains LINUX _ _ _ 0).
    destruct (FTPClient.FileIsComingCallback LINUX (ri_info it) data1 0 f1)
      as [[r d2] f2]. simpl in Hcb. subst r. reflexivity.
Qed.

Lemma announcement_failures_witness :
  (FTPClient.FileIsComingCallback true (ri_info Demo.dir_2025)
     (mk_data Ofs.fresh "out/" []) 0 (<["out/2025" := FileNode "old"]> Demo.disk)
   = (CURL_CHUNK_BGN_FUNC_OK, mk_data Ofs.fresh "out/" ["2025"],
      <["out/2025" := FileNode "old"]> Demo.disk))
  /\ fst (fst (FTPClient.FileIsComingCallback true (ri_info Demo.dir_x_y)
                 (mk_data Ofs.fresh "out/" []) 0 Demo.disk)) = CURL_CHUNK_BGN_FUNC_FAIL
  /\ fst (fst (FTPClient.FileIsComingCallback true (ri_info Demo.a_txt)
                 (mk_data Ofs.fresh "nowhere/" []) 0 Demo.disk)) = CURL_CHUNK_BGN_FUNC_FAIL
  /\ fst (fst (FTPClient.PerformWildcard true Demo.srv "ftp://h//odd//*"
                 (mk_data Ofs.fresh "out/" []) Demo.start)) = CURLE_CHUNK_FAILED
  /\ fst (fst (FTPClient.PerformWildcard true Demo.srv "ftp://h//deep//*"
                 (mk_data Ofs.fresh "out/" []) Demo.start)) = CURLE_CHUNK_FAILED.
Proof.
  destruct (announcement_failures true) as (H1 & H2 & H3 & H4 & _).
  repeat apply conj.
  - apply (H1 Demo.dir_2025 []); reflexivity.
  - apply (H2 _ _ _ _ LocalFS.ENOENT); [reflexivity | reflexivity | discriminate].
  - apply H3; reflexivity.
  - apply (H4 _ _ _ (mk_data Ofs.fresh "out/" ["2025"]) _ (<["out/2025" := DirNode]> Demo.disk)
             [Demo.dir_2025] [] Demo.file_2025); try reflexivity.
    right. split; reflexivity.
  - apply (H4 _ _ _ (mk_data Ofs.fresh "out/" [])
             _ (<["out/a.txt" := FileNode "hello"]> Demo.disk)
             [Demo.a_txt] [Demo.b_txt] Demo.dir_x_y); try reflexivity.
    left. split; [reflexivity|]. exists LocalFS.ENOENT. split; [reflexivity | discriminate].
Defined.

(** ** The data hook *)

(** C6 as stated fails: a chunk that arrives while no file is open is not
    accepted by the hook, so the transfer does not go on. *)
Lemma chunk_without_open_file_not_accepted :
  ~ (forall (buff : string) (data : WildcardTransfersCallbackData) (f : storage),
        Ofs.is_open (ofsOutput data) = false ->
        FTPClient.write_accepted buff
          (fst (fst (FTPClient.WriteItCallback buff 1 (Str.size buff) data f))) = true
        /\ fst (fst (FTPClient.wc_deliver [buff] data f)) = true).
Proof.
  intros H.
  destruct (H "abc" (mk_data Ofs.fresh "out/" []) Demo.disk eq_refl) as [H1 _].
  discriminate H1.
Qed.

(** C6, amended.  While no output file is open the hook writes and keeps
    nothing and returns 0; for a chunk that is not empty this differs
    from the size of the chunk, and the transfer engine stops delivering.
    While a file is open (as left by a successful announcement, with the
    stream in a good state) the bytes are appended to that file, the hook
    returns [nmemb], and delivery goes on. *)
Theorem WriteItCallback_effect
    (buff : string) (size nmemb : N) (data : WildcardTransfersCallbackData) (f : storage) :
  (Ofs.is_open (ofsOutput data) = false ->
     FTPClient.WriteItCallback buff size nmemb data f = (0, data, f)
     /\ (0 < Str.size buff < 2 ^ 64 ->
         forall rest, FTPClient.wc_deliver (buff :: rest) data f = (false, data, f)))
  /\ (forall path : string,
     ofsOutput data = mk_ofstream (Some path) false ->
     FTPClient.WriteItCallback buff size nmemb data f
     = (nmemb, data,
        LocalFS.append f path (Str.take (N.to_nat (size_mul size nmemb)) buff))
     /\ (Str.size buff < 2 ^ 64 ->
         forall rest, FTPClient.wc_deliver (buff :: rest) data f
                      = FTPClient.wc_deliver rest data (LocalFS.append f path buff)))
  /\ (forall (LINUX : bool) (finfo : curl_fileinfo) (remains : N)
             (data1 : WildcardTransfersCallbackData) (f1 : storage),
     filetype finfo = CURLFILETYPE_FILE ->
     Ofs.is_open (ofsOutput data) = false ->
     FTPClient.FileIsComingCallback LINUX finfo data remains f
     = (CURL_CHUNK_BGN_FUNC_OK, data1, f1) ->
     ofsOutput data1 = mk_ofstream (Some (strOutputPath data +:+ filename finfo)) false).
Proof.
  repeat apply conj.
  - intros Hc.
    assert (Hw : forall s n, FTPClient.WriteItCallback buff s n data f = (0, data, f)).
    { intros s n. unfold FTPClient.WriteItCallback. now rewrite Hc. }
    split; [apply Hw|]. intros [Hpos Hlt] rest. simpl. rewrite Hw.
    unfold FTPClient.write_accepted. rewrite size_mul_1 by exact Hlt.
    destruct (0 =? Str.size buff) eqn:E; [|reflexivity].
    apply N.eqb_eq in E. lia.
  - intros path Ho.
    assert (Hw : forall s n, FTPClient.WriteItCallback buff s n data f
              = (n, data, LocalFS.append f path (Str.take (N.to_nat (size_mul s n)) buff))).
    { intros s n. unfold FTPClient.WriteItCallback, Ofs.is_open, Ofs.write.
      destruct data as [o out dirs]. simpl in Ho. subst o. reflexivity. }
    split; [apply Hw|]. intros Hlt rest. simpl. rewrite Hw.
    unfold FTPClient.write_accepted. rewrite size_mul_1 by exact Hlt.
    rewrite N.eqb_refl. unfold Str.size. rewrite Nat2N.id, take_all. reflexivity.
  - intros LINUX finfo remains data1 f1 Ht Hc.
    unfold FTPClient.FileIsComingCallback. rewrite Ht.
    destruct (LocalFS.open_trunc (FTPClient.path_sep LINUX) f
                (strOutputPath data +:+ filename finfo)) as [f'|] eqn:Eo.
    + rewrite (open_granted _ _ _ _ _ Hc Eo). simpl. now intros [= <- <-].
    + rewrite (open_refused _ _ _ _ Hc Eo). discriminate.
Qed.

Lemma WriteItCallback_effect_witness :
  FTPClient.wc_deliver ["abc"; "def"] (mk_data Ofs.fresh "out/" []) Demo.disk
  = (false, mk_data Ofs.fresh "out/" [], Demo.disk)
  /\ FTPClient.wc_deliver ["he"; "llo"]
       (mk_data (mk_ofstream (Some "out/a.txt") false) "out/" [])
       (<["out/a.txt" := FileNode ""]> Demo.disk)
     = (true, mk_data (mk_ofstream (Some "out/a.txt") false) "out/" [],
        <["out/a.txt" := FileNode "hello"]> Demo.disk)
  /\ ofsOutput (snd (fst (FTPClient.FileIsComingCallback true (ri_info Demo.a_txt)
                            (mk_data Ofs.fresh "out/" []) 1 Demo.disk)))
     = mk_ofstream (Some "out/a.txt") false.
Proof.
  repeat apply conj.
  - apply (WriteItCallback_effect "abc" 1 3 (mk_data Ofs.fresh "out/" []) Demo.disk);
      [reflexivity | split; reflexivity].
  - rewrite (proj2 (proj1 (proj2 (WriteItCallback_effect "he" 1 2
               (mk_data (mk_ofstream (Some "out/a.txt") false) "out/" [])
               (<["out/a.txt" := FileNode ""]> Demo.disk))) "out/a.txt" eq_refl) eq_refl).
    reflexivity.
  - apply (proj2 (proj2 (WriteItCallback_effect "" 1 0 (mk_data Ofs.fresh "out/" [])
                           Demo.disk)) true (ri_info Demo.a_txt) 1 _
             (<["out/a.txt" := FileNode ""]> Demo.disk)); reflexivity.
Defined.

(** ** DownloadFile *)

Lemma open_trunc_creates (sep : ascii) (f f1 : storage) (path : string) :
  LocalFS.open_trunc sep f path = Some f1 -> f1 = <[path := FileNode EmptyString]> f.
Proof.
  unfold LocalFS.open_trunc. destruct (_ || _); [discriminate|].
  destruct (f !! path) as [[|c]|]; try discriminate.
  - now intros [= <-].
  - destruct (LocalFS.is_dir_node _); [now intros [= <-] | discriminate].
Qed.

Lemma append_keeps_file (f : storage) (path bytes : string) :
  LocalFS.is_file_node (f !! path) = true ->
  LocalFS.is_file_node (LocalFS.append f path bytes !! path) = true.
Proof.
  unfold LocalFS.append. destruct (f !! path) as [[|c]|] eqn:E; try discriminate.
  intros _. now rewrite lookup_insert_eq.
Qed.

(** While the file of [DownloadFile] is being received it stays a regular
    file and the stream stays on it. *)
Lemma file_deliver_keeps_file (path : string) (chunks : list string) :
  forall (o : ofstream) (f : storage),
    of_file o = Some path ->
    LocalFS.is_file_node (f !! path) = true ->
    of_file (snd (fst (FTPClient.file_deliver chunks o f))) = Some path
    /\ LocalFS.is_file_node (snd (FTPClient.file_deliver chunks o f) !! path) = true.
Proof.
  induction chunks as [|buff rest IH]; intros o f Ho Hf; simpl; [now split|].
  unfold FTPClient.WriteToFileCallback.
  destruct (_ || _).
  - destruct (FTPClient.write_accepted buff 0); [now apply IH | now split].
  - unfold Ofs.is_open, Ofs.write. rewrite Ho.
    destruct (of_fail o).
    + destruct (FTPClient.write_accepted _ _); [now apply IH | now split].
    + destruct (FTPClient.write_accepted _ _).
      * apply IH; [exact Ho | now apply append_keeps_file].
      * simpl. split; [exact Ho | now apply append_keeps_file].
Qed.

(** C10.  With non-empty arguments and an initialised session, when the
    local file was opened and the perform call returns a status other
    than [CURLE_OK], [DownloadFile] closes the stream, removes the file
    from local storage and returns [false]. *)
Theorem DownloadFile_failure_removes_file
    (LINUX : bool) (ENABLE_LOG : N) (c : CFTPClient) (srv : server)
    (strLocalFile strRemoteFile : string) (w : world) :
  Str.empty strLocalFile = false ->
  Str.empty strRemoteFile = false ->
  m_pCurlSession c = true ->
  let opened := Ofs.open (FTPClient.path_sep LINUX) Ofs.fresh strLocalFile (fs w) in
  Ofs.good (fst opened) = true ->
  fst (fst (FTPClient.PerformFile srv (FTPClient.ParseURL c strRemoteFile)
              (fst opened) (set_fs w (snd opened)))) <> CURLE_OK ->
  let body := FTPClient.DownloadFile_body LINUX ENABLE_LOG c srv
                strLocalFile strRemoteFile w in
  fst (fst body) = false
  /\ Ofs.is_open (snd (fst body)) = false
  /\ fs (snd body) !! strLocalFile = None
  /\ FTPClient.DownloadFile LINUX ENABLE_LOG c srv strLocalFile strRemoteFile w
     = (false, snd body).
Proof.
  intros Hl Hr Hs opened Hgood Hres body.
  assert (Hbody : fst (fst body) = false
                  /\ Ofs.is_open (snd (fst body)) = false
                  /\ fs (snd body) !! strLocalFile = None).
  { subst body. unfold FTPClient.DownloadFile_body. fold opened.
    destruct opened as [o0 f0] eqn:Eo. simpl in Hgood, Hres. rewrite Hgood.
    assert (Ho0 : of_file o0 = Some strLocalFile /\ LocalFS.is_file_node (f0 !! strLocalFile) = true).
    { subst opened. unfold Ofs.open in Eo. simpl in Eo.
      destruct (LocalFS.open_trunc _ _ _) as [f'|] eqn:Et.
      - injection Eo as <- <-. apply open_trunc_creates in Et. subst f'.
        split; [reflexivity | now rewrite lookup_insert_eq].
      - injection Eo as <- <-. discriminate Hgood. }
    destruct Ho0 as [Hof Hfile].
    unfold FTPClient.PerformFile in *.
    pose proof (file_deliver_keeps_file strLocalFile
                  (fst (srv_file srv (FTPClient.ParseURL c strRemoteFile)))
                  o0 f0 Hof Hfile) as [Hof1 Hfile1].
    change (fs (contact (FTPClient.ParseURL c strRemoteFile) (set_fs w f0))) with f0 in *.
    destruct (FTPClient.file_deliver _ o0 f0) as [[ok o1] f1].
    simpl in Hof1, Hfile1.
    assert (Hrm : forall w2, fs w2 = f1 ->
              fs (set_fs w2 (LocalFS.remove (fs w2) strLocalFile)) !! strLocalFile = None).
    { intros w2 ->. simpl. unfold LocalFS.remove.
      destruct (f1 !! strLocalFile) as [[|cnt]|] eqn:E; try discriminate.
      apply lookup_delete_eq. }
    assert (Hcl : Ofs.is_open (Ofs.close o1) = false).
    { unfold Ofs.close, Ofs.is_open. now rewrite Hof1. }
    destruct ok; simpl in Hres |- *.
    - destruct (snd (srv_file srv (FTPClient.ParseURL c strRemoteFile)) =? CURLE_OK) eqn:E.
      + apply N.eqb_eq in E. contradiction.
      + simpl. repeat split; [exact Hcl|].
        apply Hrm. now rewrite log_if_enabled_fs.
    - simpl. repeat split; [exact Hcl|].
      apply Hrm. now rewrite log_if_enabled_fs. }
  destruct Hbody as (Hb & Hc & Hf). repeat split; try assumption.
  unfold FTPClient.DownloadFile. rewrite Hl, Hr, Hs. simpl.
  fold body. destruct body as [[b o] w']. simpl in Hb. now subst b.
Qed.

Lemma DownloadFile_failure_removes_file_witness :
  FTPClient.DownloadFile true Demo.ENABLE_LOG Demo.client Demo.srv
    "out/broken.bin" "broken.bin" Demo.start
  = (false,
     mk_world Demo.disk
       [LOG_ERROR_CURL_GETFILE_FORMAT "h" "broken.bin" 18] ["ftp://h//broken.bin"]).
Proof.
  pose proof (DownloadFile_failure_removes_file true Demo.ENABLE_LOG Demo.client Demo.srv
                "out/broken.bin" "broken.bin" Demo.start
                eq_refl eq_refl eq_refl eq_refl) as H.
  simpl in H. apply H. discriminate.
Defined.

(** ** The recursion *)

Section Recursion.

Context (LINUX : bool).

Lemma wc_deliver_keeps_path chunks : forall data f,
  strOutputPath (snd (fst (FTPClient.wc_deliver chunks data f))) = strOutputPath data.
Proof.
  induction chunks as [|buff rest IH]; intros data f; simpl; [reflexivity|].
  unfold FTPClient.WriteItCallback.
  destruct (Ofs.is_open (ofsOutput data)).
  - destruct (Ofs.write _ _ _) as [o f1].
    destruct (FTPClient.write_accepted _ _); [now rewrite IH | reflexivity].
  - destruct (FTPClient.write_accepted _ _); [now rewrite IH | reflexivity].
Qed.

Lemma FileIsDownloadedCallback_keeps_path data :
  strOutputPath (snd (FTPClient.FileIsDownloadedCallback data)) = strOutputPath data.
Proof. unfold FTPClient.FileIsDownloadedCallback. now destruct (Ofs.is_open _). Qed.

Lemma FileIsComingCallback_keeps_path finfo data n f :
  strOutputPath (snd (fst (FTPClient.FileIsComingCallback LINUX finfo data n f)))
  = strOutputPath data.
Proof.
  unfold FTPClient.FileIsComingCallback.
  destruct (filetype finfo); try reflexivity.
  - destruct (Ofs.open _ _ _ _) as [o f1]. now destruct (negb _).
  - destruct (LocalFS.mkdir _ _ _) as [[e|] f1]; [now destruct (negb _) | reflexivity].
Qed.

Lemma wc_statemach_keeps_path items : forall data f,
  strOutputPath (snd (fst (FTPClient.wc_statemach LINUX items data f)))
  = strOutputPath data.
Proof.
  induction items as [|it rest IH]; intros data f; simpl; [reflexivity|].
  pose proof (FileIsComingCallback_keeps_path (ri_info it) data
                (N.of_nat (length rest)) f) as Hb.
  destruct (FTPClient.FileIsComingCallback LINUX (ri_info it) data _ f)
    as [[r data1] f1]. simpl in Hb.
  assert (Hend : forall f', strOutputPath
            (snd (fst (FTPClient.wc_statemach LINUX rest
                         (snd (FTPClient.FileIsDownloadedCallback data1)) f')))
            = strOutputPath data).
  { intros f'. now rewrite IH, FileIsDownloadedCallback_keeps_path. }
  destruct r; [|exact Hb|apply Hend].
  destruct (filetype (ri_info it)); try apply Hend.
  pose proof (wc_deliver_keeps_path (ri_chunks it) data1 f1) as Hd.
  destruct (FTPClient.wc_deliver _ data1 f1) as [[ok data2] f2]. simpl in Hd.
  destruct ok.
  - now rewrite IH, FileIsDownloadedCallback_keeps_path, Hd.
  - simpl. now rewrite FileIsDownloadedCallback_keeps_path, Hd.
Qed.

Lemma PerformWildcard_keeps_path srv url data w :
  strOutputPath (snd (fst (FTPClient.PerformWildcard LINUX srv url data w)))
  = strOutputPath data.
Proof.
  unfold FTPClient.PerformWildcard.
  pose proof (wc_statemach_keeps_path (fst (srv_wildcard srv url)) data
                (fs (contact url w))) as H.
  destruct (FTPClient.wc_statemach LINUX _ data _) as [[[code|] data1] f1]; exact H.
Qed.

(** The loop of the source, with its flag, computes what the fan-out of
    the specification computes. *)
Lemma recurse_dirs_fan_out rec out base dirs : forall bRet w,
  FTPClient.recurse_dirs rec out base dirs bRet w
  = match Written.fan_out rec (fun d => out +:+ d) (fun d => base +:+ d +:+ "/*") dirs w with
    | (Some oks, w') => (Some (bRet && oks), w')
    | (None, w') => (None, w')
    end.
Proof.
  induction dirs as [|d rest IH]; intros bRet w; simpl.
  - now rewrite andb_true_r.
  - destruct (rec _ _ w) as [[[]|] w1]; [| |reflexivity]; rewrite IH;
      destruct (Written.fan_out _ _ _ rest _) as [[oks|] w3]; try reflexivity.
    now rewrite andb_false_r.
Qed.

Lemma fan_out_ext rec l1 l2 p1 p2 dirs :
  (forall d, l1 d = l2 d) -> (forall d, p1 d = p2 d) ->
  forall w, Written.fan_out rec l1 p1 dirs w = Written.fan_out rec l2 p2 dirs w.
Proof.
  intros Hl Hp. induction dirs as [|d rest IH]; intros w; simpl; [reflexivity|].
  rewrite Hl, Hp. destruct (rec _ _ w) as [[ok|] w1]; [|reflexivity].
  now rewrite IH.
Qed.

Lemma recurse_dirs_attempts rec out base dirs : forall bRet w b w',
  FTPClient.recurse_dirs rec out base dirs bRet w = (Some b, w')
  <-> exists oks, Written.attempts rec out base dirs w oks w'
                  /\ b = bRet && forallb id oks.
Proof.
  induction dirs as [|d rest IH]; intros bRet w b w'; simpl.
  - split.
    + intros [= <- <-]. exists []. split; [constructor | now rewrite andb_true_r].
    + intros (oks & Ha & ->). inversion Ha; subst. simpl. now rewrite andb_true_r.
  - split.
    + destruct (rec _ _ w) as [[[]|] w1] eqn:Er; [| |discriminate].
      * intros H. apply IH in H as (oks & Ha & ->).
        exists (true :: oks). split; [econstructor; eauto | reflexivity].
      * intros H. apply IH in H as (oks & Ha & ->).
        exists (false :: oks). split; [econstructor; eauto |].
        simpl. now rewrite andb_false_r.
    + intros (oks & Ha & ->). inversion Ha as [|? ? ? w1 ? ok oks' Hr Hrest]; subst.
      rewrite Hr. destruct ok.
      * apply IH. exists oks'. split; [exact Hrest | reflexivity].
      * apply IH. exists oks'. split; [exact Hrest |].
        simpl. now rewrite andb_false_r.
Qed.

Lemma attempts_length rec out base dirs : forall w oks w',
  Written.attempts rec out base dirs w oks w' -> length oks = length dirs.
Proof.
  induction dirs as [|d rest IH]; intros w oks w' Ha; inversion Ha; subst; simpl.
  - reflexivity.
  - f_equal. eapply IH; eauto.
Qed.

Lemma forallb_id_false (oks : list bool) : forallb id oks = false <-> In false oks.
Proof.
  induction oks as [|[] oks IH]; simpl.
  - split; [discriminate | contradiction].
  - rewrite IH. split; [now right | now intros [|]].
  - split; [now left | reflexivity].
Qed.

End Recursion.

Lemma status_accepted (res : CURLcode) :
  res = CURLE_OK \/ res = CURLE_REMOTE_FILE_NOT_FOUND ->
  negb (res =? CURLE_OK) && negb (res =? CURLE_REMOTE_FILE_NOT_FOUND) = false.
Proof. now intros [-> | ->]. Qed.

Lemma output_path_written (LINUX : bool) (strLocalDir : string) :
  FTPClient.output_path LINUX strLocalDir
  = Written.ensure_trailing (FTPClient.path_sep LINUX) strLocalDir.
Proof.
  unfold FTPClient.output_path, Written.ensure_trailing.
  destruct (Str.back_is _ strLocalDir); simpl; [apply append_empty_r | reflexivity].
Qed.

Lemma base_url_written (strRemoteWildcard : string) :
  FTPClient.base_url strRemoteWildcard
  = if Str.empty (Str.chop strRemoteWildcard) then EmptyString
    else Written.ensure_trailing "/" (Str.chop strRemoteWildcard).
Proof.
  unfold FTPClient.base_url, Written.ensure_trailing.
  destruct (Str.chop strRemoteWildcard) as [|c r]; [reflexivity|].
  simpl. now destruct (Str.back_is "/" (String c r)).
Qed.

(** C1 as stated fails for the pattern that is the wildcard alone: no
    ['/'] is put in front of the subdirectory name, and the URL contacted
    for the subdirectory is not the one of the pattern the claim gives. *)
Lemma bare_wildcard_child_pattern :
  ~ (forall remotePattern d : string,
        Str.back_is "*" remotePattern = true ->
        FTPClient.base_url remotePattern +:+ d +:+ "/*"
        = Written.child_pattern remotePattern d)
  /\ performed (snd (FTPClient.DownloadWildcard true Demo.ENABLE_LOG 2 Demo.client Demo.srv
                       "out" "*" Demo.start))
     = ["ftp://h//*"; "ftp://h//2024//*"]
  /\ FTPClient.ParseURL Demo.client (Written.child_pattern "*" "2024")
     = "ftp://h////2024//*".
Proof.
  repeat apply conj; [|reflexivity|reflexivity].
  intros H. specialize (H "*" "2024" eq_refl). discriminate H.
Qed.

(** C1, amended.  When the perform call of an invocation on a pattern
    ending in ['*'] is accepted, the invocation makes its recursive calls
    with the local path [localDir] (separator-terminated) followed by the
    subdirectory name, and with the remote pattern obtained from the
    pattern without its trailing ['*'], a ['/'] appended unless that
    prefix is empty or already ends in one, followed by the name and
    ["/*"].  For every pattern other than the wildcard alone this is the
    pattern the claim gives. *)
Theorem recursion_targets
    (LINUX : bool) (ENABLE_LOG : N) (fuel : nat) (c : CFTPClient) (srv : server)
    (strLocalDir strRemoteWildcard : string) (w w1 : world)
    (res : CURLcode) (data1 : WildcardTransfersCallbackData) :
  Str.empty strLocalDir = false ->
  m_pCurlSession c = true ->
  LocalFS.stat_is_dir (FTPClient.path_sep LINUX) (fs w) strLocalDir = true ->
  FTPClient.PerformWildcard LINUX srv (FTPClient.ParseURL c strRemoteWildcard)
    (mk_data Ofs.fresh (FTPClient.output_path LINUX strLocalDir) []) w
  = (res, data1, w1) ->
  res = CURLE_OK \/ res = CURLE_REMOTE_FILE_NOT_FOUND ->
  Str.back_is "*" strRemoteWildcard = true ->
  FTPClient.DownloadWildcard LINUX ENABLE_LOG (S fuel) c srv strLocalDir strRemoteWildcard w
  = Written.fan_out (FTPClient.DownloadWildcard LINUX ENABLE_LOG fuel c srv)
      (Written.child_local (FTPClient.path_sep LINUX) strLocalDir)
      (Written.child_pattern_amended strRemoteWildcard)
      (vecDirList data1) w1
  /\ (Str.empty (Str.chop strRemoteWildcard) = false ->
      forall d, Written.child_pattern_amended strRemoteWildcard d
                = Written.child_pattern strRemoteWildcard d).
Proof.
  intros Hl Hs Hdir Hp Hres Hstar. split.
  - assert (Hr : Str.empty strRemoteWildcard = false)
      by (destruct strRemoteWildcard; [discriminate Hstar | reflexivity]).
    erewrite DownloadWildcard_performs; eauto;
      [| now rewrite Hl, Hr | now rewrite stat_output_path].
    rewrite (status_accepted _ Hres), Hstar, andb_true_r.
    destruct (vecDirList data1) as [|d rest] eqn:Ev; [reflexivity|].
    cbn [vec_empty negb]. rewrite recurse_dirs_fan_out.
    pose proof (PerformWildcard_keeps_path LINUX srv
                  (FTPClient.ParseURL c strRemoteWildcard)
                  (mk_data Ofs.fresh (FTPClient.output_path LINUX strLocalDir) []) w) as Hpath.
    rewrite Hp in Hpath. simpl in Hpath. rewrite Hpath.
    rewrite (fan_out_ext _ _ (Written.child_local (FTPClient.path_sep LINUX) strLocalDir)
               _ (Written.child_pattern_amended strRemoteWildcard)).
    + destruct (Written.fan_out _ _ _ _ _) as [[oks|] w']; reflexivity.
    + intros d'. unfold Written.child_local. now rewrite output_path_written.
    + intros d'. unfold Written.child_pattern_amended. now rewrite base_url_written.
  - intros Hne d. unfold Written.child_pattern_amended, Written.child_pattern.
    now rewrite Hne.
Qed.

Lemma recursion_targets_witness :
  FTPClient.DownloadWildcard true Demo.ENABLE_LOG 2 Demo.client Demo.srv
    "out" "reports/*" Demo.start
  = Written.fan_out (FTPClient.DownloadWildcard true Demo.ENABLE_LOG 1 Demo.client Demo.srv)
      (fun d => "out/" +:+ d) (fun d => "reports/" +:+ d +:+ "/*") ["2024"; "2025"]
      (mk_world (<["out/2025" := DirNode]>
                   (<["out/2024" := DirNode]>
                      (<["out/a.txt" := FileNode "hello"]> Demo.disk)))
         [] ["ftp://h//reports//*"])
  /\ Written.child_pattern "reports/*" "2024" = "reports/2024/*"
  /\ Written.child_local "/" "out" "2024" = "out/2024".
Proof.
  destruct (recursion_targets true Demo.ENABLE_LOG 1 Demo.client Demo.srv
              "out" "reports/*" Demo.start
              (mk_world (<["out/2025" := DirNode]>
                           (<["out/2024" := DirNode]>
                              (<["out/a.txt" := FileNode "hello"]> Demo.disk)))
                 [] ["ftp://h//reports//*"])
              CURLE_OK (mk_data Ofs.fresh "out/" ["2024"; "2025"])
              eq_refl eq_refl eq_refl eq_refl (or_introl eq_refl) eq_refl) as [H1 H2].
  repeat apply conj; [exact H1 | reflexivity | reflexivity].
Defined.

(** C2.  When the perform call of an invocation on a pattern ending in
    ['*'] is accepted and subdirectories were collected, the invocation
    returns [b] exactly when one recursive call was made for every
    collected subdirectory, in order, each in the world its predecessor
    left (whatever the predecessor returned), and [b] is the conjunction
    of their results; so [b] is [false] exactly when some call returned
    [false]. *)
Theorem recursion_attempts_every_subdirectory
    (LINUX : bool) (ENABLE_LOG : N) (fuel : nat) (c : CFTPClient) (srv : server)
    (strLocalDir strRemoteWildcard : string) (w w1 : world)
    (res : CURLcode) (data1 : WildcardTransfersCallbackData) :
  Str.empty strLocalDir = false ->
  m_pCurlSession c = true ->
  LocalFS.stat_is_dir (FTPClient.path_sep LINUX) (fs w) strLocalDir = true ->
  FTPClient.PerformWildcard LINUX srv (FTPClient.ParseURL c strRemoteWildcard)
    (mk_data Ofs.fresh (FTPClient.output_path LINUX strLocalDir) []) w
  = (res, data1, w1) ->
  res = CURLE_OK \/ res = CURLE_REMOTE_FILE_NOT_FOUND ->
  vecDirList data1 <> [] ->
  Str.back_is "*" strRemoteWildcard = true ->
  forall (b : bool) (w' : world),
    FTPClient.DownloadWildcard LINUX ENABLE_LOG (S fuel) c srv
      strLocalDir strRemoteWildcard w = (Some b, w')
    <-> exists oks : list bool,
          Written.attempts (FTPClient.DownloadWildcard LINUX ENABLE_LOG fuel c srv)
            (strOutputPath data1) (FTPClient.base_url strRemoteWildcard)
            (vecDirList data1) w1 oks w'
          /\ length oks = length (vecDirList data1)
          /\ b = forallb id oks
          /\ (b = false <-> In false oks).
Proof.
  intros Hl Hs Hdir Hp Hres Hne Hstar b w'.
  assert (Hr : Str.empty strRemoteWildcard = false)
    by (destruct strRemoteWildcard; [discriminate Hstar | reflexivity]).
  erewrite DownloadWildcard_performs; eauto;
    [| now rewrite Hl, Hr | now rewrite stat_output_path].
  rewrite (status_accepted _ Hres), Hstar, andb_true_r.
  destruct (vecDirList data1) as [|d rest] eqn:Ev; [contradiction|].
  cbn [vec_empty negb]. rewrite recurse_dirs_attempts. split.
  - intros (oks & Ha & ->). exists oks. repeat split.
    + exact Ha.
    + eapply attempts_length; eauto.
    + apply forallb_id_false.
    + apply forallb_id_false.
  - intros (oks & Ha & _ & -> & _). exists oks. now split.
Qed.

Lemma recursion_attempts_every_subdirectory_witness :
  exists oks : list bool,
    Written.attempts (FTPClient.DownloadWildcard true Demo.ENABLE_LOG 1 Demo.client Demo.srv)
      "out/" "reports/" ["2024"; "2025"]
      (mk_world (<["out/2025" := DirNode]>
                   (<["out/2024" := DirNode]>
                      (<["out/a.txt" := FileNode "hello"]> Demo.disk)))
         [] ["ftp://h//reports//*"])
      oks
      (mk_world (<["out/2025/b.txt" := FileNode "x"]>
                   (<["out/2025" := DirNode]>
                      (<["out/2024" := DirNode]>
                         (<["out/a.txt" := FileNode "hello"]> Demo.disk))))
         [LOG_ERROR_CURL_GETWILD_FORMAT "h" "reports/2024/*" 7;
          LOG_ERROR_CURL_GETWILD_REC_FORMAT "reports/2024/*" "out/2024"]
         ["ftp://h//reports//*"; "ftp://h//reports//2024//*"; "ftp://h//reports//2025//*"])
    /\ length oks = 2%nat
    /\ false = forallb id oks
    /\ (false = false <-> In false oks).
Proof.
  apply (recursion_attempts_every_subdirectory true Demo.ENABLE_LOG 1 Demo.client Demo.srv
           "out" "reports/*" Demo.start
           (mk_world (<["out/2025" := DirNode]>
                        (<["out/2024" := DirNode]>
                           (<["out/a.txt" := FileNode "hello"]> Demo.disk)))
              [] ["ftp://h//reports//*"])
           CURLE_OK (mk_data Ofs.fresh "out/" ["2024"; "2025"])
           eq_refl eq_refl eq_refl eq_refl (or_introl eq_refl)
           ltac:(discriminate) eq_refl false).
  reflexivity.
Defined.

(** ** Logging *)

(** C9 does not hold of the code: with the [ENABLE_LOG] bit unset, a
    recursive call that fails is still reported to the logger.  Here the
    listing of [reports/2024] fails; the failure inside the recursive call
    is not logged, the failed call itself is. *)
Theorem failed_recursion_logged_with_logging_off :
  FTPClient.log_enabled Demo.ENABLE_LOG Demo.quiet_client = false
  /\ fst (FTPClient.DownloadWildcard true Demo.ENABLE_LOG 2 Demo.quiet_client Demo.srv
            "out" "reports/*" Demo.start) = Some false
  /\ logged (snd (FTPClient.DownloadWildcard true Demo.ENABLE_LOG 2 Demo.quiet_client
                    Demo.srv "out" "reports/*" Demo.start))
     = [LOG_ERROR_CURL_GETWILD_REC_FORMAT "reports/2024/*" "out/2024"].
Proof. repeat split. Qed.

(** ** Downloading twice *)

Lemma kind_dir (o : option fnode) : kind o = Some KDir -> o = Some DirNode.
Proof. destruct o as [[|c]|]; simpl; congruence. Qed.

Lemma kind_file (o : option fnode) : kind o = Some KFile -> exists c, o = Some (FileNode c).
Proof. destruct o as [[|c]|]; simpl; try congruence. eauto. Qed.

Lemma kind_none (o : option fnode) : kind o = None -> o = None.
Proof. destruct o as [[|c]|]; simpl; congruence. Qed.

Lemma grows_refl (f : storage) : grows f f.
Proof. intros k _. reflexivity. Qed.

Lemma grows_trans (f g h : storage) : grows f g -> grows g h -> grows f h.
Proof.
  intros Hfg Hgh k Hk. rewrite <- (Hfg k Hk). apply Hgh.
  intros E. specialize (Hfg k Hk). rewrite E in Hfg.
  destruct (f !! k) as [[|c]|]; simpl in Hfg; congruence.
Qed.

Lemma grows_insert_new (f : storage) (k : string) (n : fnode) :
  f !! k = None -> grows f (<[k := n]> f).
Proof.
  intros Hk k' Hk'. destruct (decide (k = k')) as [<-|Hne].
  - contradiction.
  - now rewrite lookup_insert_ne.
Qed.

Lemma grows_insert_file (f : storage) (k c c' : string) :
  f !! k = Some (FileNode c) -> grows f (<[k := FileNode c']> f).
Proof.
  intros Hk k' Hk'. destruct (decide (k = k')) as [<-|Hne].
  - now rewrite lookup_insert_eq, Hk.
  - now rewrite lookup_insert_ne.
Qed.

Section Growth.

Context (LINUX : bool).

Lemma mkdir_grows f path : grows f (snd (LocalFS.mkdir (FTPClient.path_sep LINUX) f path)).
Proof.
  unfold LocalFS.mkdir.
  destruct (f !! LocalFS.key _ path) eqn:E; [apply grows_refl|].
  destruct (LocalFS.is_dir_node _); [now apply grows_insert_new | apply grows_refl].
Qed.

Lemma open_trunc_grows f f1 path :
  LocalFS.open_trunc (FTPClient.path_sep LINUX) f path = Some f1 -> grows f f1.
Proof.
  unfold LocalFS.open_trunc. destruct (_ || _); [discriminate|].
  destruct (f !! path) as [[|c]|] eqn:E; try discriminate.
  - intros [= <-]. eapply grows_insert_file; eauto.
  - destruct (LocalFS.is_dir_node _); [|discriminate].
    intros [= <-]. now apply grows_insert_new.
Qed.

Lemma append_grows f path bytes : grows f (LocalFS.append f path bytes).
Proof.
  unfold LocalFS.append. destruct (f !! path) as [[|c]|] eqn:E; try apply grows_refl.
  eapply grows_insert_file; eauto.
Qed.

Lemma FileIsComingCallback_grows finfo data n f :
  grows f (snd (FTPClient.FileIsComingCallback LINUX finfo data n f)).
Proof.
  unfold FTPClient.FileIsComingCallback.
  destruct (filetype finfo); try apply grows_refl.
  - unfold Ofs.open. destruct (of_file (ofsOutput data)).
    + simpl. apply grows_refl.
    + destruct (LocalFS.open_trunc _ f _) as [f1|] eqn:E; simpl.
      * now apply open_trunc_grows in E.
      * apply grows_refl.
  - pose proof (mkdir_grows f (strOutputPath data +:+ filename finfo)) as H.
    destruct (LocalFS.mkdir _ f _) as [[e|] f1]; [destruct (negb _)|]; exact H.
Qed.

Lemma wc_deliver_grows chunks : forall data f,
  grows f (snd (FTPClient.wc_deliver chunks data f)).
Proof.
  induction chunks as [|buff rest IH]; intros data f; simpl; [apply grows_refl|].
  unfold FTPClient.WriteItCallback.
  destruct (Ofs.is_open (ofsOutput data)).
  - unfold Ofs.write. destruct (of_fail (ofsOutput data)).
    + destruct (FTPClient.write_accepted _ _); [apply IH | apply grows_refl].
    + destruct (of_file (ofsOutput data)) as [path|].
      * destruct (FTPClient.write_accepted _ _); simpl.
        -- eapply grows_trans; [apply append_grows | apply IH].
        -- apply append_grows.
      * destruct (FTPClient.write_accepted _ _); [apply IH | apply grows_refl].
  - destruct (FTPClient.write_accepted _ _); [apply IH | apply grows_refl].
Qed.

Lemma wc_statemach_grows items : forall data f,
  grows f (snd (FTPClient.wc_statemach LINUX items data f)).
Proof.
  induction items as [|it rest IH]; intros data f; simpl; [apply grows_refl|].
  pose proof (FileIsComingCallback_grows (ri_info it) data (N.of_nat (length rest)) f) as Hb.
  destruct (FTPClient.FileIsComingCallback LINUX (ri_info it) data _ f)
    as [[r data1] f1]. simpl in Hb.
  destruct r; [|exact Hb|eapply grows_trans; [exact Hb | apply IH]].
  destruct (filetype (ri_info it)); try (eapply grows_trans; [exact Hb | apply IH]).
  pose proof (wc_deliver_grows (ri_chunks it) data1 f1) as Hd.
  destruct (FTPClient.wc_deliver _ data1 f1) as [[ok data2] f2]. simpl in Hd.
  destruct ok; simpl.
  - eapply grows_trans; [exact Hb|]. eapply grows_trans; [exact Hd | apply IH].
  - eapply grows_trans; eauto.
Qed.

Lemma PerformWildcard_grows srv url data w :
  grows (fs w) (fs (snd (FTPClient.PerformWildcard LINUX srv url data w))).
Proof.
  unfold FTPClient.PerformWildcard.
  pose proof (wc_statemach_grows (fst (srv_wildcard srv url)) data (fs (contact url w))) as H.
  destruct (FTPClient.wc_statemach LINUX _ data _) as [[[code|] data1] f1]; exact H.
Qed.

Lemma recurse_dirs_grows rec out base dirs :
  (forall l r w, grows (fs w) (fs (snd (rec l r w)))) ->
  forall bRet w, grows (fs w) (fs (snd (FTPClient.recurse_dirs rec out base dirs bRet w))).
Proof.
  intros Hrec. induction dirs as [|d rest IH]; intros bRet w; simpl; [apply grows_refl|].
  pose proof (Hrec (out +:+ d) (base +:+ d +:+ "/*") w) as Hd.
  destruct (rec _ _ w) as [[[]|] w1]; simpl in Hd.
  - eapply grows_trans; [exact Hd | apply IH].
  - eapply grows_trans; [exact Hd|].
    exact (IH false (m_oLog _ w1)).
  - exact Hd.
Qed.

Lemma DownloadWildcard_grows ENABLE_LOG c srv fuel : forall l r w,
  grows (fs w) (fs (snd (FTPClient.DownloadWildcard LINUX ENABLE_LOG fuel c srv l r w))).
Proof.
  induction fuel as [|fuel IH]; intros l r w; [apply grows_refl|]. simpl.
  destruct (_ || _); [apply grows_refl|].
  destruct (negb (m_pCurlSession c));
    [simpl; rewrite log_if_enabled_fs; apply grows_refl|].
  destruct (LocalFS.stat_is_dir _ _ _);
    [|simpl; rewrite log_if_enabled_fs; apply grows_refl].
  pose proof (PerformWildcard_grows srv (FTPClient.ParseURL c r)
                (mk_data Ofs.fresh (FTPClient.output_path LINUX l) []) w) as Hp.
  destruct (FTPClient.PerformWildcard LINUX srv _ _ w) as [[res data1] w1]. simpl in Hp.
  destruct (_ && _); [simpl; now rewrite log_if_enabled_fs|].
  destruct (_ && _); [|exact Hp].
  eapply grows_trans; [exact Hp|]. now apply recurse_dirs_grows.
Qed.

End Growth.

Section Replay.

Context (LINUX : bool) (F : storage).

Lemma replays_closed s t o o' :
  Ofs.is_open o = false -> replays F s t o' -> replays F s t o.
Proof.
  intros Hc (H1 & H2 & _). repeat split; try assumption.
  intros path Hp. unfold Ofs.is_open in Hc. now rewrite Hp in Hc.
Qed.

Lemma replays_same_stream s t o o' :
  of_file o = of_file o' -> replays F s t o' -> replays F s t o.
Proof. intros E (H1 & H2 & H3). repeat split; try assumption. now rewrite E. Qed.

Lemma FileIsComingCallback_not_skip finfo data n f :
  fst (fst (FTPClient.FileIsComingCallback LINUX finfo data n f)) <> CURL_CHUNK_BGN_FUNC_SKIP.
Proof.
  unfold FTPClient.FileIsComingCallback. destruct (filetype finfo); try discriminate.
  - destruct (Ofs.open _ _ _ _) as [o f1]. now destruct (negb _).
  - destruct (LocalFS.mkdir _ _ _) as [[e|] f1]; [now destruct (negb _) | discriminate].
Qed.

(** An accepted directory announcement: the second time the directory is
    already there. *)
Lemma mkdir_replay s t o path r s1 :
  LocalFS.mkdir (FTPClient.path_sep LINUX) s path = (r, s1) ->
  (r = None \/ r = Some LocalFS.EEXIST) ->
  grows s1 F ->
  replays F s t o ->
  LocalFS.mkdir (FTPClient.path_sep LINUX) t path = (Some LocalFS.EEXIST, t)
  /\ replays F s1 t o.
Proof.
  intros Hm Hr Hg (H1 & H2 & H3). unfold LocalFS.mkdir in *.
  set (k := LocalFS.key (FTPClient.path_sep LINUX) path) in *.
  assert (Hs1 : s1 !! k <> None /\
                (s1 = s \/ (s !! k = None /\ s1 = <[k := DirNode]> s))).
  { destruct (s !! k) as [n|] eqn:Ek.
    - injection Hm as <- <-. split; [congruence | now left].
    - destruct (LocalFS.is_dir_node _).
      + injection Hm as <- <-. split; [now rewrite lookup_insert_eq | now right].
      + injection Hm as <- <-. destruct Hr; discriminate. }
  destruct Hs1 as [Hk Hcase].
  assert (Ht : kind (t !! k) = kind (s1 !! k)) by (rewrite H1; now apply Hg).
  split.
  - destruct (t !! k) as [n|] eqn:Et; [reflexivity|].
    simpl in Ht. symmetry in Ht. apply kind_none in Ht. contradiction.
  - destruct Hcase as [-> | [Hnone ->]]; [repeat split; assumption|].
    rewrite lookup_insert_eq in Ht. apply kind_dir in Ht.
    repeat split; [exact H1| |].
    + intros k'. destruct (decide (k = k')) as [<-|Hne].
      * left. now rewrite lookup_insert_eq.
      * rewrite lookup_insert_ne by exact Hne. apply H2.
    + intros p Hp. destruct (decide (k = p)) as [<-|Hne].
      * specialize (H3 _ Hp). rewrite Ht, Hnone in H3. discriminate.
      * rewrite lookup_insert_ne by exact Hne. now apply H3.
Qed.

(** An accepted file announcement: the second time the file is there and
    is emptied again. *)
Lemma open_trunc_replay s t path s1 :
  LocalFS.open_trunc (FTPClient.path_sep LINUX) s path = Some s1 ->
  grows s1 F ->
  (forall k, kind (t !! k) = kind (F !! k)) ->
  (forall k, t !! k = s !! k \/ t !! k = F !! k) ->
  LocalFS.open_trunc (FTPClient.path_sep LINUX) t path
  = Some (<[path := FileNode EmptyString]> t)
  /\ replays F s1 (<[path := FileNode EmptyString]> t) (mk_ofstream (Some path) false).
Proof.
  intros Ho Hg H1 H2.
  pose proof (open_trunc_creates _ _ _ _ Ho) as ->.
  assert (Ht : kind (t !! path) = Some KFile).
  { rewrite H1, (Hg path); now rewrite lookup_insert_eq. }
  apply kind_file in Ht as [c Ht].
  split.
  - unfold LocalFS.open_trunc in *. destruct (_ || _); [discriminate|]. now rewrite Ht.
  - repeat split.
    + intros k. destruct (decide (path = k)) as [<-|Hne].
      * rewrite lookup_insert_eq, <- H1, Ht. reflexivity.
      * rewrite lookup_insert_ne by exact Hne. apply H1.
    + intros k. destruct (decide (path = k)) as [<-|Hne].
      * left. now rewrite !lookup_insert_eq.
      * rewrite !lookup_insert_ne by exact Hne. apply H2.
    + intros p [= <-]. now rewrite !lookup_insert_eq.
Qed.

Lemma FileIsComingCallback_replay finfo data n s t data1 s1 :
  FTPClient.FileIsComingCallback LINUX finfo data n s = (CURL_CHUNK_BGN_FUNC_OK, data1, s1) ->
  grows s1 F ->
  replays F s t (ofsOutput data) ->
  exists t1,
    FTPClient.FileIsComingCallback LINUX finfo data n t = (CURL_CHUNK_BGN_FUNC_OK, data1, t1)
    /\ replays F s1 t1 (ofsOutput data1).
Proof.
  unfold FTPClient.FileIsComingCallback. intros Hcb Hg Hrep.
  destruct (filetype finfo); try (injection Hcb as <- <-; eauto; fail).
  - (* a file *)
    unfold Ofs.open in *. destruct (of_file (ofsOutput data)) as [q|] eqn:Eq.
    + simpl in Hcb. injection Hcb as <- <-. exists t. split; [reflexivity|].
      eapply replays_same_stream; [|exact Hrep]. simpl. now rewrite Eq.
    + destruct (LocalFS.open_trunc _ s _) as [s'|] eqn:Eo; simpl in Hcb; [|discriminate].
      injection Hcb as <- <-.
      destruct Hrep as (H1 & H2 & _).
      destruct (open_trunc_replay _ _ _ _ Eo Hg H1 H2) as [Et Hrep'].
      rewrite Et. simpl. eauto.
  - (* a directory *)
    destruct (LocalFS.mkdir _ s _) as [r s'] eqn:Em.
    assert (Hr : (r = None \/ r = Some LocalFS.EEXIST) /\ data1 = push_back_dir data (filename finfo)
                 /\ s1 = s').
    { destruct r as [e|].
      - destruct (e =? LocalFS.EEXIST) eqn:Ee; simpl in Hcb; [|discriminate].
        apply N.eqb_eq in Ee. subst e. injection Hcb as <- <-. auto.
      - injection Hcb as <- <-. auto. }
    destruct Hr as (Hr & -> & ->).
    destruct (mkdir_replay _ _ _ _ _ _ Em Hr Hg Hrep) as [Et Hrep'].
    rewrite Et. simpl. exists t. split; [reflexivity | exact Hrep'].
Qed.

Lemma append_replay s t o path bytes :
  of_file o = Some path ->
  replays F s t o ->
  replays F (LocalFS.append s path bytes) (LocalFS.append t path bytes) o.
Proof.
  intros Ho (H1 & H2 & H3). pose proof (H3 _ Ho) as Hp.
  unfold LocalFS.append. rewrite Hp.
  destruct (s !! path) as [[|c]|] eqn:Es; try (repeat split; assumption).
  repeat split.
  - intros k. destruct (decide (path = k)) as [<-|Hne].
    + rewrite lookup_insert_eq, <- H1, Hp. reflexivity.
    + rewrite lookup_insert_ne by exact Hne. apply H1.
  - intros k. destruct (decide (path = k)) as [<-|Hne].
    + left. now rewrite !lookup_insert_eq.
    + rewrite !lookup_insert_ne by exact Hne. apply H2.
  - intros p Hpo. destruct (decide (path = p)) as [<-|Hne].
    + now rewrite !lookup_insert_eq.
    + rewrite !lookup_insert_ne by exact Hne. now apply H3.
Qed.

Lemma wc_deliver_replay chunks : forall data s t ok data1 s1,
  FTPClient.wc_deliver chunks data s = (ok, data1, s1) ->
  replays F s t (ofsOutput data) ->
  exists t1, FTPClient.wc_deliver chunks data t = (ok, data1, t1)
             /\ replays F s1 t1 (ofsOutput data1).
Proof.
  induction chunks as [|buff rest IH]; intros data s t ok data1 s1 Hd Hrep; simpl in *.
  - injection Hd as <- <- <-. eauto.
  - unfold FTPClient.WriteItCallback in *.
    destruct (Ofs.is_open (ofsOutput data)) eqn:Eopen.
    + unfold Ofs.write in *. destruct (of_fail (ofsOutput data)).
      * destruct (FTPClient.write_accepted _ _).
        -- eapply IH; [exact Hd|]. eapply replays_same_stream; [|exact Hrep]. reflexivity.
        -- injection Hd as <- <- <-. eexists. split; [reflexivity|].
           eapply replays_same_stream; [|exact Hrep]. reflexivity.
      * destruct (of_file (ofsOutput data)) as [path|] eqn:Ep.
        -- pose proof (append_replay s t (ofsOutput data) path
                         (Str.take (N.to_nat (size_mul 1 (Str.size buff))) buff) Ep Hrep)
             as Hrep'.
           destruct (FTPClient.write_accepted _ _).
           ++ eapply IH; [exact Hd|].
              eapply replays_same_stream; [|exact Hrep']. reflexivity.
           ++ injection Hd as <- <- <-. eexists. split; [reflexivity|].
              eapply replays_same_stream; [|exact Hrep']. reflexivity.
        -- unfold Ofs.is_open in Eopen. rewrite Ep in Eopen. discriminate.
    + destruct (FTPClient.write_accepted _ _).
      * eapply IH; eauto.
      * injection Hd as <- <- <-. eauto.
Qed.

Lemma FileIsDownloadedCallback_replay s t data :
  replays F s t (ofsOutput data) ->
  replays F s t (ofsOutput (snd (FTPClient.FileIsDownloadedCallback data))).
Proof.
  intros Hrep. eapply replays_closed; [apply FileIsDownloadedCallback_closed | exact Hrep].
Qed.

Lemma wc_statemach_replay items : forall data s t data1 s1,
  FTPClient.wc_statemach LINUX items data s = (None, data1, s1) ->
  grows s1 F ->
  replays F s t (ofsOutput data) ->
  exists t1, FTPClient.wc_statemach LINUX items data t = (None, data1, t1)
             /\ replays F s1 t1 (ofsOutput data1).
Proof.
  induction items as [|it rest IH]; intros data s t data1 s1 Hrun Hg Hrep; simpl in *.
  - injection Hrun as <- <-. eauto.
  - pose proof (FileIsComingCallback_not_skip (ri_info it) data (N.of_nat (length rest)) s)
      as Hns.
    destruct (FTPClient.FileIsComingCallback LINUX (ri_info it) data _ s)
      as [[r d1] f1] eqn:Eb.
    destruct r; [|discriminate|now contradiction Hns].
    assert (Hrest : forall d2 f2,
              FTPClient.wc_statemach LINUX rest d2 f2 = (None, data1, s1) -> grows f2 F).
    { intros d2 f2 E. eapply grows_trans; [|exact Hg].
      pose proof (wc_statemach_grows LINUX rest d2 f2) as H. now rewrite E in H. }
    destruct (filetype (ri_info it)) eqn:Eft.
    1: { (* a file: announce, deliver, complete *)
      destruct (FTPClient.wc_deliver (ri_chunks it) d1 f1) as [[ok d2] f2] eqn:Ed.
      destruct ok; [|discriminate].
      assert (Hg1 : grows f1 F).
      { eapply grows_trans; [|eapply Hrest; exact Hrun].
        pose proof (wc_deliver_grows (ri_chunks it) d1 f1) as H. now rewrite Ed in H. }
      destruct (FileIsComingCallback_replay _ _ _ _ _ _ _ Eb Hg1 Hrep) as (t1 & Et1 & Hrep1).
      destruct (wc_deliver_replay _ _ _ _ _ _ _ Ed Hrep1) as (t2 & Et2 & Hrep2).
      rewrite Et1, Et2.
      eapply IH; [exact Hrun | exact Hg | now apply FileIsDownloadedCallback_replay]. }
    all: destruct (FileIsComingCallback_replay _ _ _ _ _ _ _ Eb (Hrest _ _ Hrun) Hrep)
           as (t1 & Et1 & Hrep1);
         rewrite Et1;
         (eapply IH; [exact Hrun | exact Hg | now apply FileIsDownloadedCallback_replay]).
Qed.

End Replay.

Section ReplayDownload.

Context (LINUX : bool) (ENABLE_LOG : N) (F : storage).

Lemma wc_statemach_stop_codes items : forall data f code data1 f1,
  FTPClient.wc_statemach LINUX items data f = (Some code, data1, f1) ->
  code = CURLE_CHUNK_FAILED \/ code = CURLE_WRITE_ERROR.
Proof.
  induction items as [|it rest IH]; intros data f code data1 f1; simpl; [discriminate|].
  destruct (FTPClient.FileIsComingCallback LINUX (ri_info it) data _ f) as [[[] d1] f2].
  - destruct (filetype (ri_info it)); try apply IH.
    destruct (FTPClient.wc_deliver _ d1 f2) as [[[] d2] f3]; [apply IH|].
    intros [= <- _ _]. now right.
  - intros [= <- _ _]. now left.
  - apply IH.
Qed.

Lemma PerformWildcard_replay srv url data w tw res data1 w1 :
  FTPClient.PerformWildcard LINUX srv url data w = (res, data1, w1) ->
  res = CURLE_OK \/ res = CURLE_REMOTE_FILE_NOT_FOUND ->
  grows (fs w1) F ->
  replays F (fs w) (fs tw) (ofsOutput data) ->
  exists tw1,
    FTPClient.PerformWildcard LINUX srv url data tw = (res, data1, tw1)
    /\ replays F (fs w1) (fs tw1) (ofsOutput data1).
Proof.
  unfold FTPClient.PerformWildcard. intros Hp Hres Hg Hrep.
  change (fs (contact url w)) with (fs w) in Hp.
  change (fs (contact url tw)) with (fs tw).
  destruct (FTPClient.wc_statemach LINUX _ data (fs w)) as [[[code|] d1] f1] eqn:Er.
  - injection Hp as <- <- <-.
    apply wc_statemach_stop_codes in Er. destruct Er as [-> | ->], Hres; discriminate.
  - injection Hp as <- <- <-. simpl in Hg.
    destruct (wc_statemach_replay LINUX F _ _ _ _ _ _ Er Hg Hrep) as (t1 & Et & Hrep1).
    rewrite Et. eexists. split; [reflexivity | exact Hrep1].
Qed.

Lemma recurse_dirs_false rec out base dirs : forall w b w',
  FTPClient.recurse_dirs rec out base dirs false w = (Some b, w') -> b = false.
Proof.
  induction dirs as [|d rest IH]; intros w b w'; simpl.
  - now intros [= <- _].
  - destruct (rec _ _ w) as [[[]|] w1]; [apply IH | apply IH | discriminate].
Qed.

Lemma recurse_dirs_replay rec out base dirs :
  (forall l r w, grows (fs w) (fs (snd (rec l r w)))) ->
  (forall l r w tw w1,
      rec l r w = (Some true, w1) ->
      grows (fs w1) F ->
      replays F (fs w) (fs tw) Ofs.fresh ->
      exists tw1, rec l r tw = (Some true, tw1) /\ replays F (fs w1) (fs tw1) Ofs.fresh) ->
  forall w tw w1,
    FTPClient.recurse_dirs rec out base dirs true w = (Some true, w1) ->
    grows (fs w1) F ->
    replays F (fs w) (fs tw) Ofs.fresh ->
    exists tw1, FTPClient.recurse_dirs rec out base dirs true tw = (Some true, tw1)
                /\ replays F (fs w1) (fs tw1) Ofs.fresh.
Proof.
  intros Hgrow Hrec. induction dirs as [|d rest IH]; intros w tw w1 Hrun Hg Hrep; simpl in *.
  - injection Hrun as <-. eauto.
  - destruct (rec (out +:+ d) (base +:+ d +:+ "/*") w) as [[[]|] wa] eqn:Ea.
    + assert (Hga : grows (fs wa) F).
      { eapply grows_trans; [|exact Hg].
        pose proof (recurse_dirs_grows rec out base rest Hgrow true wa) as H.
        now rewrite Hrun in H. }
      destruct (Hrec _ _ _ _ _ Ea Hga Hrep) as (twa & Eta & Hrepa).
      rewrite Eta. eapply IH; eauto.
    + apply recurse_dirs_false in Hrun. discriminate.
    + discriminate.
Qed.

Lemma stat_is_dir_replay s t o path :
  grows s F ->
  replays F s t o ->
  LocalFS.stat_is_dir (FTPClient.path_sep LINUX) s path = true ->
  LocalFS.stat_is_dir (FTPClient.path_sep LINUX) t path = true.
Proof.
  unfold LocalFS.stat_is_dir. intros Hg (H1 & _ & _) Hs.
  set (k := LocalFS.key _ path) in *.
  destruct (s !! k) as [[|c]|] eqn:Es; try discriminate.
  assert (Hk : kind (t !! k) = Some KDir).
  { rewrite H1, (Hg k); now rewrite Es. }
  apply kind_dir in Hk. now rewrite Hk.
Qed.

Lemma DownloadWildcard_replay c srv fuel : forall l r w tw w1,
  FTPClient.DownloadWildcard LINUX ENABLE_LOG fuel c srv l r w = (Some true, w1) ->
  grows (fs w1) F ->
  replays F (fs w) (fs tw) Ofs.fresh ->
  exists tw1,
    FTPClient.DownloadWildcard LINUX ENABLE_LOG fuel c srv l r tw = (Some true, tw1)
    /\ replays F (fs w1) (fs tw1) Ofs.fresh.
Proof.
  induction fuel as [|fuel IH]; intros l r w tw w1 Hrun Hg Hrep; [discriminate|].
  assert (Hgw : grows (fs w) F).
  { eapply grows_trans; [|exact Hg].
    pose proof (DownloadWildcard_grows LINUX ENABLE_LOG c srv (S fuel) l r w) as H.
    now rewrite Hrun in H. }
  simpl in Hrun |- *.
  destruct (Str.empty l || Str.empty r); [discriminate|].
  destruct (negb (m_pCurlSession c)); [discriminate|].
  destruct (LocalFS.stat_is_dir _ (fs w) _) eqn:Estat; [|discriminate].
  rewrite (stat_is_dir_replay _ _ _ _ Hgw Hrep Estat).
  destruct (FTPClient.PerformWildcard LINUX srv _ _ w) as [[res data1] wp] eqn:Ep.
  destruct (negb (res =? CURLE_OK) && negb (res =? CURLE_REMOTE_FILE_NOT_FOUND)) eqn:Eres;
    [discriminate|].
  assert (Hres : res = CURLE_OK \/ res = CURLE_REMOTE_FILE_NOT_FOUND).
  { destruct (res =? CURLE_OK) eqn:E1; [left; now apply N.eqb_eq|].
    destruct (res =? CURLE_REMOTE_FILE_NOT_FOUND) eqn:E2; [right; now apply N.eqb_eq|].
    discriminate. }
  assert (Hclosed : Ofs.is_open (ofsOutput data1) = false).
  { pose proof (PerformWildcard_closed LINUX srv (FTPClient.ParseURL c r)
                  (mk_data Ofs.fresh (FTPClient.output_path LINUX l) []) w eq_refl) as H.
    now rewrite Ep in H. }
  destruct (negb (vec_empty (vecDirList data1)) && Str.back_is "*" r) eqn:Erec.
  - assert (Hgp : grows (fs wp) F).
    { eapply grows_trans; [|exact Hg].
      pose proof (recurse_dirs_grows
                    (FTPClient.DownloadWildcard LINUX ENABLE_LOG fuel c srv)
                    (strOutputPath data1) (FTPClient.base_url r) (vecDirList data1)
                    (DownloadWildcard_grows LINUX ENABLE_LOG c srv fuel) true wp) as H.
      now rewrite Hrun in H. }
    destruct (PerformWildcard_replay _ _ _ _ _ _ _ _ Ep Hres Hgp Hrep) as (twp & Etp & Hrepp).
    rewrite Etp, Eres, Erec.
    eapply recurse_dirs_replay; eauto.
    + apply DownloadWildcard_grows.
    + eapply replays_closed; [reflexivity | exact Hrepp].
  - injection Hrun as <-.
    destruct (PerformWildcard_replay _ _ _ _ _ _ _ _ Ep Hres Hg Hrep) as (twp & Etp & Hrepp).
    rewrite Etp, Eres, Erec. eexists. split; [reflexivity|].
    eapply replays_closed; [reflexivity | exact Hrepp].
Qed.

End ReplayDownload.

(** C8.  When a wildcard download into a local directory has succeeded,
    running it again into the same directory (same server, same
    arguments) succeeds as well and leaves every local file and directory
    as the first run left it. *)
Theorem download_twice
    (LINUX : bool) (ENABLE_LOG : N) (fuel : nat) (c : CFTPClient) (srv : server)
    (strLocalDir strRemoteWildcard : string) (w w1 : world) :
  FTPClient.DownloadWildcard LINUX ENABLE_LOG fuel c srv strLocalDir strRemoteWildcard w
  = (Some true, w1) ->
  exists w2 : world,
    FTPClient.DownloadWildcard LINUX ENABLE_LOG fuel c srv strLocalDir strRemoteWildcard w1
    = (Some true, w2)
    /\ fs w2 = fs w1.
Proof.
  intros Hrun.
  destruct (DownloadWildcard_replay LINUX ENABLE_LOG (fs w1) c srv fuel
              strLocalDir strRemoteWildcard w w1 w1 Hrun (grows_refl _)) as (w2 & Hrun2 & Hrep).
  - split; [reflexivity|]. split; [intros k; now right | discriminate].
  - exists w2. split; [exact Hrun2|].
    destruct Hrep as (_ & H2 & _). apply map_eq. intros k. now destruct (H2 k).
Qed.

Lemma download_twice_witness :
  exists w2 : world,
    FTPClient.DownloadWildcard true Demo.ENABLE_LOG 2 Demo.client Demo.srv "out" "archive/*"
      (mk_world (<["out/2025/b.txt" := FileNode "x"]>
                   (<["out/2025" := DirNode]>
                      (<["out/a.txt" := FileNode "hello"]> Demo.disk)))
         [] ["ftp://h//archive//*"; "ftp://h//archive//2025//*"])
    = (Some true, w2)
    /\ fs w2 = <["out/2025/b.txt" := FileNode "x"]>
                 (<["out/2025" := DirNode]>
                    (<["out/a.txt" := FileNode "hello"]> Demo.disk)).
Proof.
  apply (download_twice true Demo.ENABLE_LOG 2 Demo.client Demo.srv "out" "archive/*"
           Demo.start). reflexivity.
Defined.

(** * Further properties *)

(** ** ReplaceString and ParseURL *)

Lemma append_assoc (a b c : string) : (a +:+ b) +:+ c = a +:+ (b +:+ c).
Proof.
  induction a as [|x a IH]; [reflexivity|].
  now rewrite !append_cons, IH.
Qed.

Lemma prefix_single (c d : ascii) (r : string) :
  String.prefix (String c EmptyString) (String d r) = Ascii.eqb d c.
Proof.
  simpl. destruct (ascii_dec c d) as [->|Hne].
  - rewrite Ascii.eqb_refl. now destruct r.
  - symmetry. apply Ascii.eqb_neq. congruence.
Qed.

(** Replacing one character: the subject is rewritten character by
    character. *)
Lemma replace_from_single (c : ascii) (repl : string) (d : ascii) (r : string) :
  FTPClient.replace_from (String d r) (String c EmptyString) repl 0
  = if Ascii.eqb d c
    then repl +:+ FTPClient.replace_from r (String c EmptyString) repl 0
    else String d (FTPClient.replace_from r (String c EmptyString) repl 0).
Proof.
  cbn [FTPClient.replace_from]. rewrite prefix_single. reflexivity.
Qed.

Lemma replace_from_single_app (c : ascii) (repl a b : string) :
  FTPClient.replace_from (a +:+ b) (String c EmptyString) repl 0
  = FTPClient.replace_from a (String c EmptyString) repl 0
    +:+ FTPClient.replace_from b (String c EmptyString) repl 0.
Proof.
  induction a as [|d a IH]; [reflexivity|].
  rewrite append_cons, !replace_from_single, IH.
  destruct (Ascii.eqb d c); [now rewrite append_assoc | now rewrite append_cons].
Qed.

Lemma replace_from_step (search repl : string) (d : ascii) (r : string) :
  FTPClient.replace_from (String d r) search repl 0
  = if String.prefix search (String d r)
    then repl +:+ FTPClient.replace_from r search repl (String.length search - 1)
    else String d (FTPClient.replace_from r search repl 0).
Proof. reflexivity. Qed.

Lemma replace_from_skip (search repl : string) (d : ascii) (r : string) (k : nat) :
  FTPClient.replace_from (String d r) search repl (S k)
  = FTPClient.replace_from r search repl k.
Proof. reflexivity. Qed.

Lemma prefix_empty (s : string) : String.prefix EmptyString s = true.
Proof. now destruct s. Qed.

Lemma prefix_cons_same (c : ascii) (p s : string) :
  String.prefix (String c p) (String c s) = String.prefix p s.
Proof. simpl. destruct (ascii_dec c c) as [_|Hne]; [reflexivity | contradiction]. Qed.

Lemma prefix_cons_other (c d : ascii) (p s : string) :
  c <> d -> String.prefix (String c p) (String d s) = false.
Proof. intros Hne. simpl. destruct (ascii_dec c d) as [E|_]; [contradiction | reflexivity]. Qed.

(** X1.  Doubling a character with [ReplaceString] and then replacing the
    doubled character by the single one gives the subject back; in
    particular the doubling of ['/'] that [ParseURL] applies loses
    nothing. *)
Theorem ReplaceString_double_undo (c : ascii) (s : string) :
  FTPClient.ReplaceString
    (FTPClient.ReplaceString s (String c EmptyString) (String c (String c EmptyString)))
    (String c (String c EmptyString)) (String c EmptyString)
  = s.
Proof.
  unfold FTPClient.ReplaceString. cbn [Str.empty].
  induction s as [|d r IH]; [reflexivity|].
  rewrite replace_from_single.
  destruct (Ascii.eqb d c) eqn:E.
  - apply Ascii.eqb_eq in E. subst d.
    rewrite !append_cons. change (EmptyString +:+ ?x) with x.
    rewrite replace_from_step, !prefix_cons_same, prefix_empty.
    cbn [String.length Nat.sub]. rewrite replace_from_skip, IH. reflexivity.
  - apply Ascii.eqb_neq in E.
    rewrite replace_from_step, prefix_cons_other by congruence.
    now rewrite IH.
Qed.

(** X2.  [ReplaceString] returns the subject unchanged when the search
    string is empty or occurs nowhere in the subject. *)
Theorem ReplaceString_nothing_to_replace (strSubject strSearch strReplace : string) :
  Str.empty strSearch = true \/ Text.occurs strSearch strSubject = false ->
  FTPClient.ReplaceString strSubject strSearch strReplace = strSubject.
Proof.
  unfold FTPClient.ReplaceString. intros [He | Ho]; [now rewrite He|].
  destruct (Str.empty strSearch); [reflexivity|].
  induction strSubject as [|d r IH]; [reflexivity|].
  cbn [Text.occurs] in Ho. apply orb_false_iff in Ho as [Hp Hr].
  cbn [FTPClient.replace_from]. rewrite Hp. now rewrite IH.
Qed.

Lemma ReplaceString_nothing_to_replace_witness :
  FTPClient.ReplaceString "documents" "/" "//" = "documents".
Proof.
  apply ReplaceString_nothing_to_replace. right. reflexivity.
Defined.

(** X3.  [ParseURL] doubles every ['/'] of the server name and of the
    remote path, joins the two with ["//"], and puts nothing or one of the
    four scheme prefixes in front. *)
Theorem ParseURL_shape (c : CFTPClient) (strRemoteFile : string) :
  exists scheme : string,
    In scheme [EmptyString; "ftp://"; "ftps://"; "ftpes://"; "sftp://"]
    /\ FTPClient.ParseURL c strRemoteFile
       = scheme +:+ FTPClient.ReplaceString (m_strServer c) "/" "//"
           +:+ "//" +:+ FTPClient.ReplaceString strRemoteFile "/" "//".
Proof.
  assert (Hurl : FTPClient.ReplaceString (m_strServer c +:+ "/" +:+ strRemoteFile) "/" "//"
                 = FTPClient.ReplaceString (m_strServer c) "/" "//"
                     +:+ "//" +:+ FTPClient.ReplaceString strRemoteFile "/" "//").
  { unfold FTPClient.ReplaceString. cbn [Str.empty].
    rewrite replace_from_single_app. f_equal.
    rewrite append_cons, replace_from_single. reflexivity. }
  unfold FTPClient.ParseURL. rewrite Hurl.
  destruct (_ && _).
  - destruct (m_eFtpProtocol c);
      [exists "ftp://" | exists "ftps://" | exists "ftpes://" | exists "sftp://"];
      (split; [simpl; tauto | reflexivity]).
  - exists EmptyString. split; [now left | reflexivity].
Qed.


(** ** DownloadFile, further *)

Lemma WriteToFileCallback_accepts (buff : string) (o : ofstream) (f : storage) :
  FTPClient.write_accepted buff
    (fst (fst (FTPClient.WriteToFileCallback buff 1 (Str.size buff) o f))) = true.
Proof.
  unfold FTPClient.WriteToFileCallback, FTPClient.write_accepted.
  destruct ((1 =? 0) || (Str.size buff =? 0) || (size_mul 1 (Str.size buff) <? 1)) eqn:E.
  - cbn [fst]. apply N.eqb_eq. symmetry.
    apply orb_true_iff in E as [E | E].
    + cbn [N.eqb orb] in E. apply N.eqb_eq in E. rewrite E. reflexivity.
    + apply N.ltb_lt in E. lia.
  - destruct (Ofs.is_open o).
    + destruct (Ofs.write _ _ _) as [o1 f1]. simpl. apply N.eqb_refl.
    + simpl. apply N.eqb_refl.
Qed.

Lemma file_deliver_completes (chunks : list string) : forall (o : ofstream) (f : storage),
  fst (fst (FTPClient.file_deliver chunks o f)) = true.
Proof.
  induction chunks as [|buff rest IH]; intros o f; simpl; [reflexivity|].
  pose proof (WriteToFileCallback_accepts buff o f) as Ha.
  destruct (FTPClient.WriteToFileCallback buff 1 (Str.size buff) o f) as [[written o1] f1].
  simpl in Ha. rewrite Ha. apply IH.
Qed.

(** X5.  The write callback of [DownloadFile] accepts every chunk, also
    when the stream is not open or has failed, so the perform call of
    [DownloadFile] always returns the status the server ended with: a
    local write problem never shows as a transfer error. *)
Theorem PerformFile_returns_server_status
    (srv : server) (url : string) (o : ofstream) (w : world) :
  fst (fst (FTPClient.PerformFile srv url o w)) = snd (srv_file srv url).
Proof.
  unfold FTPClient.PerformFile.
  pose proof (file_deliver_completes (fst (srv_file srv url)) o (fs (contact url w))) as H.
  destruct (FTPClient.file_deliver _ o _) as [[ok o1] f1]. simpl in H. now subst ok.
Qed.

Lemma file_deliver_content (path : string) (chunks : list string) :
  forall (f : storage) (acc : string),
    f !! path = Some (FileNode acc) ->
    (forall buff, In buff chunks -> Str.size buff < 2 ^ 64) ->
    FTPClient.file_deliver chunks (mk_ofstream (Some path) false) f
    = (true, mk_ofstream (Some path) false,
       <[path := FileNode (acc +:+ Text.flatten chunks)]> f).
Proof.
  induction chunks as [|buff rest IH]; intros f acc Hf Hsz; simpl.
  - rewrite append_empty_r, insert_id by exact Hf. reflexivity.
  - assert (Hb : Str.size buff < 2 ^ 64) by (apply Hsz; now left).
    assert (Hrest : forall b, In b rest -> Str.size b < 2 ^ 64)
      by (intros b Hin; apply Hsz; now right).
    unfold FTPClient.WriteToFileCallback. rewrite size_mul_1 by exact Hb.
    destruct (Str.size buff =? 0) eqn:E0.
    + assert (buff = EmptyString) as ->.
      { apply N.eqb_eq in E0. unfold Str.size in E0. destruct buff; [reflexivity|].
        simpl in E0. lia. }
      simpl. rewrite (IH f acc Hf Hrest). reflexivity.
    + assert (Hlt : (Str.size buff <? 1) = false).
      { apply N.ltb_ge. apply N.eqb_neq in E0. lia. }
      rewrite Hlt. cbn [orb N.eqb Ofs.is_open of_file Ofs.write of_fail].
      unfold FTPClient.write_accepted. rewrite size_mul_1 by exact Hb.
      rewrite N.eqb_refl. unfold Str.size at 1. rewrite Nat2N.id, take_all.
      unfold LocalFS.append. rewrite Hf.
      rewrite (IH _ (acc +:+ buff)) by (try exact Hrest; apply lookup_insert_eq).
      rewrite insert_insert_eq, append_assoc. reflexivity.
Qed.

(** X6.  When [DownloadFile] returns [true], the server ended with
    [CURLE_OK], exactly one URL was contacted, nothing was logged, and
    local storage is as before except that the local file now holds the
    delivered chunks, one after the other, in place of whatever it held. *)
Theorem DownloadFile_success_content
    (LINUX : bool) (ENABLE_LOG : N) (c : CFTPClient) (srv : server)
    (strLocalFile strRemoteFile : string) (w w' : world) :
  (forall buff,
      In buff (fst (srv_file srv (FTPClient.ParseURL c strRemoteFile))) ->
      Str.size buff < 2 ^ 64) ->
  FTPClient.DownloadFile LINUX ENABLE_LOG c srv strLocalFile strRemoteFile w = (true, w') ->
  snd (srv_file srv (FTPClient.ParseURL c strRemoteFile)) = CURLE_OK
  /\ w' = mk_world
            (<[strLocalFile :=
                 FileNode (Text.flatten
                             (fst (srv_file srv (FTPClient.ParseURL c strRemoteFile))))]>
               (fs w))
            (logged w)
            (performed w ++ [FTPClient.ParseURL c strRemoteFile]).
Proof.
  intros Hsz. unfold FTPClient.DownloadFile.
  destruct (_ || _); [discriminate|].
  destruct (negb (m_pCurlSession c)); [discriminate|].
  unfold FTPClient.DownloadFile_body, Ofs.open. cbn [of_file Ofs.fresh].
  destruct (LocalFS.open_trunc _ (fs w) strLocalFile) as [f0|] eqn:Eo;
    [|cbn; discriminate].
  apply open_trunc_creates in Eo. subst f0.
  cbn [Ofs.good of_fail negb]. unfold FTPClient.PerformFile.
  change (fs (contact ?u (set_fs ?x ?f))) with f.
  rewrite (file_deliver_content strLocalFile _ _ EmptyString)
    by (try exact Hsz; apply lookup_insert_eq).
  rewrite insert_insert_eq.
  destruct (snd (srv_file srv (FTPClient.ParseURL c strRemoteFile)) =? CURLE_OK) eqn:Eres;
    cbn; [|discriminate].
  intros [= <-]. split; [now apply N.eqb_eq | reflexivity].
Qed.

Lemma DownloadFile_success_content_witness :
  snd (srv_file Demo.srv (FTPClient.ParseURL Demo.client "f.bin")) = CURLE_OK
  /\ mk_world (<["out/f.bin" := FileNode "abcd"]> Demo.disk) [] ["ftp://h//f.bin"]
     = mk_world
         (<["out/f.bin" :=
              FileNode (Text.flatten
                          (fst (srv_file Demo.srv (FTPClient.ParseURL Demo.client "f.bin"))))]>
            (<["out/f.bin" := FileNode "stale"]> Demo.disk))
         [] ([] ++ ["ftp://h//f.bin"]).
Proof.
  assert (Hsz : forall buff,
             In buff (fst (srv_file Demo.srv (FTPClient.ParseURL Demo.client "f.bin"))) ->
             Str.size buff < 2 ^ 64)
    by (intros buff [<- | [<- | []]]; reflexivity).
  exact (DownloadFile_success_content true Demo.ENABLE_LOG Demo.client Demo.srv
           "out/f.bin" "f.bin"
           (mk_world (<["out/f.bin" := FileNode "stale"]> Demo.disk) [] [])
           (mk_world (<["out/f.bin" := FileNode "abcd"]> Demo.disk) [] ["ftp://h//f.bin"])
           Hsz eq_refl).
Defined.

Lemma log_if_disabled (ENABLE_LOG : N) (c : CFTPClient) (e : log_entry) (w : world) :
  FTPClient.log_enabled ENABLE_LOG c = false ->
  FTPClient.log_if_enabled ENABLE_LOG c e w = w.
Proof. intros H. unfold FTPClient.log_if_enabled. now rewrite H. Qed.

Lemma PerformFile_logged (srv : server) (url : string) (o : ofstream) (w : world) :
  logged (snd (FTPClient.PerformFile srv url o w)) = logged w.
Proof.
  unfold FTPClient.PerformFile.
  destruct (FTPClient.file_deliver _ o _) as [[[] o1] f1]; reflexivity.
Qed.

(** X7.  With the [ENABLE_LOG] bit unset, [DownloadFile] never calls the
    logger, whatever goes wrong. *)
Theorem DownloadFile_silent_when_logging_off
    (LINUX : bool) (ENABLE_LOG : N) (c : CFTPClient) (srv : server)
    (strLocalFile strRemoteFile : string) (w : world) :
  FTPClient.log_enabled ENABLE_LOG c = false ->
  logged (snd (FTPClient.DownloadFile LINUX ENABLE_LOG c srv strLocalFile strRemoteFile w))
  = logged w.
Proof.
  intros Hoff. unfold FTPClient.DownloadFile.
  destruct (_ || _); [reflexivity|].
  destruct (negb (m_pCurlSession c)); [now rewrite log_if_disabled|].
  unfold FTPClient.DownloadFile_body.
  destruct (Ofs.open _ _ _ _) as [o0 f0].
  destruct (Ofs.good o0); [|now rewrite log_if_disabled].
  pose proof (PerformFile_logged srv (FTPClient.ParseURL c strRemoteFile) o0 (set_fs w f0))
    as Hp.
  destruct (FTPClient.PerformFile _ _ o0 _) as [[res o1] w1]. simpl in Hp.
  destruct (negb (res =? CURLE_OK)); cbn; [rewrite log_if_disabled by exact Hoff|];
    exact Hp.
Qed.

Lemma DownloadFile_silent_when_logging_off_witness :
  logged (snd (FTPClient.DownloadFile true Demo.ENABLE_LOG Demo.quiet_client Demo.srv
                 "out/broken.bin" "broken.bin" Demo.start)) = [].
Proof.
  apply (DownloadFile_silent_when_logging_off true Demo.ENABLE_LOG Demo.quiet_client
           Demo.srv "out/broken.bin" "broken.bin" Demo.start).
  reflexivity.
Defined.

(** X8.  When the local file cannot be opened for writing, [DownloadFile]
    returns [false] without contacting the server and leaves local storage
    as it was. *)
Theorem DownloadFile_unopenable_local_file
    (LINUX : bool) (ENABLE_LOG : N) (c : CFTPClient) (srv : server)
    (strLocalFile strRemoteFile : string) (w : world) :
  LocalFS.open_trunc (FTPClient.path_sep LINUX) (fs w) strLocalFile = None ->
  let r := FTPClient.DownloadFile LINUX ENABLE_LOG c srv strLocalFile strRemoteFile w in
  fst r = false /\ performed (snd r) = performed w /\ fs (snd r) = fs w.
Proof.
  intros Ho r. subst r. unfold FTPClient.DownloadFile.
  destruct (_ || _); [now repeat split|].
  destruct (negb (m_pCurlSession c)).
  - cbn. now rewrite log_if_enabled_performed, log_if_enabled_fs.
  - unfold FTPClient.DownloadFile_body, Ofs.open. cbn [of_file Ofs.fresh].
    rewrite Ho. cbn. now rewrite log_if_enabled_performed, log_if_enabled_fs.
Qed.

Lemma DownloadFile_unopenable_local_file_witness :
  fst (FTPClient.DownloadFile true Demo.ENABLE_LOG Demo.client Demo.srv
         "nowhere/f.bin" "f.bin" Demo.start) = false
  /\ performed (snd (FTPClient.DownloadFile true Demo.ENABLE_LOG Demo.client Demo.srv
                       "nowhere/f.bin" "f.bin" Demo.start)) = []
  /\ fs (snd (FTPClient.DownloadFile true Demo.ENABLE_LOG Demo.client Demo.srv
                "nowhere/f.bin" "f.bin" Demo.start)) = Demo.disk.
Proof.
  apply (DownloadFile_unopenable_local_file true Demo.ENABLE_LOG Demo.client Demo.srv
           "nowhere/f.bin" "f.bin" Demo.start).
  reflexivity.
Defined.

Lemma open_trunc_elsewhere (sep : ascii) (f f1 : storage) (path p : string) :
  LocalFS.open_trunc sep f path = Some f1 -> p <> path -> f1 !! p = f !! p.
Proof.
  intros Ho Hne. apply open_trunc_creates in Ho. subst f1.
  now rewrite lookup_insert_ne by congruence.
Qed.

Lemma append_elsewhere (f : storage) (path bytes p : string) :
  p <> path -> LocalFS.append f path bytes !! p = f !! p.
Proof.
  intros Hne. unfold LocalFS.append.
  destruct (f !! path) as [[|cnt]|]; try reflexivity.
  now rewrite lookup_insert_ne by congruence.
Qed.




(** ** DownloadWildcard, further *)

(** X10.  [DownloadWildcard] removes no node of local storage and never
    turns a directory into a file or a file into a directory: what was a
    directory is a directory afterwards, what was a file is a file
    afterwards (its content may have been replaced). *)
Theorem DownloadWildcard_keeps_existing_nodes
    (LINUX : bool) (ENABLE_LOG : N) (fuel : nat) (c : CFTPClient) (srv : server)
    (strLocalDir strRemoteWildcard : string) (w : world) (k : string) :
  let w' := snd (FTPClient.DownloadWildcard LINUX ENABLE_LOG fuel c srv
                   strLocalDir strRemoteWildcard w) in
  (fs w !! k = Some DirNode -> fs w' !! k = Some DirNode)
  /\ (forall cnt, fs w !! k = Some (FileNode cnt) ->
                  exists cnt', fs w' !! k = Some (FileNode cnt')).
Proof.
  intros w'. subst w'.
  pose proof (DownloadWildcard_grows LINUX ENABLE_LOG c srv fuel
                strLocalDir strRemoteWildcard w k) as Hg.
  split.
  - intros Hk. apply kind_dir. rewrite Hg; now rewrite Hk.
  - intros cnt Hk. apply kind_file. rewrite Hg; now rewrite Hk.
Qed.

Lemma DownloadWildcard_keeps_existing_nodes_witness :
  fs (snd (FTPClient.DownloadWildcard true Demo.ENABLE_LOG 2 Demo.client Demo.srv
             "out" "reports/*"
             (mk_world (<["out/a.txt" := FileNode "old"]> Demo.disk) [] []))) !! "out"
  = Some DirNode
  /\ exists cnt',
       fs (snd (FTPClient.DownloadWildcard true Demo.ENABLE_LOG 2 Demo.client Demo.srv
                  "out" "reports/*"
                  (mk_world (<["out/a.txt" := FileNode "old"]> Demo.disk) [] [])))
         !! "out/a.txt" = Some (FileNode cnt').
Proof.
  split.
  - apply (DownloadWildcard_keeps_existing_nodes true Demo.ENABLE_LOG 2 Demo.client Demo.srv
             "out" "reports/*"
             (mk_world (<["out/a.txt" := FileNode "old"]> Demo.disk) [] []) "out").
    reflexivity.
  - apply (proj2 (DownloadWildcard_keeps_existing_nodes true Demo.ENABLE_LOG 2 Demo.client
                    Demo.srv "out" "reports/*"
                    (mk_world (<["out/a.txt" := FileNode "old"]> Demo.disk) [] [])
                    "out/a.txt") "old").
    reflexivity.
Defined.

Lemma PerformWildcard_performed (LINUX : bool) (srv : server) (url : string)
    (data : WildcardTransfersCallbackData) (w : world) :
  performed (snd (FTPClient.PerformWildcard LINUX srv url data w)) = (performed w ++ [url])%list.
Proof.
  unfold FTPClient.PerformWildcard.
  destruct (FTPClient.wc_statemach LINUX _ data _) as [[[code|] data1] f1]; reflexivity.
Qed.

Lemma PerformWildcard_logged (LINUX : bool) (srv : server) (url : string)
    (data : WildcardTransfersCallbackData) (w : world) :
  logged (snd (FTPClient.PerformWildcard LINUX srv url data w)) = logged w.
Proof.
  unfold FTPClient.PerformWildcard.
  destruct (FTPClient.wc_statemach LINUX _ data _) as [[[code|] data1] f1]; reflexivity.
Qed.

(** X11.  A pattern that does not end in ['*'] is enumerated once and
    never descended into: with non-empty arguments, a session and an
    existing local directory, exactly one URL is contacted, and the result
    is [true] exactly when the status of that one transfer is [CURLE_OK]
    or [CURLE_REMOTE_FILE_NOT_FOUND]. *)
Theorem DownloadWildcard_without_trailing_wildcard
    (LINUX : bool) (ENABLE_LOG : N) (fuel : nat) (c : CFTPClient) (srv : server)
    (strLocalDir strRemoteWildcard : string) (w : world) :
  Str.empty strLocalDir = false ->
  Str.empty strRemoteWildcard = false ->
  m_pCurlSession c = true ->
  LocalFS.stat_is_dir (FTPClient.path_sep LINUX) (fs w) strLocalDir = true ->
  Str.back_is "*" strRemoteWildcard = false ->
  let res := fst (fst (FTPClient.PerformWildcard LINUX srv
                         (FTPClient.ParseURL c strRemoteWildcard)
                         (mk_data Ofs.fresh (FTPClient.output_path LINUX strLocalDir) []) w)) in
  let r := FTPClient.DownloadWildcard LINUX ENABLE_LOG (S fuel) c srv
             strLocalDir strRemoteWildcard w in
  performed (snd r) = (performed w ++ [FTPClient.ParseURL c strRemoteWildcard])%list
  /\ (exists b, fst r = Some b
                /\ (b = true <-> res = CURLE_OK \/ res = CURLE_REMOTE_FILE_NOT_FOUND)).
Proof.
  intros Hl Hr Hs Hdir Hstar res r. subst res r.
  pose proof (PerformWildcard_performed LINUX srv (FTPClient.ParseURL c strRemoteWildcard)
                (mk_data Ofs.fresh (FTPClient.output_path LINUX strLocalDir) []) w) as Hp.
  destruct (FTPClient.PerformWildcard LINUX srv _ _ w) as [[res data1] w1] eqn:Ep.
  erewrite DownloadWildcard_performs; eauto;
    [| now rewrite Hl, Hr | now rewrite stat_output_path].
  rewrite Hstar, andb_false_r. cbn [fst snd] in *.
  destruct (res =? CURLE_OK) eqn:E1; cbn.
  - split; [exact Hp|]. exists true. split; [reflexivity|].
    apply N.eqb_eq in E1. tauto.
  - destruct (res =? CURLE_REMOTE_FILE_NOT_FOUND) eqn:E2; cbn.
    + split; [exact Hp|]. exists true. split; [reflexivity|].
      apply N.eqb_eq in E2. tauto.
    + rewrite log_if_enabled_performed. split; [exact Hp|].
      exists false. split; [reflexivity|].
      apply N.eqb_neq in E1, E2. split; [discriminate | tauto].
Qed.

Lemma DownloadWildcard_without_trailing_wildcard_witness :
  performed (snd (FTPClient.DownloadWildcard true Demo.ENABLE_LOG 3 Demo.client Demo.srv
                    "out" "reports" Demo.start))
  = ([] ++ ["ftp://h//reports"])%list
  /\ (exists b,
        fst (FTPClient.DownloadWildcard true Demo.ENABLE_LOG 3 Demo.client Demo.srv
               "out" "reports" Demo.start) = Some b
        /\ (b = true <->
            fst (fst (FTPClient.PerformWildcard true Demo.srv
                        (FTPClient.ParseURL Demo.client "reports")
                        (mk_data Ofs.fresh (FTPClient.output_path true "out") [])
                        Demo.start)) = CURLE_OK
            \/ fst (fst (FTPClient.PerformWildcard true Demo.srv
                           (FTPClient.ParseURL Demo.client "reports")
                           (mk_data Ofs.fresh (FTPClient.output_path true "out") [])
                           Demo.start)) = CURLE_REMOTE_FILE_NOT_FOUND)).
Proof.
  apply (DownloadWildcard_without_trailing_wildcard true Demo.ENABLE_LOG 2 Demo.client
           Demo.srv "out" "reports" Demo.start); reflexivity.
Defined.

Section WildcardLog.

Context (LINUX : bool) (ENABLE_LOG : N) (c : CFTPClient) (srv : server).

Local Abbreviation log_discipline := (log_discipline ENABLE_LOG c).

Lemma log_if_enabled_logged e w :
  logged (FTPClient.log_if_enabled ENABLE_LOG c e w)
  = (logged w ++ if FTPClient.log_enabled ENABLE_LOG c then [e] else [])%list.
Proof.
  unfold FTPClient.log_if_enabled.
  destruct (FTPClient.log_enabled _ _); [reflexivity | now rewrite app_nil_r].
Qed.

Lemma guarded_failure_discipline e w :
  log_discipline w (Some false, FTPClient.log_if_enabled ENABLE_LOG c e w)
    (if FTPClient.log_enabled ENABLE_LOG c then [e] else []).
Proof.
  repeat split.
  - apply log_if_enabled_logged.
  - discriminate.
  - intros ->. constructor.
Qed.

Lemma recurse_dirs_log rec out base dirs :
  (forall l r w, exists extra, log_discipline w (rec l r w) extra) ->
  forall bRet w, exists extra,
    log_discipline w (FTPClient.recurse_dirs rec out base dirs bRet w) extra
    /\ (bRet = true ->
        fst (FTPClient.recurse_dirs rec out base dirs bRet w) = Some false ->
        extra <> []).
Proof.
  intros Hrec. induction dirs as [|d rest IH]; intros bRet w; simpl.
  - exists []. repeat split; simpl.
    + now rewrite app_nil_r.
    + constructor.
    + intros -> [=].
  - destruct (Hrec (out +:+ d) (base +:+ d +:+ "/*") w) as (e1 & Hl1 & Ht1 & Hoff1).
    destruct (rec (out +:+ d) (base +:+ d +:+ "/*") w) as [[[]|] w1]; simpl in *.
    + specialize (Ht1 eq_refl). subst e1. rewrite app_nil_r in Hl1.
      destruct (IH bRet w1) as (e2 & (Hl2 & Ht2 & Hoff2) & Hf2).
      exists e2. repeat split; try assumption. now rewrite Hl2, Hl1.
    + destruct (IH false (m_oLog (LOG_ERROR_CURL_GETWILD_REC_FORMAT
                                    (base +:+ d +:+ "/*") (out +:+ d)) w1))
        as (e2 & (Hl2 & Ht2 & Hoff2) & _).
      exists (e1 ++ LOG_ERROR_CURL_GETWILD_REC_FORMAT (base +:+ d +:+ "/*") (out +:+ d)
                :: e2)%list.
      repeat split.
      * rewrite Hl2. simpl. rewrite Hl1, <- !app_assoc. reflexivity.
      * intros Htrue.
        destruct (FTPClient.recurse_dirs rec out base rest false _) as [[b|] w2] eqn:Er;
          [|discriminate].
        apply recurse_dirs_false in Er. simpl in Htrue. congruence.
      * intros Hoff. apply Forall_app. split; [now apply Hoff1|].
        constructor; [reflexivity | now apply Hoff2].
      * intros _ _ E. apply app_eq_nil in E as [_ E]. discriminate.
    + exists e1. repeat split; try assumption; discriminate.
Qed.

Lemma DownloadWildcard_log fuel : forall l r w,
  exists extra,
    log_discipline w (FTPClient.DownloadWildcard LINUX ENABLE_LOG fuel c srv l r w) extra
    /\ (FTPClient.log_enabled ENABLE_LOG c = true ->
        Str.empty l || Str.empty r = false ->
        fst (FTPClient.DownloadWildcard LINUX ENABLE_LOG fuel c srv l r w) = Some false ->
        extra <> []).
Proof.
  induction fuel as [|fuel IH]; intros l r w.
  - exists []. repeat split; simpl; try discriminate.
    + now rewrite app_nil_r.
    + constructor.
  - simpl. destruct (Str.empty l || Str.empty r) eqn:Eargs.
    { exists []. repeat split; simpl; try discriminate.
      - now rewrite app_nil_r.
      - constructor. }
    destruct (negb (m_pCurlSession c)).
    { eexists. split; [apply guarded_failure_discipline|].
      intros ->. discriminate. }
    destruct (LocalFS.stat_is_dir _ _ _).
    2: { eexists. split; [apply guarded_failure_discipline|].
         intros ->. discriminate. }
    pose proof (PerformWildcard_logged LINUX srv (FTPClient.ParseURL c r)
                  (mk_data Ofs.fresh (FTPClient.output_path LINUX l) []) w) as Hp.
    destruct (FTPClient.PerformWildcard LINUX srv _ _ w) as [[res data1] w1]. simpl in Hp.
    destruct (negb (res =? CURLE_OK) && negb (res =? CURLE_REMOTE_FILE_NOT_FOUND)).
    { exists (if FTPClient.log_enabled ENABLE_LOG c
              then [LOG_ERROR_CURL_GETWILD_FORMAT (m_strServer c) r res] else []).
      split; [repeat split|].
      - cbn [snd]. now rewrite log_if_enabled_logged, Hp.
      - discriminate.
      - intros ->. constructor.
      - intros ->. discriminate. }
    destruct (negb (vec_empty (vecDirList data1)) && Str.back_is "*" r).
    + destruct (recurse_dirs_log (FTPClient.DownloadWildcard LINUX ENABLE_LOG fuel c srv)
                  (strOutputPath data1) (FTPClient.base_url r) (vecDirList data1)
                  (fun l' r' w' => let (e, H) := IH l' r' w' in
                                   ex_intro _ e (proj1 H)) true w1)
        as (e & (Hl & Ht & Hoff) & Hf).
      exists e. split; [repeat split|]; try assumption.
      * now rewrite Hl, Hp.
      * intros _ _. now apply Hf.
    + exists []. repeat split; simpl; try discriminate.
      * now rewrite app_nil_r.
      * constructor.
Qed.

End WildcardLog.

(** X12.  A call of [DownloadWildcard] that returns [true] has logged
    nothing, at any depth of the recursion, whether logging is enabled or
    not. *)
Theorem DownloadWildcard_success_logs_nothing
    (LINUX : bool) (ENABLE_LOG : N) (fuel : nat) (c : CFTPClient) (srv : server)
    (strLocalDir strRemoteWildcard : string) (w w' : world) :
  FTPClient.DownloadWildcard LINUX ENABLE_LOG fuel c srv strLocalDir strRemoteWildcard w
  = (Some true, w') ->
  logged w' = logged w.
Proof.
  intros Hrun.
  destruct (DownloadWildcard_log LINUX ENABLE_LOG c srv fuel strLocalDir strRemoteWildcard w)
    as (extra & (Hl & Ht & _) & _).
  rewrite Hrun in Hl, Ht. simpl in Hl, Ht.
  rewrite (Ht eq_refl), app_nil_r in Hl. exact Hl.
Qed.

Lemma DownloadWildcard_success_logs_nothing_witness :
  logged (mk_world (<["out/2025/b.txt" := FileNode "x"]>
                      (<["out/2025" := DirNode]>
                         (<["out/a.txt" := FileNode "hello"]> Demo.disk)))
            [] ["ftp://h//archive//*"; "ftp://h//archive//2025//*"])
  = logged Demo.start.
Proof.
  apply (DownloadWildcard_success_logs_nothing true Demo.ENABLE_LOG 2 Demo.client Demo.srv
           "out" "archive/*" Demo.start).
  reflexivity.
Defined.

(** X13.  With the [ENABLE_LOG] bit unset, the only entries
    [DownloadWildcard] adds to the log are those for failed recursive
    calls; the log is otherwise left as it was. *)
Theorem DownloadWildcard_logging_off_only_recursion_entries
    (LINUX : bool) (ENABLE_LOG : N) (fuel : nat) (c : CFTPClient) (srv : server)
    (strLocalDir strRemoteWildcard : string) (w : world) :
  FTPClient.log_enabled ENABLE_LOG c = false ->
  exists extra : list log_entry,
    logged (snd (FTPClient.DownloadWildcard LINUX ENABLE_LOG fuel c srv
                   strLocalDir strRemoteWildcard w))
    = (logged w ++ extra)%list
    /\ Forall (fun e => is_rec_entry e = true) extra.
Proof.
  intros Hoff.
  destruct (DownloadWildcard_log LINUX ENABLE_LOG c srv fuel strLocalDir strRemoteWildcard w)
    as (extra & (Hl & _ & Hrec) & _).
  exists extra. split; [exact Hl | now apply Hrec].
Qed.

Lemma DownloadWildcard_logging_off_only_recursion_entries_witness :
  exists extra : list log_entry,
    logged (snd (FTPClient.DownloadWildcard true Demo.ENABLE_LOG 2 Demo.quiet_client Demo.srv
                   "out" "reports/*" Demo.start))
    = (logged Demo.start ++ extra)%list
    /\ Forall (fun e => is_rec_entry e = true) extra.
Proof.
  apply (DownloadWildcard_logging_off_only_recursion_entries true Demo.ENABLE_LOG 2
           Demo.quiet_client Demo.srv "out" "reports/*" Demo.start).
  reflexivity.
Defined.

(** X14.  With the [ENABLE_LOG] bit set and non-empty arguments, a call of
    [DownloadWildcard] that returns [false] has added at least one entry
    to the log: no failure past the argument check is silent. *)
Theorem DownloadWildcard_failure_is_logged
    (LINUX : bool) (ENABLE_LOG : N) (fuel : nat) (c : CFTPClient) (srv : server)
    (strLocalDir strRemoteWildcard : string) (w w' : world) :
  FTPClient.log_enabled ENABLE_LOG c = true ->
  Str.empty strLocalDir = false ->
  Str.empty strRemoteWildcard = false ->
  FTPClient.DownloadWildcard LINUX ENABLE_LOG fuel c srv strLocalDir strRemoteWildcard w
  = (Some false, w') ->
  exists (e : log_entry) (extra : list log_entry),
    logged w' = (logged w ++ e :: extra)%list.
Proof.
  intros Hon Hl Hr Hrun.
  destruct (DownloadWildcard_log LINUX ENABLE_LOG c srv fuel strLocalDir strRemoteWildcard w)
    as (extra & (Hlog & _ & _) & Hne).
  rewrite Hrun in Hlog, Hne. simpl in Hlog, Hne.
  destruct extra as [|e extra].
  - exfalso. apply Hne; try reflexivity; [exact Hon | now rewrite Hl, Hr].
  - eauto.
Qed.

Lemma DownloadWildcard_failure_is_logged_witness :
  exists (e : log_entry) (extra : list log_entry),
    logged (snd (FTPClient.DownloadWildcard true Demo.ENABLE_LOG 2 Demo.client Demo.srv
                   "nowhere" "reports/*" Demo.start))
    = (logged Demo.start ++ e :: extra)%list.
Proof.
  apply (DownloadWildcard_failure_is_logged true Demo.ENABLE_LOG 2 Demo.client Demo.srv
           "nowhere" "reports/*" Demo.start); reflexivity.
Defined.

(** ** Content of the files of one enumeration *)

Section EnumerationContent.

Context (LINUX : bool).

Lemma mkdir_keeps_existing f path k v :
  f !! k = Some v ->
  snd (LocalFS.mkdir (FTPClient.path_sep LINUX) f path) !! k = Some v.
Proof.
  intros Hk. unfold LocalFS.mkdir.
  destruct (f !! LocalFS.key _ path) eqn:E; [exact Hk|].
  destruct (LocalFS.is_dir_node _); [|exact Hk].
  cbn. rewrite lookup_insert_ne; [exact Hk | congruence].
Qed.

Lemma wc_deliver_elsewhere (p : string) (chunks : list string) :
  forall (data : WildcardTransfersCallbackData) (f : storage),
    of_file (ofsOutput data) <> Some p ->
    snd (FTPClient.wc_deliver chunks data f) !! p = f !! p.
Proof.
  induction chunks as [|buff rest IH]; intros data f Ho; simpl; [reflexivity|].
  unfold FTPClient.WriteItCallback.
  destruct (Ofs.is_open (ofsOutput data)).
  - unfold Ofs.write. destruct (of_fail (ofsOutput data)).
    + destruct (FTPClient.write_accepted _ _); [now apply IH | reflexivity].
    + destruct (of_file (ofsOutput data)) as [q|] eqn:Eq.
      * assert (Hne : p <> q) by congruence.
        destruct (FTPClient.write_accepted _ _); cbn.
        -- rewrite IH by (cbn; rewrite Eq; congruence). now apply append_elsewhere.
        -- now apply append_elsewhere.
      * destruct (FTPClient.write_accepted _ _); [apply IH; cbn; congruence | reflexivity].
  - destruct (FTPClient.write_accepted _ _); [now apply IH | reflexivity].
Qed.

Lemma wc_deliver_content (path : string) (chunks : list string) :
  forall (data : WildcardTransfersCallbackData) (f : storage) (acc : string),
    ofsOutput data = mk_ofstream (Some path) false ->
    f !! path = Some (FileNode acc) ->
    (forall buff, In buff chunks -> Str.size buff < 2 ^ 64) ->
    FTPClient.wc_deliver chunks data f
    = (true, data, <[path := FileNode (acc +:+ Text.flatten chunks)]> f).
Proof.
  induction chunks as [|buff rest IH]; intros data f acc Ho Hf Hsz.
  - simpl. rewrite append_empty_r, insert_id by exact Hf. reflexivity.
  - assert (Hb : Str.size buff < 2 ^ 64) by (apply Hsz; now left).
    cbn [FTPClient.wc_deliver].
    unfold FTPClient.WriteItCallback, Ofs.is_open, Ofs.write. rewrite Ho.
    cbn [of_file of_fail]. unfold FTPClient.write_accepted.
    rewrite size_mul_1, N.eqb_refl by exact Hb.
    unfold Str.size at 1. rewrite Nat2N.id, take_all.
    replace (set_ofsOutput data (mk_ofstream (Some path) false)) with data
      by (destruct data; cbn in Ho; now subst).
    unfold LocalFS.append. rewrite Hf.
    rewrite (IH data _ (acc +:+ buff) Ho) by
      (try apply lookup_insert_eq; intros b Hin; apply Hsz; now right).
    rewrite insert_insert_eq, append_assoc. reflexivity.
Qed.

(** Entries announced later leave a file alone unless one of them is a
    file of the same name. *)
Lemma wc_statemach_keeps_file (name : string) (items : list remote_item) :
  forall (data : WildcardTransfersCallbackData) (f : storage) (v : fnode),
    Ofs.is_open (ofsOutput data) = false ->
    (forall it, In it items -> filetype (ri_info it) = CURLFILETYPE_FILE ->
                filename (ri_info it) <> name) ->
    f !! (strOutputPath data +:+ name) = Some v ->
    snd (FTPClient.wc_statemach LINUX items data f) !! (strOutputPath data +:+ name)
    = Some v.
Proof.
  induction items as [|it rest IH]; intros data f v Hc Hnames Hv; simpl; [exact Hv|].
  assert (Hrest : forall it', In it' rest ->
                    filetype (ri_info it') = CURLFILETYPE_FILE ->
                    filename (ri_info it') <> name)
    by (intros it' Hin; apply Hnames; now right).
  assert (Hnext : forall d f',
             strOutputPath d = strOutputPath data ->
             f' !! (strOutputPath data +:+ name) = Some v ->
             snd (FTPClient.wc_statemach LINUX rest
                    (snd (FTPClient.FileIsDownloadedCallback d)) f')
               !! (strOutputPath data +:+ name) = Some v).
  { intros d f' Hd Hf'.
    rewrite <- (FileIsDownloadedCallback_keeps_path d) in Hd.
    rewrite <- Hd. apply IH; [apply FileIsDownloadedCallback_closed | exact Hrest|].
    now rewrite Hd. }
  unfold FTPClient.FileIsComingCallback.
  destruct (filetype (ri_info it)) eqn:Eft;
    try (apply Hnext; [reflexivity | exact Hv]).
  - (* a file of another name *)
    assert (Hne : strOutputPath data +:+ name
                  <> strOutputPath data +:+ filename (ri_info it)).
    { intros E. apply String.app_inj in E. symmetry in E. revert E.
      apply Hnames; [now left | exact Eft]. }
    destruct (LocalFS.open_trunc (FTPClient.path_sep LINUX) f
                (strOutputPath data +:+ filename (ri_info it))) as [f1|] eqn:Eo.
    + rewrite (open_granted _ _ _ _ _ Hc Eo). cbn.
      pose proof (wc_deliver_elsewhere (strOutputPath data +:+ name) (ri_chunks it)
                    (set_ofsOutput data
                       (mk_ofstream (Some (strOutputPath data +:+ filename (ri_info it)))
                          false)) f1) as Hd.
      pose proof (wc_deliver_keeps_path (ri_chunks it)
                    (set_ofsOutput data
                       (mk_ofstream (Some (strOutputPath data +:+ filename (ri_info it)))
                          false)) f1) as Hpath.
      destruct (FTPClient.wc_deliver _ _ f1) as [[ok d2] f2]. cbn in Hd, Hpath.
      assert (Hf2 : f2 !! (strOutputPath data +:+ name) = Some v).
      { rewrite Hd by congruence.
        now rewrite (open_trunc_elsewhere _ _ _ _ _ Eo Hne). }
      destruct ok; [now apply Hnext | exact Hf2].
    + rewrite (open_refused _ _ _ _ Hc Eo). cbn. exact Hv.
  - (* a directory *)
    pose proof (mkdir_keeps_existing f (strOutputPath data +:+ filename (ri_info it))
                  _ _ Hv) as Hm.
    destruct (LocalFS.mkdir _ f _) as [[e|] f1]; cbn in Hm.
    + destruct (negb (e =? LocalFS.EEXIST)); [exact Hm | now apply Hnext].
    + now apply Hnext.
Qed.

End EnumerationContent.

(** X15.  After an enumeration that [DownloadWildcard] accepts, every
    announced file that is not followed by another file of the same name
    holds in the local directory exactly the chunks delivered for it, one
    after the other. *)
Theorem enumeration_file_content
    (LINUX : bool) (srv : server) (url out : string) (w w1 : world)
    (res : CURLcode) (data1 : WildcardTransfersCallbackData)
    (pre post : list remote_item) (it : remote_item) :
  FTPClient.PerformWildcard LINUX srv url (mk_data Ofs.fresh out []) w = (res, data1, w1) ->
  res = CURLE_OK \/ res = CURLE_REMOTE_FILE_NOT_FOUND ->
  fst (srv_wildcard srv url) = (pre ++ it :: post)%list ->
  filetype (ri_info it) = CURLFILETYPE_FILE ->
  (forall it', In it' post -> filetype (ri_info it') = CURLFILETYPE_FILE ->
               filename (ri_info it') <> filename (ri_info it)) ->
  (forall buff, In buff (ri_chunks it) -> Str.size buff < 2 ^ 64) ->
  fs w1 !! (out +:+ filename (ri_info it))
  = Some (FileNode (Text.flatten (ri_chunks it))).
Proof.
  unfold FTPClient.PerformWildcard. intros Hp Hres Hitems Hft Hlater Hsz.
  change (fs (contact url w)) with (fs w) in Hp. rewrite Hitems in Hp.
  destruct (FTPClient.wc_statemach LINUX (pre ++ it :: post) _ (fs w))
    as [[[code|] d] f] eqn:Erun.
  { injection Hp as <- _ _. apply wc_statemach_stop_codes in Erun.
    destruct Erun as [-> | ->], Hres; discriminate. }
  injection Hp as _ <- <-. cbn [fs set_fs].
  rewrite wc_statemach_app in Erun.
  pose proof (wc_statemach_closed LINUX pre (mk_data Ofs.fresh out []) (fs w) eq_refl) as Hc.
  pose proof (wc_statemach_keeps_path LINUX pre (mk_data Ofs.fresh out []) (fs w)) as Hout.
  destruct (FTPClient.wc_statemach LINUX pre _ (fs w)) as [[[code|] da] fa];
    [discriminate|].
  cbn in Hc, Hout. cbn [FTPClient.wc_statemach] in Erun.
  unfold FTPClient.FileIsComingCallback in Erun. rewrite Hft in Erun.
  destruct (LocalFS.open_trunc (FTPClient.path_sep LINUX) fa
              (strOutputPath da +:+ filename (ri_info it))) as [fb|] eqn:Eo.
  2: { rewrite (open_refused _ _ _ _ Hc Eo) in Erun. discriminate. }
  rewrite (open_granted _ _ _ _ _ Hc Eo) in Erun. cbn in Erun.
  apply open_trunc_creates in Eo. subst fb.
  rewrite (wc_deliver_content (strOutputPath da +:+ filename (ri_info it)) _ _ _ EmptyString)
    in Erun by (try exact Hsz; try reflexivity; apply lookup_insert_eq).
  rewrite insert_insert_eq in Erun.
  change (EmptyString +:+ ?x) with x in Erun.
  match type of Erun with
  | FTPClient.wc_statemach LINUX post ?d ?g = _ =>
      pose proof (wc_statemach_keeps_file LINUX (filename (ri_info it)) post d g
                    (FileNode (Text.flatten (ri_chunks it)))) as Hkeep
  end.
  rewrite Erun in Hkeep. cbn in Hkeep. rewrite Hout in Hkeep.
  apply Hkeep; [reflexivity | exact Hlater | apply lookup_insert_eq].
Qed.

Lemma enumeration_file_content_witness :
  fs (mk_world (<["out/2025" := DirNode]>
                  (<["out/2024" := DirNode]>
                     (<["out/a.txt" := FileNode "hello"]> Demo.disk)))
        [] ["ftp://h//reports//*"]) !! ("out/" +:+ filename (ri_info Demo.a_txt))
  = Some (FileNode (Text.flatten (ri_chunks Demo.a_txt))).
Proof.
  apply (enumeration_file_content true Demo.srv "ftp://h//reports//*" "out/" Demo.start _
           CURLE_OK (mk_data Ofs.fresh "out/" ["2024"; "2025"])
           [] [Demo.dir_2024; Demo.dir_2025] Demo.a_txt).
  - reflexivity.
  - now left.
  - reflexivity.
  - reflexivity.
  - intros it' [<- | [<- | []]]; discriminate.
  - intros buff [<- | [<- | []]]; reflexivity.
Defined.

(** ** Where DownloadWildcard writes *)





Section Containment.

Context (LINUX : bool) (k : string).

Local Abbreviation sep := (FTPClient.path_sep LINUX).





End Containment.



(** ** Session life cycle *)

Lemma balance_app (a b : list Session.global_call) :
  Session.balance (a ++ b) = (Session.balance a + Session.balance b)%Z.
Proof.
  induction a as [|[] a IH]; simpl; [reflexivity | |]; rewrite IH; lia.
Qed.

Lemma wrap_int_small (z : Z) :
  (- 2 ^ 31 <= z < 2 ^ 31)%Z -> Session.wrap_int z = z.
Proof.
  intros H. unfold Session.wrap_int.
  rewrite Z.mod_small by lia. lia.
Qed.

Lemma run_invariant (ENABLE_LOG ALL_FLAGS : N) (evs : list Session.lifecycle) :
  forall (n : Z) (g : Session.global),
    (0 <= n < 2 ^ 31)%Z ->
    Session.s_iCurlSession g = n ->
    Session.balance (Session.calls g) = (if (0 <? n)%Z then 1 else 0)%Z ->
    Session.well_bracketed n evs = true ->
    Session.s_iCurlSession (Session.run ENABLE_LOG ALL_FLAGS evs g) = Session.alive n evs
    /\ Session.balance (Session.calls (Session.run ENABLE_LOG ALL_FLAGS evs g))
       = (if (0 <? Session.alive n evs)%Z then 1 else 0)%Z.
Proof.
  induction evs as [|[] rest IH]; intros n g Hn Hs Hb Hwb;
    cbn [Session.run Session.alive Session.well_bracketed] in *.
  - subst n. now split.
  - apply andb_true_iff in Hwb as [Hlt Hwb]. apply Z.ltb_lt in Hlt.
    apply IH; try assumption; cbn [snd Session.constructor Session.s_iCurlSession
                                     Session.calls].
    + lia.
    + rewrite Hs. apply wrap_int_small. lia.
    + rewrite balance_app, Hb, Hs.
      destruct (Z.eqb_spec n 0) as [E0|E0], (Z.ltb_spec 0 n), (Z.ltb_spec 0 (n + 1));
        cbn [Session.balance]; lia.
  - apply andb_true_iff in Hwb as [Hpos Hwb]. apply Z.ltb_lt in Hpos.
    assert (Hw : Session.wrap_int (n - 1) = (n - 1)%Z) by (apply wrap_int_small; lia).
    apply IH; try assumption; cbn [snd Session.destructor Session.s_iCurlSession
                                     Session.calls]; rewrite ?Hs, ?Hw.
    + lia.
    + reflexivity.
    + rewrite balance_app, Hb.
      destruct (Z.leb_spec (n - 1) 0), (Z.ltb_spec 0 n), (Z.ltb_spec 0 (n - 1));
        cbn [Session.balance]; lia.
Qed.

(** X17.  Over any sequence of constructions and destructions of client
    objects in which only live objects are destroyed, the counter
    [s_iCurlSession] equals the number of live objects, and libcurl is set
    up globally (one more [curl_global_init] than [curl_global_cleanup])
    exactly while at least one object is alive. *)
Theorem global_setup_follows_live_objects
    (ENABLE_LOG ALL_FLAGS : N) (evs : list Session.lifecycle) :
  Session.well_bracketed 0 evs = true ->
  let g := Session.run ENABLE_LOG ALL_FLAGS evs (Session.mk_global 0 []) in
  Session.s_iCurlSession g = Session.alive 0 evs
  /\ Session.balance (Session.calls g)
     = (if (0 <? Session.alive 0 evs)%Z then 1 else 0)%Z.
Proof.
  intros Hwb g. subst g.
  apply run_invariant; try assumption; try reflexivity. lia.
Qed.

Lemma global_setup_follows_live_objects_witness :
  Session.s_iCurlSession
    (Session.run 1 255
       [Session.Construct; Session.Construct; Session.Destroy; Session.Destroy;
        Session.Construct]
       (Session.mk_global 0 [])) = 1%Z
  /\ Session.balance
       (Session.calls
          (Session.run 1 255
             [Session.Construct; Session.Construct; Session.Destroy; Session.Destroy;
              Session.Construct]
             (Session.mk_global 0 []))) = 1%Z.
Proof.
  apply (global_setup_follows_live_objects 1 255
           [Session.Construct; Session.Construct; Session.Destroy; Session.Destroy;
            Session.Construct]).
  reflexivity.
Defined.

(** X18.  Once [InitSession] has succeeded, every further [InitSession],
    whatever its arguments, returns [false] and leaves the stored host,
    port, credentials, protocol, flags and session as they are. *)
Theorem InitSession_twice
    (ENABLE_LOG : N) (s s1 : Session.state) (logs1 : list Session.log_entry)
    (init1 init2 : bool) (host1 host2 login1 login2 password1 password2 : string)
    (port1 port2 flags1 flags2 : N) (protocol1 protocol2 : FTP_PROTOCOL) :
  Session.InitSession ENABLE_LOG init1 host1 port1 login1 password1 protocol1 flags1 s
  = (true, s1, logs1) ->
  fst (fst (Session.InitSession ENABLE_LOG init2 host2 port2 login2 password2
              protocol2 flags2 s1)) = false
  /\ snd (fst (Session.InitSession ENABLE_LOG init2 host2 port2 login2 password2
                 protocol2 flags2 s1)) = s1.
Proof.
  unfold Session.InitSession at 1.
  destruct (Str.empty host1); [discriminate|].
  destruct (m_pCurlSession (Session.client s)); [discriminate|].
  intros [= -> <- _]. unfold Session.InitSession. cbn.
  destruct (Str.empty host2); split; reflexivity.
Qed.

Lemma InitSession_twice_witness :
  fst (fst (Session.InitSession 1 true "other" 22 "root" "secret" SFTP 0
              (Session.mk_state (mk_client "h" FTP 255 true) 21 "user" "pw"))) = false
  /\ snd (fst (Session.InitSession 1 true "other" 22 "root" "secret" SFTP 0
                 (Session.mk_state (mk_client "h" FTP 255 true) 21 "user" "pw")))
     = Session.mk_state (mk_client "h" FTP 255 true) 21 "user" "pw".
Proof.
  apply (InitSession_twice 1
           (Session.mk_state (mk_client "" FTP 255 false) 0 "" "")
           (Session.mk_state (mk_client "h" FTP 255 true) 21 "user" "pw") []
           true true "h" "other" "user" "root" "pw" "secret" 21 22 255 0 FTP SFTP).
  reflexivity.
Defined.

(** X19.  After a successful [InitSession], [CleanupSession] returns
    [true], logs nothing and clears the session while keeping the stored
    host, protocol and flags; a second [CleanupSession] returns [false];
    and [InitSession] with a non-empty host can then succeed again. *)
Theorem InitSession_CleanupSession_round_trip
    (ENABLE_LOG : N) (s s1 : Session.state) (logs1 : list Session.log_entry)
    (init1 : bool) (host1 login1 password1 : string) (port1 flags1 : N)
    (protocol1 : FTP_PROTOCOL) :
  Session.InitSession ENABLE_LOG init1 host1 port1 login1 password1 protocol1 flags1 s
  = (true, s1, logs1) ->
  let s2 := snd (fst (Session.CleanupSession ENABLE_LOG s1)) in
  Session.CleanupSession ENABLE_LOG s1 = (true, s2, [])
  /\ Session.client s2 = mk_client host1 protocol1 flags1 false
  /\ fst (fst (Session.CleanupSession ENABLE_LOG s2)) = false
  /\ (forall (host2 login2 password2 : string) (port2 flags2 : N)
             (protocol2 : FTP_PROTOCOL),
         Str.empty host2 = false ->
         fst (fst (Session.InitSession ENABLE_LOG true host2 port2 login2 password2
                     protocol2 flags2 s2)) = true).
Proof.
  unfold Session.InitSession at 1.
  destruct (Str.empty host1); [discriminate|].
  destruct (m_pCurlSession (Session.client s)); [discriminate|].
  intros [= -> <- _]. cbn. repeat split.
  intros host2 login2 password2 port2 flags2 protocol2 Hh.
  unfold Session.InitSession. rewrite Hh. reflexivity.
Qed.

Lemma InitSession_CleanupSession_round_trip_witness :
  Session.CleanupSession 1 (Session.mk_state (mk_client "h" FTP 255 true) 21 "user" "pw")
  = (true, Session.mk_state (mk_client "h" FTP 255 false) 21 "user" "pw", [])
  /\ fst (fst (Session.CleanupSession 1
                 (Session.mk_state (mk_client "h" FTP 255 false) 21 "user" "pw"))) = false.
Proof.
  destruct (InitSession_CleanupSession_round_trip 1
              (Session.mk_state (mk_client "" FTP 255 false) 0 "" "")
              (Session.mk_state (mk_client "h" FTP 255 true) 21 "user" "pw") []
              true "h" "user" "pw" 21 255 FTP eq_refl) as (H1 & _ & H3 & _).
  split; [exact H1 | exact H3].
Defined.



(** ** Remote commands and listing *)

Lemma split_recompose (c : ascii) (s : string) :
  Str.contains c s = true ->
  Str.before_last c s +:+ String c EmptyString +:+ Text.after_last c s = s
  /\ Str.contains c (Text.after_last c s) = false.
Proof.
  induction s as [|d r IH]; [discriminate|].
  cbn [Str.contains Str.before_last Text.after_last].
  destruct (Str.contains c r) eqn:Er.
  - intros _. destruct (IH eq_refl) as [IH1 IH2].
    split; [now rewrite append_cons, IH1 | exact IH2].
  - rewrite orb_false_r. intros Hd. rewrite Hd.
    apply Ascii.eqb_eq in Hd. subst d. split; [reflexivity | exact Er].
Qed.

Lemma split_remote_addresses (c : CFTPClient) (strPath : string) :
  Commands.addresses c strPath
    (fst (Commands.split_remote c strPath)) (snd (Commands.split_remote c strPath)).
Proof.
  unfold Commands.split_remote, Commands.addresses.
  destruct (Str.contains "/" strPath) eqn:E; cbn [fst snd].
  - destruct (split_recompose "/" strPath E) as [H1 H2].
    split; [exact H2|]. left. exists (Str.before_last "/" strPath).
    split; [now rewrite H1 | reflexivity].
  - split; [exact E|]. right. now split.
Qed.

(** X21.  With a non-empty argument and a session, [CreateDir],
    [RemoveDir] and [RemoveFile] each perform exactly one request: the
    command [MKD], [RMD] or [DELE] followed by the last component of the
    path, which holds no ['/'], sent to the URL of the folder before it
    (of the root when the path has no ['/']); only [CreateDir] asks for
    missing directories to be created; the result is [true] exactly when
    the status is [CURLE_OK]. *)
Theorem quote_commands_request
    (ENABLE_LOG : N) (c : CFTPClient) (srv : Commands.remote) (strPath : string)
    (w : Commands.world) :
  Str.empty strPath = false ->
  m_pCurlSession c = true ->
  exists url name : string,
    Commands.addresses c strPath url name
    /\ (let req := Commands.mk_request url ["MKD " +:+ name] true true true false in
        fst (Commands.CreateDir ENABLE_LOG c srv strPath w) = (snd (srv req) =? CURLE_OK)
        /\ Commands.sent (snd (Commands.CreateDir ENABLE_LOG c srv strPath w))
           = (Commands.sent w ++ [req])%list)
    /\ (let req := Commands.mk_request url ["RMD " +:+ name] true true false false in
        fst (Commands.RemoveDir ENABLE_LOG c srv strPath w) = (snd (srv req) =? CURLE_OK)
        /\ Commands.sent (snd (Commands.RemoveDir ENABLE_LOG c srv strPath w))
           = (Commands.sent w ++ [req])%list)
    /\ (let req := Commands.mk_request url ["DELE " +:+ name] true true false false in
        fst (Commands.RemoveFile ENABLE_LOG c srv strPath w) = (snd (srv req) =? CURLE_OK)
        /\ Commands.sent (snd (Commands.RemoveFile ENABLE_LOG c srv strPath w))
           = (Commands.sent w ++ [req])%list).
Proof.
  intros Hne Hs.
  exists (fst (Commands.split_remote c strPath)), (snd (Commands.split_remote c strPath)).
  split; [apply split_remote_addresses|].
  unfold Commands.CreateDir, Commands.RemoveDir, Commands.RemoveFile.
  rewrite Hne, Hs. cbn [negb].
  destruct (Commands.split_remote c strPath) as [url name]. cbn [fst snd].
  repeat split;
    match goal with
    | |- context [negb (?r =? CURLE_OK)] => destruct (r =? CURLE_OK)
    end; cbn [negb fst snd]; try reflexivity;
    unfold Commands.log_if_enabled; destruct (FTPClient.log_enabled _ _); reflexivity.
Qed.

Lemma quote_commands_request_witness :
  exists url name : string,
    Commands.addresses Demo.client "upload/bookmarks" url name
    /\ (let req := Commands.mk_request url ["MKD " +:+ name] true true true false in
        fst (Commands.CreateDir 1 Demo.client (fun _ => ([], 0)) "upload/bookmarks"
               (Commands.mk_world [] []))
        = (snd ((fun _ : Commands.easy_request => (@nil string, 0)) req) =? CURLE_OK)
        /\ Commands.sent (snd (Commands.CreateDir 1 Demo.client (fun _ => ([], 0))
                                 "upload/bookmarks" (Commands.mk_world [] [])))
           = ([] ++ [req])%list)
    /\ (let req := Commands.mk_request url ["RMD " +:+ name] true true false false in
        fst (Commands.RemoveDir 1 Demo.client (fun _ => ([], 0)) "upload/bookmarks"
               (Commands.mk_world [] []))
        = (snd ((fun _ : Commands.easy_request => (@nil string, 0)) req) =? CURLE_OK)
        /\ Commands.sent (snd (Commands.RemoveDir 1 Demo.client (fun _ => ([], 0))
                                 "upload/bookmarks" (Commands.mk_world [] [])))
           = ([] ++ [req])%list)
    /\ (let req := Commands.mk_request url ["DELE " +:+ name] true true false false in
        fst (Commands.RemoveFile 1 Demo.client (fun _ => ([], 0)) "upload/bookmarks"
               (Commands.mk_world [] []))
        = (snd ((fun _ : Commands.easy_request => (@nil string, 0)) req) =? CURLE_OK)
        /\ Commands.sent (snd (Commands.RemoveFile 1 Demo.client (fun _ => ([], 0))
                                 "upload/bookmarks" (Commands.mk_world [] [])))
           = ([] ++ [req])%list).
Proof.
  apply (quote_commands_request 1 Demo.client (fun _ => ([], 0)) "upload/bookmarks"
           (Commands.mk_world [] [])); reflexivity.
Defined.

(** X22.  With the [ENABLE_LOG] bit unset, [CreateDir], [RemoveDir],
    [RemoveFile] and [List] never call the logger, whatever the argument,
    the session and the answer of the server. *)
Theorem commands_silent_when_logging_off
    (ENABLE_LOG : N) (c : CFTPClient) (srv : Commands.remote)
    (strPath strList : string) (bOnlyNames : bool) (w : Commands.world) :
  FTPClient.log_enabled ENABLE_LOG c = false ->
  Commands.logged (snd (Commands.CreateDir ENABLE_LOG c srv strPath w)) = Commands.logged w
  /\ Commands.logged (snd (Commands.RemoveDir ENABLE_LOG c srv strPath w))
     = Commands.logged w
  /\ Commands.logged (snd (Commands.RemoveFile ENABLE_LOG c srv strPath w))
     = Commands.logged w
  /\ Commands.logged (snd (Commands.List ENABLE_LOG c srv strPath strList bOnlyNames w))
     = Commands.logged w.
Proof.
  intros Hoff.
  unfold Commands.CreateDir, Commands.RemoveDir, Commands.RemoveFile, Commands.List,
    Commands.log_if_enabled.
  rewrite Hoff.
  destruct (Str.empty strPath); [now repeat split|].
  destruct (negb (m_pCurlSession c)); [now repeat split|].
  destruct (Commands.split_remote c strPath) as [url name].
  destruct (Commands.list_deliver _ _) as [ok data].
  repeat split;
    match goal with
    | |- context [negb (?r =? CURLE_OK)] => destruct (r =? CURLE_OK)
    | |- context [if ?r =? CURLE_OK then _ else _] => destruct (r =? CURLE_OK)
    end; reflexivity.
Qed.

Lemma commands_silent_when_logging_off_witness :
  Commands.logged (snd (Commands.CreateDir 1 Demo.quiet_client (fun _ => ([], 9))
                          "upload/bookmarks" (Commands.mk_world [] []))) = []
  /\ Commands.logged (snd (Commands.RemoveDir 1 Demo.quiet_client (fun _ => ([], 9))
                             "upload/bookmarks" (Commands.mk_world [] []))) = []
  /\ Commands.logged (snd (Commands.RemoveFile 1 Demo.quiet_client (fun _ => ([], 9))
                             "upload/bookmarks" (Commands.mk_world [] []))) = []
  /\ Commands.logged (snd (Commands.List 1 Demo.quiet_client (fun _ => ([], 9))
                             "upload/bookmarks" "" true (Commands.mk_world [] []))) = [].
Proof.
  apply (commands_silent_when_logging_off 1 Demo.quiet_client (fun _ => ([], 9))
           "upload/bookmarks" "" true (Commands.mk_world [] [])).
  reflexivity.
Defined.

Lemma list_deliver_appends (chunks : list string) : forall strList : string,
  (forall buff, In buff chunks -> Str.size buff < 2 ^ 64) ->
  Commands.list_deliver chunks (Some strList)
  = (true, Some (strList +:+ Text.flatten chunks)).
Proof.
  induction chunks as [|buff rest IH]; intros strList Hsz; simpl.
  - now rewrite append_empty_r.
  - assert (Hb : Str.size buff < 2 ^ 64) by (apply Hsz; now left).
    unfold FTPClient.write_accepted. rewrite size_mul_1, N.eqb_refl by exact Hb.
    unfold Str.size. rewrite Nat2N.id, take_all.
    rewrite IH by (intros b Hin; apply Hsz; now right).
    now rewrite append_assoc.
Qed.

(** X23.  With a non-empty folder and a session, [List] appends what the
    server delivers to the content [strList] already has (it does not
    clear the string, and keeps the delivered data also when the transfer
    then fails), performs one request for the URL of the folder carrying
    the names-only option as given, and returns [true] exactly when the
    status is [CURLE_OK]. *)
Theorem List_appends_listing
    (ENABLE_LOG : N) (c : CFTPClient) (srv : Commands.remote)
    (strRemoteFolder strList : string) (bOnlyNames : bool) (w : Commands.world) :
  Str.empty strRemoteFolder = false ->
  m_pCurlSession c = true ->
  let req := Commands.mk_request (FTPClient.ParseURL c strRemoteFolder) []
               false false false bOnlyNames in
  (forall buff, In buff (fst (srv req)) -> Str.size buff < 2 ^ 64) ->
  let r := Commands.List ENABLE_LOG c srv strRemoteFolder strList bOnlyNames w in
  fst (fst r) = (snd (srv req) =? CURLE_OK)
  /\ snd (fst r) = strList +:+ Text.flatten (fst (srv req))
  /\ Commands.sent (snd r) = (Commands.sent w ++ [req])%list.
Proof.
  intros Hne Hs req Hsz r. subst r. unfold Commands.List.
  rewrite Hne, Hs. cbn [negb]. fold req.
  rewrite (list_deliver_appends _ _ Hsz).
  destruct (snd (srv req) =? CURLE_OK); cbn [fst snd]; repeat split.
  unfold Commands.log_if_enabled. now destruct (FTPClient.log_enabled _ _).
Qed.

Lemma List_appends_listing_witness :
  fst (fst (Commands.List 1 Demo.client (fun _ => (["a.txt"; "b.txt"], 18))
              "upload" "seen before: " true (Commands.mk_world [] []))) = false
  /\ snd (fst (Commands.List 1 Demo.client (fun _ => (["a.txt"; "b.txt"], 18))
                 "upload" "seen before: " true (Commands.mk_world [] [])))
     = "seen before: a.txtb.txt".
Proof.
  destruct (List_appends_listing 1 Demo.client (fun _ => (["a.txt"; "b.txt"], 18))
              "upload" "seen before: " true (Commands.mk_world [] [])
              eq_refl eq_refl) as (H1 & H2 & _).
  - intros buff [<- | [<- | []]]; reflexivity.
  - split; [exact H1 | exact H2].
Defined.

(** ** Which directories the recursion visits *)

Lemma wc_deliver_keeps_dirs (chunks : list string) :
  forall (data : WildcardTransfersCallbackData) (f : storage),
    vecDirList (snd (fst (FTPClient.wc_deliver chunks data f))) = vecDirList data.
Proof.
  induction chunks as [|buff rest IH]; intros data f; simpl; [reflexivity|].
  unfold FTPClient.WriteItCallback.
  destruct (Ofs.is_open (ofsOutput data)).
  - destruct (Ofs.write _ _ _) as [o f1].
    destruct (FTPClient.write_accepted _ _); [now rewrite IH | reflexivity].
  - destruct (FTPClient.write_accepted _ _); [now rewrite IH | reflexivity].
Qed.

Lemma FileIsDownloadedCallback_keeps_dirs (data : WildcardTransfersCallbackData) :
  vecDirList (snd (FTPClient.FileIsDownloadedCallback data)) = vecDirList data.
Proof. unfold FTPClient.FileIsDownloadedCallback. now destruct (Ofs.is_open _). Qed.

Lemma wc_statemach_collects (LINUX : bool) (items : list remote_item) :
  forall (data data1 : WildcardTransfersCallbackData) (f f1 : storage),
    FTPClient.wc_statemach LINUX items data f = (None, data1, f1) ->
    vecDirList data1 = (vecDirList data ++ announced_dirs items)%list.
Proof.
  induction items as [|it rest IH]; intros data data1 f f1; simpl.
  - intros [= <- _]. now rewrite app_nil_r.
  - unfold FTPClient.FileIsComingCallback.
    destruct (filetype (ri_info it)) eqn:Eft;
      try (intros Hrun; apply IH in Hrun;
           now rewrite Hrun, FileIsDownloadedCallback_keeps_dirs).
    + (* a file *)
      destruct (Ofs.open _ _ _ _) as [o f0].
      destruct (negb (Ofs.is_open o)); [discriminate|].
      pose proof (wc_deliver_keeps_dirs (ri_chunks it) (set_ofsOutput data o) f0) as Hd.
      destruct (FTPClient.wc_deliver _ _ f0) as [[ok d2] f2]. cbn in Hd.
      destruct ok; [|discriminate].
      intros Hrun. apply IH in Hrun.
      now rewrite Hrun, FileIsDownloadedCallback_keeps_dirs, Hd.
    + (* a directory *)
      destruct (LocalFS.mkdir _ f _) as [[e|] f0];
        [destruct (negb (e =? LocalFS.EEXIST)); [discriminate|]|];
        intros Hrun; apply IH in Hrun;
        rewrite Hrun, FileIsDownloadedCallback_keeps_dirs; cbn;
        now rewrite <- app_assoc.
Qed.

(** X24.  After an enumeration that [DownloadWildcard] accepts, the
    collected subdirectory list is exactly the names of the entries
    announced as directories, in the order of announcement and with
    repetitions kept; these are the directories the recursion then
    visits. *)
Theorem enumeration_collects_announced_directories
    (LINUX : bool) (srv : server) (url out : string) (w w1 : world)
    (res : CURLcode) (data1 : WildcardTransfersCallbackData) :
  FTPClient.PerformWildcard LINUX srv url (mk_data Ofs.fresh out []) w = (res, data1, w1) ->
  res = CURLE_OK \/ res = CURLE_REMOTE_FILE_NOT_FOUND ->
  vecDirList data1 = announced_dirs (fst (srv_wildcard srv url)).
Proof.
  unfold FTPClient.PerformWildcard. intros Hp Hres.
  destruct (FTPClient.wc_statemach LINUX _ _ (fs (contact url w)))
    as [[[code|] d] f] eqn:Erun.
  - injection Hp as <- _ _. apply wc_statemach_stop_codes in Erun.
    destruct Erun as [-> | ->], Hres; discriminate.
  - injection Hp as _ <- _. now apply wc_statemach_collects in Erun.
Qed.

Lemma enumeration_collects_announced_directories_witness :
  vecDirList (mk_data Ofs.fresh "out/" ["2024"; "2025"])
  = announced_dirs (fst (srv_wildcard Demo.srv "ftp://h//reports//*")).
Proof.
  apply (enumeration_collects_announced_directories true Demo.srv "ftp://h//reports//*"
           "out/" Demo.start
           (mk_world (<["out/2025" := DirNode]>
                        (<["out/2024" := DirNode]>
                           (<["out/a.txt" := FileNode "hello"]> Demo.disk)))
              [] ["ftp://h//reports//*"])
           CURLE_OK).
  - reflexivity.
  - now left.
Defined.
